(** * PenSkin: the pen layer compositor of scratch-render

    A shallow embedding of [src/src/PenSkin.js].  JavaScript numbers are
    IEEE-754 binary64 values, so they are Rocq's primitive floats; the batch
    cursors are non-negative integer counters and are kept in [N].  A
    [Float32Array] is a list of numbers updated by index, every store going
    through single-precision rounding.  The host renderer, the GL context,
    twgl and the 2D canvas are external: every call to them is recorded, in
    call order, in the [calls] trace of the state.  Where a method throws
    (an invalid length given to [new Uint8Array], a property read on
    [null]), its model returns the state the method had reached. *)

From Stdlib Require Import ZArith NArith Floats Lia.
From stdpp Require Import base decidable option list.

Local Open Scope N_scope.

(** ** JavaScript numbers *)

(** [ToBoolean] on a number: [0], [-0] and [NaN] are falsy. *)
Definition truthy (x : float) : bool := negb (is_zero x || is_nan x).

(** [x === y] on numbers: IEEE equality ([NaN] differs from itself, the two
    zeros are equal). *)
Definition strict_eq (x y : float) : bool := PrimFloat.eqb x y.

(** An integer as a number (exact below [2^53], rounded to nearest above). *)
Definition Z2number (n : Z) : float :=
  SF2Prim (SpecFloat.binary_normalize prec emax n 0 false).

Definition N2number (n : N) : float := Z2number (Z.of_N n).

(** [Math.fround]: the nearest single-precision value (ties to even, overflow
    to infinity), as a number.  This is what a store into a [Float32Array]
    keeps. *)
Definition Math_fround (x : float) : float :=
  match Prim2SF x with
  | S754_finite s m e =>
      SF2Prim (SpecFloat.binary_normalize 24 128 (if s then Z.neg m else Z.pos m) e s)
  | _ => x
  end.

(** The integer [floor (x + 1/2)] of a finite number [(-1)^s * m * 2^e] with
    [e < 0], computed exactly. *)
Definition round_half_up (s : bool) (m : positive) (e : Z) : Z :=
  (((if s then Z.neg m else Z.pos m) * 2 + 2 ^ (- e)) / 2 ^ (- e + 1))%Z.

(** [Math.round]: the nearest integer, ties towards plus infinity; a result
    of zero keeps the sign of a negative argument. *)
Definition Math_round (x : float) : float :=
  match Prim2SF x with
  | S754_finite s m e =>
      if (0 <=? e)%Z then x
      else
        let n := round_half_up s m e in
        if (n =? 0)%Z then (if s then (-0)%float else 0%float) else Z2number n
  | _ => x
  end.

(** [Math.floor]. *)
Definition Math_floor (x : float) : float :=
  match Prim2SF x with
  | S754_finite s m e =>
      if (0 <=? e)%Z then x
      else
        let n := ((if s then Z.neg m else Z.pos m) / 2 ^ (- e))%Z in
        if (n =? 0)%Z then 0%float else Z2number n
  | _ => x
  end.

(** ** Typed arrays *)

(** A [Float32Array] holds numbers that are single-precision values. *)
Abbreviation Float32Array := (list float) (only parsing).

(** [new Float32Array(n)]: [n] zeros. *)
Definition new_Float32Array (n : N) : Float32Array := replicate (N.to_nat n) 0%float.

(** [a.length]. *)
Definition f32_length (a : Float32Array) : N := N.of_nat (length a).

(** [a[i] = v]: the value is rounded to single precision; a store past the
    end of a typed array is ignored. *)
Definition f32_set (a : Float32Array) (i : N) (v : float) : Float32Array :=
  <[N.to_nat i := Math_fround v]> a.

(** [a[i]]; [None] stands for [undefined] (an index past the end). *)
Definition f32_get (a : Float32Array) (i : N) : option float := a !! N.to_nat i.

(** [new Float32Array(a.buffer, 0, n)]: the view of the first [n] elements. *)
Definition f32_view (a : Float32Array) (n : N) : Float32Array := take (N.to_nat n) a.

(** [ToIndex] of a number (ECMAScript 7.1.22): [NaN] counts as [0], a
    fraction is dropped towards zero, and an integer outside
    [0 .. 2^53 - 1] is a [RangeError], here [None]. *)
Definition ToIndex (x : float) : option float :=
  match Prim2SF x with
  | S754_nan | S754_zero _ => Some 0%float
  | S754_infinity _ => None
  | S754_finite s m e =>
      let v := (if s then Z.neg m else Z.pos m) in
      let n := (if 0 <=? e then v * 2 ^ e else Z.quot v (2 ^ (- e)))%Z in
      if ((0 <=? n) && (n <=? 2 ^ 53 - 1))%Z then Some (Z2number n) else None
  end.

(** [new Uint8Array(length)] with a number: the length of the new array, or
    [None] for the [RangeError] of an invalid length.  An engine out of
    memory is not modelled. *)
Definition new_Uint8Array (length : float) : option float := ToIndex length.

(** ** External objects *)

Inductive WebGLTexture := Texture (id : N).
Inductive WebGLFramebuffer := Framebuffer (id : N).
(** A [twgl.BufferInfo]: the line geometry's own GL buffers, or the unit quad
    the host renderer shares ([renderer._bufferInfo]). *)
Inductive BufferInfo := Buffers (id : N) | renderer_bufferInfo.

#[global] Instance WebGLTexture_eq_dec : EqDecision WebGLTexture.
Proof. solve_decision. Defined.

#[global] Instance WebGLFramebuffer_eq_dec : EqDecision WebGLFramebuffer.
Proof. solve_decision. Defined.

#[global] Instance BufferInfo_eq_dec : EqDecision BufferInfo.
Proof. solve_decision. Defined.

(** [ShaderManager.DRAW_MODE], as far as the pen layer uses it. *)
Inductive DRAW_MODE := DRAW_MODE_default | DRAW_MODE_line.

(** A compiled program, named by the key it was looked up with. *)
Record ProgramInfo := { program_mode : DRAW_MODE; program_effects : N }.

Definition getShader (mode : DRAW_MODE) (effectBits : N) : ProgramInfo :=
  {| program_mode := mode; program_effects := effectBits |}.

Record HTMLCanvasElement := { canvas_width : float; canvas_height : float }.

(** What [twgl.createFramebufferInfo (gl, attachments, width, height)] returns. *)
Record FramebufferInfo := {
  framebuffer : WebGLFramebuffer;
  fb_attachment : option WebGLTexture;
  fb_width : float;
  fb_height : float
}.

Record Rectangle := { left : float; right : float; bottom : float; top : float }.

(** [rect.initFromBounds (left, right, bottom, top)]. *)
Definition initFromBounds (l r b t : float) : Rectangle :=
  {| left := l; right := r; bottom := b; top := t |}.

(** Modelled from the spec: [Rectangle.js] is not among the sources.  The
    bounds are "a centered rectangle [-W/2, W/2] x [-H/2, H/2] derived from
    current surface size" (section 3), so the extent along an axis is the
    distance between the two sides. *)
Definition Rectangle_width (r : Rectangle) : float := abs (left r - right r).
Definition Rectangle_height (r : Rectangle) : float := abs (top r - bottom r).

(** Matrices built with [twgl.m4], kept symbolic. *)
Inductive m4 :=
| m4_ortho (l r b t near far : float)
| m4_translation (x y z : float)
| m4_scaling (x y z : float)
| m4_multiply (a b : m4).

Inductive Uniforms :=
| line_uniforms (u_skin : option WebGLTexture) (u_projectionMatrix : m4)
    (u_stageSize : float * float)
| rectangle_uniforms (u_skin : option WebGLTexture) (u_projectionMatrix u_modelMatrix : m4).

Inductive LineAttrib := attr_a_lineColor | attr_a_penPoints | attr_a_lineThicknessAndLength.

Inductive TextureSource := src_canvas | src_size (width height : float).

(** The draw regions of the host renderer: the two this component owns
    (constructor, lines 114-123) and those of other components. *)
Inductive RegionId :=
| _lineOnBufferDrawRegionId
| _toBufferDrawRegionId
| externalRegion (n : N).

#[global] Instance RegionId_eq_dec : EqDecision RegionId.
Proof. solve_decision. Defined.

(** Listeners of [RenderConstants.Events.NativeSizeChanged]. *)
Inductive Listener := onNativeSizeChanged_listener (skin : Z).

#[global] Instance Listener_eq_dec : EqDecision Listener.
Proof. solve_decision. Defined.

(** [RenderConstants.ID_NONE]: "the ID value to use for no item or when an
    object has been disposed". *)
Definition ID_NONE : Z := (-1)%Z.

(** Calls into the external collaborators, with the arguments that vary. *)
Inductive Call :=
| renderer_on_NativeSizeChanged (l : Listener)
| renderer_removeListener_NativeSizeChanged (l : Listener)
| gl_deleteTexture (t : option WebGLTexture)
| gl_deleteFramebuffer (f : WebGLFramebuffer)
| gl_clearColor (r g b a : float)
| gl_clear_COLOR_BUFFER_BIT
| gl_viewport (x y w h : float)
| gl_useProgram (p : ProgramInfo)
| gl_bindTexture (t : option WebGLTexture)
| gl_texImage2D_canvas
| gl_readPixels (x y w h : float)
| twgl_bindFramebufferInfo (f : option FramebufferInfo)
| twgl_createTexture (t : WebGLTexture) (src : TextureSource)
| twgl_createFramebufferInfo (f : FramebufferInfo)
| twgl_resizeFramebufferInfo (f : option FramebufferInfo) (attachment : option WebGLTexture)
    (w h : float)
| twgl_createBufferInfoFromArrays (b : BufferInfo)
| twgl_setUniforms (p : ProgramInfo) (u : Uniforms)
| twgl_setAttribInfoBufferFromArray (attr : LineAttrib) (data : Float32Array)
| twgl_setBuffersAndAttributes (p : ProgramInfo) (b : option BufferInfo)
| twgl_drawBufferInfo (b : option BufferInfo) (count : option float)
| twgl_setTextureParameters (t : option WebGLTexture)
| ctx_clearRect (x y w h : float)
| ctx_drawImage (stampElement : N) (x y : float)
| ctx_createImageData (w h : float)
| imageData_set (pixels : option float)
| silhouette_update (imageData : option (float * float)) (isPremultiplied : bool)
| external_region_enter (n : N)
| external_region_exit (n : N).

(** ** Pen attributes *)

(** A colour [[r, g, b, a]]; [c_0 c] is [c[0]]. *)
Record Color4f := color { c_0 : float; c_1 : float; c_2 : float; c_3 : float }.

(** [PenSkin#PenAttributes]; [None] is an omitted property. *)
Record PenAttributes := {
  diameter : option float;
  color4f : option Color4f
}.

Definition DefaultPenAttributes_color4f : Color4f := color 0 0 1 1.
Definition DefaultPenAttributes_diameter : float := 1%float.

(** [penAttributes.diameter || DefaultPenAttributes.diameter]. *)
Definition diameter_or_default (penAttributes : PenAttributes) : float :=
  match diameter penAttributes with
  | Some d => if truthy d then d else DefaultPenAttributes_diameter
  | None => DefaultPenAttributes_diameter
  end.

(** [penAttributes.color4f || DefaultPenAttributes.color4f] (an array is
    always truthy). *)
Definition color4f_or_default (penAttributes : PenAttributes) : Color4f :=
  match color4f penAttributes with
  | Some c => c
  | None => DefaultPenAttributes_color4f
  end.

(** ** The state: the skin's fields, then the host renderer's *)

Record State : Type := mkState {
  _id : Z;  (* Skin: the skin's id *)
  _rotationCenter : float * float;  (* Skin *)
  _texture : option WebGLTexture;  (* Skin; here the texture that mirrors the canvas *)
  _canvas : HTMLCanvasElement;
  _exportTexture : option WebGLTexture;
  _framebuffer : option FramebufferInfo;
  _silhouetteBuffer : option FramebufferInfo;
  _canvasDirty : bool;
  _silhouetteDirty : bool;
  _silhouettePixels : option float;  (* the length of the Uint8Array *)
  _silhouetteImageData : option (float * float);  (* the size it was created for *)
  renderQuality : float;
  _nativeSize : float * float;
  _lineBufferInfo : option BufferInfo;
  _stampShader : ProgramInfo;
  _lineShader : ProgramInfo;
  _bounds : Rectangle;
  a_lineColor : Float32Array;
  a_lineColorIndex : N;
  a_lineThicknessAndLength : Float32Array;
  a_lineThicknessAndLengthIndex : N;
  a_penPoints : Float32Array;
  a_penPointsIndex : N;
  _regionId : option RegionId;  (* renderer: the region entered, if any *)
  _listeners : list Listener;  (* renderer: the NativeSizeChanged listeners *)
  calls : list Call;  (* the external calls made so far, oldest first *)
  next_object : N  (* the id of the next GL object created *)
}.

(** [this.f = v]: the state with field [f] replaced by the value [v] in
    scope.  The record is rebuilt from its projections, and the projection
    being set is abstracted and instantiated with [v]. *)
Ltac set_field f :=
  lazymatch goal with
  | v : _, s : State |- State =>
      let e := constr:(
        mkState (_id s) (_rotationCenter s) (_texture s) (_canvas s) (_exportTexture s)
          (_framebuffer s) (_silhouetteBuffer s) (_canvasDirty s) (_silhouetteDirty s)
          (_silhouettePixels s) (_silhouetteImageData s) (renderQuality s) (_nativeSize s)
          (_lineBufferInfo s) (_stampShader s) (_lineShader s) (_bounds s) (a_lineColor s)
          (a_lineColorIndex s) (a_lineThicknessAndLength s) (a_lineThicknessAndLengthIndex
          s) (a_penPoints s) (a_penPointsIndex s) (_regionId s) (_listeners s) (calls s)
          (next_object s)) in
      let p := eval pattern (f s) in e in
      lazymatch p with
      | ?g _ => let r := eval cbv beta in (g v) in exact r
      end
  end.

Definition set_id (v : Z) (s : State) : State := ltac:(set_field _id).
Definition set_rotationCenter (v : float * float) (s : State) : State :=
  ltac:(set_field _rotationCenter).
Definition set_texture (v : option WebGLTexture) (s : State) : State := ltac:(set_field _texture).
Definition set_canvas (v : HTMLCanvasElement) (s : State) : State := ltac:(set_field _canvas).
Definition set_exportTexture (v : option WebGLTexture) (s : State) : State :=
  ltac:(set_field _exportTexture).
Definition set_framebuffer (v : option FramebufferInfo) (s : State) : State :=
  ltac:(set_field _framebuffer).
Definition set_silhouetteBuffer (v : option FramebufferInfo) (s : State) : State :=
  ltac:(set_field _silhouetteBuffer).
Definition set_canvasDirty (v : bool) (s : State) : State := ltac:(set_field _canvasDirty).
Definition set_silhouetteDirty (v : bool) (s : State) : State :=
  ltac:(set_field _silhouetteDirty).
Definition set_silhouettePixels (v : option float) (s : State) : State :=
  ltac:(set_field _silhouettePixels).
Definition set_silhouetteImageData (v : option (float * float)) (s : State) : State :=
  ltac:(set_field _silhouetteImageData).
Definition set_renderQuality (v : float) (s : State) : State := ltac:(set_field renderQuality).
Definition set_nativeSize (v : float * float) (s : State) : State := ltac:(set_field _nativeSize).
Definition set_lineBufferInfo (v : option BufferInfo) (s : State) : State :=
  ltac:(set_field _lineBufferInfo).
Definition set_bounds (v : Rectangle) (s : State) : State := ltac:(set_field _bounds).
Definition set_a_lineColor (v : Float32Array) (s : State) : State := ltac:(set_field a_lineColor).
Definition set_a_lineColorIndex (v : N) (s : State) : State := ltac:(set_field a_lineColorIndex).
Definition set_a_lineThicknessAndLength (v : Float32Array) (s : State) : State :=
  ltac:(set_field a_lineThicknessAndLength).
Definition set_a_lineThicknessAndLengthIndex (v : N) (s : State) : State :=
  ltac:(set_field a_lineThicknessAndLengthIndex).
Definition set_a_penPoints (v : Float32Array) (s : State) : State := ltac:(set_field a_penPoints).
Definition set_a_penPointsIndex (v : N) (s : State) : State := ltac:(set_field a_penPointsIndex).
Definition set_regionId (v : option RegionId) (s : State) : State := ltac:(set_field _regionId).
Definition set_listeners (v : list Listener) (s : State) : State := ltac:(set_field _listeners).
Definition set_calls (v : list Call) (s : State) : State := ltac:(set_field calls).
Definition set_next_object (v : N) (s : State) : State := ltac:(set_field next_object).

Local Open Scope float_scope.

(** ** External calls and objects *)

(** One call to an external collaborator, appended to the trace. *)
Definition call (c : Call) (s : State) : State := set_calls (calls s ++ [c]) s.

(** The id the next GL object gets is used up. *)
Definition use_object (s : State) : State := set_next_object (N.succ (next_object s)) s.

(** [for (let i = 0; i < n; i++) body]. *)
Fixpoint for_loop (n : nat) (body : State -> State) (s : State) : State :=
  match n with
  | O => s
  | S n => for_loop n body (body s)
  end.

(** ** Line geometry (lines 243-290) *)

(** The loop that fills [a_position] with the corner codes of one quad per
    segment; [fuel] bounds the number of rounds. *)
Fixpoint fill_a_position (fuel : nat) (i : N) (a : Float32Array) : Float32Array :=
  match fuel with
  | O => a
  | S fuel =>
      if (i <? f32_length a)%N then
        let a := f32_set a (i + 0) 1 in
        let a := f32_set a (i + 1) 0 in
        let a := f32_set a (i + 2) 0 in
        let a := f32_set a (i + 3) 0 in
        let a := f32_set a (i + 4) 1 in
        let a := f32_set a (i + 5) 1 in
        let a := f32_set a (i + 6) 1 in
        let a := f32_set a (i + 7) 1 in
        let a := f32_set a (i + 8) 0 in
        let a := f32_set a (i + 9) 0 in
        let a := f32_set a (i + 10) 0 in
        let a := f32_set a (i + 11) 1 in
        fill_a_position fuel (i + 12) a
      else a
  end.

(** [this.a_position]: written once here and never again, so it is a
    constant of the model and not a field of the state. *)
Definition a_position : Float32Array :=
  fill_a_position 2730 0%N (new_Float32Array 32760).

Definition _createLineGeometry (s : State) : State :=
  let s := set_a_lineColor (new_Float32Array 65520) s in
  let s := set_a_lineColorIndex 0%N s in
  let s := set_a_lineThicknessAndLength (new_Float32Array 32760) s in
  let s := set_a_lineThicknessAndLengthIndex 0%N s in
  let s := set_a_penPoints (new_Float32Array 65520) s in
  let s := set_a_penPointsIndex 0%N s in
  let quads := Buffers (next_object s) in
  let s := use_object s in
  let s := call (twgl_createBufferInfoFromArrays quads) s in
  set_lineBufferInfo (Some quads) s.

(** ** The line region (lines 295-334) and the flush (lines 398-424) *)

Definition _enterDrawLineOnBuffer (s : State) : State :=
  let bounds := _bounds s in
  let currentShader := _lineShader s in
  let projection :=
    m4_ortho 0 (Rectangle_width bounds) 0 (Rectangle_height bounds) (-1) 1 in
  let s := set_a_lineColorIndex 0%N s in
  let s := set_a_lineThicknessAndLengthIndex 0%N s in
  let s := set_a_penPointsIndex 0%N s in
  let s := call (twgl_bindFramebufferInfo (_framebuffer s)) s in
  let s := call (gl_viewport 0 0 (Rectangle_width bounds) (Rectangle_height bounds)) s in
  let s := call (gl_useProgram currentShader) s in
  call (twgl_setUniforms currentShader
          (line_uniforms (_texture s) projection (_nativeSize s))) s.

Definition _flushLines (s : State) : State :=
  let currentShader := _lineShader s in
  let s :=
    if (a_lineColorIndex s <? 1000)%N then
      let s := call (twgl_setAttribInfoBufferFromArray attr_a_lineColor
                       (f32_view (a_lineColor s) (a_lineColorIndex s))) s in
      let s := call (twgl_setAttribInfoBufferFromArray attr_a_penPoints
                       (f32_view (a_penPoints s) (a_penPointsIndex s))) s in
      call (twgl_setAttribInfoBufferFromArray attr_a_lineThicknessAndLength
              (f32_view (a_lineThicknessAndLength s) (a_lineThicknessAndLengthIndex s))) s
    else
      let s := call (twgl_setAttribInfoBufferFromArray attr_a_lineColor (a_lineColor s)) s in
      let s := call (twgl_setAttribInfoBufferFromArray attr_a_penPoints (a_penPoints s)) s in
      call (twgl_setAttribInfoBufferFromArray attr_a_lineThicknessAndLength
              (a_lineThicknessAndLength s)) s in
  let s := call (twgl_setBuffersAndAttributes currentShader (_lineBufferInfo s)) s in
  let s := call (twgl_drawBufferInfo (_lineBufferInfo s)
                   (Some (N2number (a_lineThicknessAndLengthIndex s) / 2))) s in
  let s := set_a_lineColorIndex 0%N s in
  let s := set_a_lineThicknessAndLengthIndex 0%N s in
  let s := set_a_penPointsIndex 0%N s in
  set_silhouetteDirty true s.

Definition _exitDrawLineOnBuffer (s : State) : State :=
  let s := if negb (a_lineColorIndex s =? 0)%N then _flushLines s else s in
  call (twgl_bindFramebufferInfo None) s.

(** ** Rectangle draws (lines 451-519) *)

Definition _drawRectangleRegionEnter (currentShader : ProgramInfo) (bounds : Rectangle)
    (s : State) : State :=
  let s := call (gl_viewport 0 0 (Rectangle_width bounds) (Rectangle_height bounds)) s in
  let s := call (gl_useProgram currentShader) s in
  call (twgl_setBuffersAndAttributes currentShader (Some renderer_bufferInfo)) s.

(** [x] and [y] are [None] when the caller leaves them out. *)
Definition _drawRectangle (currentShader : ProgramInfo) (texture : option WebGLTexture)
    (bounds : Rectangle) (x_arg y_arg : option float) (s : State) : State :=
  let x := default (- canvas_width (_canvas s) / 2) x_arg in
  let y := default (canvas_height (_canvas s) / 2) y_arg in
  let projection :=
    m4_ortho (left bounds) (right bounds) (top bounds) (bottom bounds) (-1) 1 in
  let uniforms :=
    rectangle_uniforms texture projection
      (m4_multiply
         (m4_translation (- x - Rectangle_width bounds / 2)
            (- y + Rectangle_height bounds / 2) 0)
         (m4_scaling (Rectangle_width bounds) (Rectangle_height bounds) 0)) in
  let s := call (twgl_setTextureParameters texture) s in
  let s := call (twgl_setUniforms currentShader uniforms) s in
  call (twgl_drawBufferInfo (Some renderer_bufferInfo) None) s.

Definition _enterDrawToBuffer (s : State) : State :=
  let s := call (twgl_bindFramebufferInfo (_framebuffer s)) s in
  _drawRectangleRegionEnter (_stampShader s) (_bounds s) s.

Definition _exitDrawToBuffer (s : State) : State :=
  call (twgl_bindFramebufferInfo None) s.

(** ** The draw region guard of the host renderer *)

(** [regionId.enter ()] and [regionId.exit ()]: for the pen layer's two
    regions the closures of the constructor (lines 114-123); a region of
    another component touches nothing of the pen layer. *)
Definition region_enter (regionId : RegionId) : State -> State :=
  match regionId with
  | _lineOnBufferDrawRegionId => _enterDrawLineOnBuffer
  | _toBufferDrawRegionId => _enterDrawToBuffer
  | externalRegion n => call (external_region_enter n)
  end.

Definition region_exit (regionId : RegionId) : State -> State :=
  match regionId with
  | _lineOnBufferDrawRegionId => _exitDrawLineOnBuffer
  | _toBufferDrawRegionId => _exitDrawToBuffer
  | externalRegion n => call (external_region_exit n)
  end.

(** Modelled from the spec: [RenderWebGL.js], which defines
    [enterDrawRegion], is not among the sources.  Section 4.2: "enter
    (regionId): if the guard is already inside regionId, no-op; otherwise
    runs regionId.exit () for the currently-entered region (if any) and
    regionId.enter () for the new one, then records regionId as current". *)
Definition enterDrawRegion (regionId : RegionId) (s : State) : State :=
  if bool_decide (_regionId s = Some regionId) then s
  else
    let s := match _regionId s with
             | Some current => region_exit current s
             | None => s
             end in
    let s := region_enter regionId s in
    set_regionId (Some regionId) s.

(** Modelled from the spec: section 4.2, "exit (regionId) unconditionally
    runs the exit callback and clears current-region state if it matches". *)
Definition exitDrawRegion (regionId : RegionId) (s : State) : State :=
  let s := region_exit regionId s in
  if bool_decide (_regionId s = Some regionId) then set_regionId None s else s.

(** ** Appending a segment to the batch (lines 346-396) *)

(** One round of the loop: the records of one vertex. *)
Definition write_vertex (p0 p1 p2 p3 lineThickness lineLength x0 y0 lineDiffX lineDiffY : float)
    (s : State) : State :=
  let s := set_a_lineColor (f32_set (a_lineColor s) (a_lineColorIndex s) p0) s in
  let s := set_a_lineColorIndex (a_lineColorIndex s + 1)%N s in
  let s := set_a_lineColor (f32_set (a_lineColor s) (a_lineColorIndex s) p1) s in
  let s := set_a_lineColorIndex (a_lineColorIndex s + 1)%N s in
  let s := set_a_lineColor (f32_set (a_lineColor s) (a_lineColorIndex s) p2) s in
  let s := set_a_lineColorIndex (a_lineColorIndex s + 1)%N s in
  let s := set_a_lineColor (f32_set (a_lineColor s) (a_lineColorIndex s) p3) s in
  let s := set_a_lineColorIndex (a_lineColorIndex s + 1)%N s in
  let s := set_a_lineThicknessAndLength
             (f32_set (a_lineThicknessAndLength s) (a_lineThicknessAndLengthIndex s)
                lineThickness) s in
  let s := set_a_lineThicknessAndLengthIndex (a_lineThicknessAndLengthIndex s + 1)%N s in
  let s := set_a_lineThicknessAndLength
             (f32_set (a_lineThicknessAndLength s) (a_lineThicknessAndLengthIndex s)
                lineLength) s in
  let s := set_a_lineThicknessAndLengthIndex (a_lineThicknessAndLengthIndex s + 1)%N s in
  let s := set_a_penPoints (f32_set (a_penPoints s) (a_penPointsIndex s) x0) s in
  let s := set_a_penPointsIndex (a_penPointsIndex s + 1)%N s in
  let s := set_a_penPoints (f32_set (a_penPoints s) (a_penPointsIndex s) (- y0)) s in
  let s := set_a_penPointsIndex (a_penPointsIndex s + 1)%N s in
  let s := set_a_penPoints (f32_set (a_penPoints s) (a_penPointsIndex s) lineDiffX) s in
  let s := set_a_penPointsIndex (a_penPointsIndex s + 1)%N s in
  let s := set_a_penPoints (f32_set (a_penPoints s) (a_penPointsIndex s) (- lineDiffY)) s in
  set_a_penPointsIndex (a_penPointsIndex s + 1)%N s.

(** The scratch array [__premultipliedColor] is overwritten before every use
    and read nowhere else, so its four entries are local values here. *)
Definition _drawLineOnBuffer (penAttributes : PenAttributes) (x0 y0 x1 y1 : float)
    (s : State) : State :=
  let s := enterDrawRegion _lineOnBufferDrawRegionId s in
  let s := if (f32_length (a_lineColor s) <? a_lineColorIndex s + 24)%N
           then _flushLines s else s in
  let penColor := color4f_or_default penAttributes in
  let p0 := c_0 penColor * c_3 penColor in
  let p1 := c_1 penColor * c_3 penColor in
  let p2 := c_2 penColor * c_3 penColor in
  let p3 := c_3 penColor in
  let lineDiffX := x1 - x0 in
  let lineDiffY := y1 - y0 in
  let lineLength := sqrt ((lineDiffX * lineDiffX) + (lineDiffY * lineDiffY)) in
  let lineThickness := diameter_or_default penAttributes in
  for_loop 6 (write_vertex p0 p1 p2 p3 lineThickness lineLength x0 y0 lineDiffX lineDiffY) s.

(** ** Public drawing operations *)

(** Lines 225-238. *)
Definition drawLine (penAttributes : PenAttributes) (x0 y0 x1 y1 : float) (s : State) : State :=
  let diameter := diameter_or_default penAttributes in
  let offset := if strict_eq diameter 1 || strict_eq diameter 3 then 0.5 else 0 in
  let s := _drawLineOnBuffer penAttributes
             (x0 + offset) (y0 + offset) (x1 + offset) (y1 + offset) s in
  set_silhouetteDirty true s.

(** Lines 212-215. *)
Definition drawPoint (penAttributes : PenAttributes) (x y : float) (s : State) : State :=
  drawLine penAttributes x y x y s.

(** Lines 432-439. *)
Definition drawStamp (stampElement : N) (x y : float) (s : State) : State :=
  let s := call (ctx_drawImage stampElement
                   (fst (_rotationCenter s) + x) (snd (_rotationCenter s) - y)) s in
  let s := set_canvasDirty true s in
  set_silhouetteDirty true s.

(** Lines 192-204. *)
Definition clear (s : State) : State :=
  let s := call (twgl_bindFramebufferInfo (_framebuffer s)) s in
  let s := call (gl_clearColor 0 0 0 0) s in
  let s := call gl_clear_COLOR_BUFFER_BIT s in
  let s := call (ctx_clearRect 0 0 (canvas_width (_canvas s)) (canvas_height (_canvas s))) s in
  set_silhouetteDirty true s.

(** ** Merging the raster surface (lines 527-554) *)

(** The body of [_drawToBuffer (texture, x, y)]; an argument is [None] when
    the caller leaves it out, and [self] is the call [this._drawToBuffer ()]
    of line 529. *)
Definition _drawToBuffer_body (self : State -> State)
    (texture_arg : option WebGLTexture) (x_arg y_arg : option float) (s : State) : State :=
  let texture := match texture_arg with Some t => Some t | None => _texture s end in
  let x := default (- canvas_width (_canvas s) / 2) x_arg in
  let y := default (canvas_height (_canvas s) / 2) y_arg in
  let s := if bool_decide (texture <> _texture s) && _canvasDirty s then self s else s in
  let s :=
    if bool_decide (texture = _texture s) then
      let s := call (gl_bindTexture texture) s in
      let s := call gl_texImage2D_canvas s in
      let s := call (ctx_clearRect 0 0 (canvas_width (_canvas s))
                       (canvas_height (_canvas s))) s in
      set_canvasDirty false s
    else s in
  let currentShader := _stampShader s in
  let bounds := _bounds s in
  let s := enterDrawRegion _toBufferDrawRegionId s in
  let s := _drawRectangle currentShader texture bounds (Some x) (Some y) s in
  set_silhouetteDirty true s.

(** [this._drawToBuffer ()]: every argument takes its default, so the texture
    is [this._texture] and the guard of line 528 is false; the inner call is
    never made. *)
Definition _drawToBuffer_default : State -> State :=
  _drawToBuffer_body (fun s => s) None None None.

Definition _drawToBuffer : option WebGLTexture -> option float -> option float ->
    State -> State :=
  _drawToBuffer_body _drawToBuffer_default.

(** Lines 181-187; the requested size is not used. *)
Definition getTexture (pixelsWide pixelsTall : float) (s : State)
  : option WebGLTexture * State :=
  let s := if _canvasDirty s then _drawToBuffer None None None s else s in
  (_exportTexture s, s).

(** ** Size and quality (lines 560-648) *)

(** [get size ()], lines 170-173. *)
Definition size (s : State) : float * float := _nativeSize s.

(** [get isRaster ()], lines 163-165. *)
Definition isRaster (s : State) : bool := true.

(** [_setCanvasSize ([width, height])], lines 571-640, in three stages.  The
    canvas keeps the numbers it is given; the DOM's own conversion of a
    canvas dimension is outside the component. *)

(** Lines 572-629: the new bounds, canvas size, textures and framebuffers. *)
Definition _setCanvasSize_allocate (width height : float) (s : State) : State :=
  let s := set_bounds (initFromBounds (width / 2) (width / (-2)) (height / 2) (height / (-2))) s in
  let s := set_canvas {| canvas_width := width; canvas_height := height |} s in
  let s := set_rotationCenter (fst (size s) / 2, snd (size s) / 2) s in
  let texture := Texture (next_object s) in
  let s := use_object s in
  let s := call (twgl_createTexture texture src_canvas) s in
  let s := set_texture (Some texture) s in
  let exportTexture := Texture (next_object s) in
  let s := use_object s in
  let s := call (twgl_createTexture exportTexture (src_size width height)) s in
  let s := set_exportTexture (Some exportTexture) s in
  let s := match _framebuffer s with
           | Some f => call (gl_deleteFramebuffer (framebuffer f)) s
           | None => s
           end in
  let s := match _silhouetteBuffer s with
           | Some f => call (gl_deleteFramebuffer (framebuffer f)) s
           | None => s
           end in
  let s :=
    if bool_decide (is_Some (_framebuffer s)) && false then
      let s := call (twgl_resizeFramebufferInfo (_framebuffer s) (_exportTexture s)
                       width height) s in
      call (twgl_resizeFramebufferInfo (_silhouetteBuffer s) None width height) s
    else
      let f := {| framebuffer := Framebuffer (next_object s);
                  fb_attachment := _exportTexture s;
                  fb_width := width; fb_height := height |} in
      let s := use_object s in
      let s := call (twgl_createFramebufferInfo f) s in
      let s := set_framebuffer (Some f) s in
      let b := {| framebuffer := Framebuffer (next_object s);
                  fb_attachment := None;
                  fb_width := width; fb_height := height |} in
      let s := use_object s in
      let s := call (twgl_createFramebufferInfo b) s in
      set_silhouetteBuffer (Some b) s in
  let s := call (gl_clearColor 0 0 0 0) s in
  call gl_clear_COLOR_BUFFER_BIT s.

(** Lines 636-639 once the pixel buffer of [pixels] bytes is allocated. *)
Definition _setCanvasSize_buffers (pixels width height : float) (s : State) : State :=
  let s := set_silhouettePixels (Some pixels) s in
  let s := call (ctx_createImageData width height) s in
  let s := set_silhouetteImageData (Some (width, height)) s in
  set_silhouetteDirty true s.

(** Lines 636-639: the read-back buffers, and the silhouette is stale.  When
    [new Uint8Array] throws its [RangeError] the method ends there: the
    canvas and the framebuffers are resized already, the buffers of the
    former size stay, and neither line 637 nor line 639 is run. *)
Definition _setCanvasSize_finish (width height : float) (s : State) : State :=
  match new_Uint8Array (Math_floor (width * height * 4)) with
  | Some pixels => _setCanvasSize_buffers pixels width height s
  | None => s
  end.

(** Whether [_setCanvasSize] returns, or ends in the [RangeError]. *)
Definition _setCanvasSize_returns (width height : float) : bool :=
  match new_Uint8Array (Math_floor (width * height * 4)) with
  | Some _ => true
  | None => false
  end.

Definition _setCanvasSize (width height : float) (s : State) : State :=
  let oldExportTexture := _exportTexture s in
  let s := _setCanvasSize_allocate width height s in
  let s := match oldExportTexture with
           | Some t => _drawToBuffer (Some t) None None s
           | None => s
           end in
  _setCanvasSize_finish width height s.

(** Lines 560-564; [newSize] is [event.newSize]. *)
Definition onNativeSizeChanged (newSize : float * float) (s : State) : State :=
  let s := set_nativeSize newSize s in
  _setCanvasSize (fst newSize) (snd newSize) s.

(** Lines 642-648. *)
Definition setRenderQuality (quality : float) (s : State) : State :=
  if strict_eq (renderQuality s) quality then s
  else
    let s := set_renderQuality quality s in
    _setCanvasSize (Math_round (fst (_nativeSize s) * quality))
      (Math_round (snd (_nativeSize s) * quality)) s.

(** ** Pen attributes on a 2D context (lines 656-669) *)

(** An assignment to a property of a [CanvasRenderingContext2D].  The
    string assigned to [strokeStyle] is the template
    [rgba(${r},${g},${b},${a})] of four numbers, kept as the four numbers. *)
Inductive ContextAssignment :=
| strokeStyle_rgba (r g b a : float)
| lineCap_round
| lineWidth (w : float).

(** [DefaultPenAttributes], lines 23-26. *)
Definition DefaultPenAttributes : PenAttributes :=
  {| diameter := Some DefaultPenAttributes_diameter;
     color4f := Some DefaultPenAttributes_color4f |}.

(** [_setAttributes (context, penAttributes)]: the assignments it makes to
    the context, in order; [None] is an omitted [penAttributes]. *)
Definition _setAttributes (penAttributes : option PenAttributes) : list ContextAssignment :=
  let penAttributes := default DefaultPenAttributes penAttributes in
  let color4f := color4f_or_default penAttributes in
  let diameter := diameter_or_default penAttributes in
  let r := Math_round (c_0 color4f * 255) in
  let g := Math_round (c_1 color4f * 255) in
  let b := Math_round (c_2 color4f * 255) in
  let a := c_3 color4f in
  [strokeStyle_rgba r g b a; lineCap_round; lineWidth diameter].

(** ** The silhouette (lines 675-698) *)

(** Line 694 dereferences [_silhouetteImageData] and copies
    [_silhouettePixels]: while either is [null] it is a [TypeError], and the
    method ends after the read-back request. *)
Definition updateSilhouette (s : State) : State :=
  if _silhouetteDirty s then
    let s := if _canvasDirty s then _drawToBuffer None None None s else s in
    let s := enterDrawRegion _toBufferDrawRegionId s in
    let s := call (gl_readPixels 0 0 (canvas_width (_canvas s)) (canvas_height (_canvas s))) s in
    match _silhouetteImageData s, _silhouettePixels s with
    | Some _, Some _ =>
        let s := call (imageData_set (_silhouettePixels s)) s in
        let s := call (silhouette_update (_silhouetteImageData s) true) s in
        set_silhouetteDirty false s
    | _, _ => s
    end
  else s.

(** ** Construction and disposal (lines 80-158) *)

(** [listeners.remove (l)]: the first occurrence goes. *)
Fixpoint remove_listener (l : Listener) (ls : list Listener) : list Listener :=
  match ls with
  | [] => []
  | l' :: ls => if bool_decide (l' = l) then ls else l' :: remove_listener l ls
  end.

(** Modelled from the spec: [Skin.js] is not among the sources.  The generic
    skin abstraction owns "id, size, silhouette-update API" (section 1) and
    nothing of the pen layer's GL objects; disposing it gives up the id
    ([RenderConstants.ID_NONE]). *)
Definition Skin_dispose (s : State) : State := set_id ID_NONE s.

Definition dispose (s : State) : State :=
  let l := onNativeSizeChanged_listener (_id s) in
  let s := call (renderer_removeListener_NativeSizeChanged l) s in
  let s := set_listeners (remove_listener l (_listeners s)) s in
  let s := call (gl_deleteTexture (_texture s)) s in
  let s := call (gl_deleteTexture (_exportTexture s)) s in
  let s := set_texture None s in
  Skin_dispose s.

Definition NO_EFFECTS : N := 0%N.

(** [new PenSkin (id, renderer)] on a host renderer that is in no draw
    region and whose native size is [nativeSize].  A field the constructor
    has not assigned yet holds [undefined]: [None], or [nan] for a number;
    the fresh canvas element has the DOM's default size.  The result is the
    object as the constructor leaves it: when [_setCanvasSize] throws, the
    object stays with the read-back buffers [null], reachable through the
    listener registered before. *)
Definition constructor (id : Z) (nativeSize : float * float) : State :=
  let s :=
    {| _id := id;
       _rotationCenter := (0, 0);
       _texture := None;
       _canvas := {| canvas_width := 300; canvas_height := 150 |};
       _exportTexture := None;
       _framebuffer := None;
       _silhouetteBuffer := None;
       _canvasDirty := false;
       _silhouetteDirty := false;
       _silhouettePixels := None;
       _silhouetteImageData := None;
       renderQuality := 1;
       _nativeSize := nativeSize;
       _lineBufferInfo := None;
       _stampShader := getShader DRAW_MODE_default NO_EFFECTS;
       _lineShader := getShader DRAW_MODE_line NO_EFFECTS;
       _bounds := initFromBounds nan nan nan nan;
       a_lineColor := [];
       a_lineColorIndex := 0%N;
       a_lineThicknessAndLength := [];
       a_lineThicknessAndLengthIndex := 0%N;
       a_penPoints := [];
       a_penPointsIndex := 0%N;
       _regionId := None;
       _listeners := [];
       calls := [];
       next_object := 0%N |} in
  let s := _createLineGeometry s in
  let l := onNativeSizeChanged_listener (_id s) in
  let s := call (renderer_on_NativeSizeChanged l) s in
  let s := set_listeners (l :: _listeners s) s in
  _setCanvasSize (fst nativeSize) (snd nativeSize) s.

(** The constructor returns unless the [_setCanvasSize] it ends with
    throws. *)
Definition constructor_returns (nativeSize : float * float) : bool :=
  _setCanvasSize_returns (fst nativeSize) (snd nativeSize).

(** ** Operations on a constructed pen layer *)

(** The public operations, and the region changes the host renderer makes on
    behalf of other components. *)
Inductive Op :=
| op_clear
| op_drawPoint (penAttributes : PenAttributes) (x y : float)
| op_drawLine (penAttributes : PenAttributes) (x0 y0 x1 y1 : float)
| op_drawStamp (stampElement : N) (x y : float)
| op_getTexture (pixelsWide pixelsTall : float)
| op_updateSilhouette
| op_setRenderQuality (quality : float)
| op_onNativeSizeChanged (newSize : float * float)
| op_enterDrawRegion (n : N)
| op_exitDrawRegion (regionId : RegionId).

Definition step (s : State) (o : Op) : State :=
  match o with
  | op_clear => clear s
  | op_drawPoint a x y => drawPoint a x y s
  | op_drawLine a x0 y0 x1 y1 => drawLine a x0 y0 x1 y1 s
  | op_drawStamp e x y => drawStamp e x y s
  | op_getTexture w h => snd (getTexture w h s)
  | op_updateSilhouette => updateSilhouette s
  | op_setRenderQuality q => setRenderQuality q s
  | op_onNativeSizeChanged n => onNativeSizeChanged n s
  | op_enterDrawRegion n => enterDrawRegion (externalRegion n) s
  | op_exitDrawRegion r => exitDrawRegion r s
  end.

(** The state after the operations [ops], in call order. *)
Definition run (ops : list Op) (s : State) : State := foldl step s ops.

(** * Vocabulary of the properties *)

Local Open Scope N_scope.

(** ** Views of the state *)

(** The three write cursors of the batch. *)
Definition cursors (s : State) : N * N * N :=
  (a_lineColorIndex s, a_lineThicknessAndLengthIndex s, a_penPointsIndex s).

(** The three attribute arrays of the batch. *)
Definition arrays (s : State) : list float * list float * list float :=
  (a_lineColor s, a_lineThicknessAndLength s, a_penPoints s).

(** The surfaces and what sizes them, and what the pen layer holds from its
    construction on: its id, its listener and the line geometry. *)
Definition surfaces (s : State) :=
  (_canvas s, _texture s, _exportTexture s, _framebuffer s, _silhouetteBuffer s,
   _bounds s, _nativeSize s, renderQuality s, _silhouettePixels s, _silhouetteImageData s,
   _id s, _listeners s, _lineBufferInfo s).

(** The calls of one flush, from the state it starts in. *)
Definition flush_calls (s : State) : list Call :=
  (if a_lineColorIndex s <? 1000 then
     [twgl_setAttribInfoBufferFromArray attr_a_lineColor
        (f32_view (a_lineColor s) (a_lineColorIndex s));
      twgl_setAttribInfoBufferFromArray attr_a_penPoints
        (f32_view (a_penPoints s) (a_penPointsIndex s));
      twgl_setAttribInfoBufferFromArray attr_a_lineThicknessAndLength
        (f32_view (a_lineThicknessAndLength s) (a_lineThicknessAndLengthIndex s))]
   else
     [twgl_setAttribInfoBufferFromArray attr_a_lineColor (a_lineColor s);
      twgl_setAttribInfoBufferFromArray attr_a_penPoints (a_penPoints s);
      twgl_setAttribInfoBufferFromArray attr_a_lineThicknessAndLength
        (a_lineThicknessAndLength s)]) ++
  [twgl_setBuffersAndAttributes (_lineShader s) (_lineBufferInfo s);
   twgl_drawBufferInfo (_lineBufferInfo s)
     (Some (N2number (a_lineThicknessAndLengthIndex s) / 2)%float)].

(** ** Region changes are quiet *)

(** What no region change touches. *)
Definition frame (s : State) :=
  (surfaces s, _id s, _rotationCenter s, _listeners s, _lineBufferInfo s,
   _stampShader s, _lineShader s, next_object s, _canvasDirty s).

(** A quiet step makes calls and may change the region; it keeps the frame
    and the batch arrays, keeps or resets the cursors, may raise
    [_silhouetteDirty] but never lowers it, and only adds to the trace. *)
Definition quiet (s s' : State) : Prop :=
  frame s' = frame s /\
  arrays s' = arrays s /\
  (cursors s' = cursors s \/ cursors s' = (0, 0, 0)) /\
  (_silhouetteDirty s = true -> _silhouetteDirty s' = true) /\
  exists more, calls s' = calls s ++ more.

(** ** The batch is kept or emptied, never torn *)

(** The arrays are as they were, and the cursors are as they were or all
    back at zero. *)
Definition batch_kept (s s' : State) : Prop :=
  arrays s' = arrays s /\ (cursors s' = cursors s \/ cursors s' = (0, 0, 0)).

(** ** The batch invariant *)

(** The arrays have the capacity they were allocated with, the cursors move
    in lockstep, count whole segments and stay within capacity. *)
Definition batch_ok (s : State) : Prop :=
  f32_length (a_lineColor s) = 65520 /\
  f32_length (a_lineThicknessAndLength s) = 32760 /\
  f32_length (a_penPoints s) = 65520 /\
  a_penPointsIndex s = a_lineColorIndex s /\
  a_lineColorIndex s = 2 * a_lineThicknessAndLengthIndex s /\
  (exists k, a_lineThicknessAndLengthIndex s = 12 * k) /\
  a_lineColorIndex s <= 65520.

(** The state in which [_drawLineOnBuffer] writes its records: the line
    region entered, and the batch flushed if the segment would not fit. *)
Definition before_write (s : State) : State :=
  let s := enterDrawRegion _lineOnBufferDrawRegionId s in
  if f32_length (a_lineColor s) <? a_lineColorIndex s + 24 then _flushLines s else s.

(** ** The merge of the raster surface *)

(** Lines 537-543: the canvas is uploaded into its texture and cleared. *)
Definition upload_canvas (s : State) : State :=
  set_canvasDirty false
    (call (ctx_clearRect 0 0 (canvas_width (_canvas s)) (canvas_height (_canvas s)))
       (call gl_texImage2D_canvas (call (gl_bindTexture (_texture s)) s))).

(** [this._drawToBuffer ()] uploads the canvas, enters the to-buffer region
    and draws the canvas texture as one rectangle. *)
Definition merge_raster (s : State) : State :=
  set_silhouetteDirty true
    (_drawRectangle (_stampShader s) (_texture s) (_bounds s)
       (Some (- canvas_width (_canvas s) / 2)%float)
       (Some (canvas_height (_canvas s) / 2)%float)
       (enterDrawRegion _toBufferDrawRegionId (upload_canvas s))).

(** ** The dirty flags *)

(** A dirty canvas comes with a dirty silhouette. *)
Definition flags_ok (s : State) : Prop :=
  _canvasDirty s = true -> _silhouetteDirty s = true.

(** ** The silhouette read-back *)

(** Lines 687-692, from the state in which the to-buffer region is entered. *)
Definition read_request (s : State) : State :=
  call (gl_readPixels 0 0 (canvas_width (_canvas s)) (canvas_height (_canvas s))) s.

(** Lines 687-696, from the same state. *)
Definition read_back (s : State) : State :=
  set_silhouetteDirty false
    (call (silhouette_update (_silhouetteImageData s) true)
       (call (imageData_set (_silhouettePixels s))
          (call (gl_readPixels 0 0 (canvas_width (_canvas s)) (canvas_height (_canvas s)))
             s))).

(** Both read-back buffers exist: line 694 does not throw. *)
Definition has_buffers (s : State) : bool :=
  match _silhouetteImageData s, _silhouettePixels s with
  | Some _, Some _ => true
  | _, _ => false
  end.

(** The state the read-back starts from: merged if the canvas is dirty, and
    inside the to-buffer region. *)
Definition synchronized (s : State) : State :=
  enterDrawRegion _toBufferDrawRegionId (if _canvasDirty s then merge_raster s else s).

(** ** What a segment leaves in the colour array *)

(** [a.subarray (i, i + n)]. *)
Definition f32_slice (a : list float) (i n : N) : list float :=
  take (N.to_nat n) (drop (N.to_nat i) a).

(** ** Calls of the merge and of the read-back *)

(** The calls of the upload of the canvas (lines 537-543). *)
Definition upload_calls (s : State) : list Call :=
  [gl_bindTexture (_texture s); gl_texImage2D_canvas;
   ctx_clearRect 0 0 (canvas_width (_canvas s)) (canvas_height (_canvas s))].

(** The calls of the read-back (lines 687-696). *)
Definition read_back_calls (s : State) : list Call :=
  [gl_readPixels 0 0 (canvas_width (_canvas s)) (canvas_height (_canvas s));
   imageData_set (_silhouettePixels s);
   silhouette_update (_silhouetteImageData s) true].

(** ** Cursors and colours after [drawLine] *)

(** The half-pixel offset of [drawLine] (lines 228-229). *)
Definition pen_offset (a : PenAttributes) : float :=
  if strict_eq (diameter_or_default a) 1 || strict_eq (diameter_or_default a) 3
  then 0.5%float else 0%float.

(** ** Adding zero *)


(** ** The backing surfaces *)

(** The surfaces whose size is the backing size, and what sizes them. *)
Definition backing (s : State) :=
  (_canvas s, _exportTexture s, _framebuffer s, _silhouetteBuffer s,
   _nativeSize s, renderQuality s).

(** The canvas, the export texture's framebuffer and the second framebuffer
    all have the size [w] x [h]. *)
Definition backed_at (w h : float) (s : State) : Prop :=
  _canvas s = {| canvas_width := w; canvas_height := h |} /\
  exists e f b,
    _exportTexture s = Some e /\ _framebuffer s = Some f /\ _silhouetteBuffer s = Some b /\
    fb_attachment f = Some e /\ fb_width f = w /\ fb_height f = h /\
    fb_width b = w /\ fb_height b = h.

(** The backing surfaces have the size of the canvas. *)
Definition backed (s : State) : Prop :=
  backed_at (canvas_width (_canvas s)) (canvas_height (_canvas s)) s.

(** ** GL objects created and deleted *)

(** The GL objects the pen layer creates: textures, framebuffers and the
    buffers of a [BufferInfo]. *)
Inductive GLObject :=
| texture_object (t : WebGLTexture)
| framebuffer_object (f : WebGLFramebuffer)
| buffer_object (b : BufferInfo).

#[global] Instance GLObject_eq_dec : EqDecision GLObject.
Proof. solve_decision. Defined.

(** The object a call creates, if any. *)
Definition creates (c : Call) : option GLObject :=
  match c with
  | twgl_createTexture t _ => Some (texture_object t)
  | twgl_createFramebufferInfo f => Some (framebuffer_object (framebuffer f))
  | twgl_createBufferInfoFromArrays b => Some (buffer_object b)
  | _ => None
  end.

(** The object a call deletes, if any; [gl.deleteTexture (null)] deletes
    nothing. *)
Definition deletes (c : Call) : option GLObject :=
  match c with
  | gl_deleteTexture (Some t) => Some (texture_object t)
  | gl_deleteFramebuffer f => Some (framebuffer_object f)
  | _ => None
  end.

(** The objects a trace has created and not deleted since, oldest first. *)
Fixpoint live_objects (cs : list Call) (live : list GLObject) : list GLObject :=
  match cs with
  | [] => live
  | c :: cs =>
      let live := match creates c with Some o => live ++ [o] | None => live end in
      let live := match deletes c with
                  | Some o => filter (fun o' => o' <> o) live
                  | None => live
                  end in
      live_objects cs live
  end.

(** ** The trace only grows *)

(** The later state has made the calls of the earlier one, and maybe more. *)
Definition grows (s s' : State) : Prop := exists more, calls s' = calls s ++ more.

(** ** What the pen layer holds *)

(** What the pen layer keeps from its construction on. *)
Definition identity (s : State) := (_id s, _listeners s, _lineBufferInfo s).

(** The pen layer [id] is the one listener of the stage's size changes, has
    its canvas texture, and the buffers of its line geometry were created
    and not deleted since. *)
Definition owned (id : Z) (s : State) : Prop :=
  _id s = id /\
  _listeners s = [onNativeSizeChanged_listener id] /\
  (exists t, _texture s = Some t) /\
  exists b, _lineBufferInfo s = Some b /\ In (buffer_object b) (live_objects (calls s) []).

(** ** Reference inputs *)

(** The pen layer of a 480 x 360 stage, as the constructor leaves it. *)
Definition stage : State := constructor 1 (480, 360)%float.

(** A pen of diameter 1 and opaque red. *)
Definition red_pen : PenAttributes :=
  {| diameter := Some 1%float; color4f := Some (color 1 0 0 1) |}.

(** A pen of diameter 2, red at one tenth opacity (0.1 as a binary64 value). *)
Definition faint_pen : PenAttributes :=
  {| diameter := Some 2%float; color4f := Some (color 1 0 0 0x1.999999999999ap-4) |}.

(** ** Segments are pending only inside the line region *)

(** Outside the line region the batch is empty. *)
Definition settled (s : State) : Prop :=
  _regionId s <> Some _lineOnBufferDrawRegionId -> cursors s = (0, 0, 0).

(** The batch invariant, and no segment pending outside the line region. *)
Definition tidy (s : State) : Prop := batch_ok s /\ settled s.

(** The region and the batch. *)
Definition place (s : State) := (_regionId s, cursors s, arrays s).

(** ** What a segment leaves in the three arrays *)

(** The array [a] with the values [vs] stored from slot [c] on. *)
Definition f32_splice (a : list float) (c : N) (vs : list float) : list float :=
  take (N.to_nat c) a ++ vs ++ drop (N.to_nat c + length vs) a.

(** The cursors a segment is written at: where the batch stood, or zero
    after the flush of a full batch. *)
Definition write_cursor (s : State) : N :=
  if f32_length (a_lineColor s) <? a_lineColorIndex s + 24 then 0 else a_lineColorIndex s.

(** ** The GL objects that are allocated *)

(** A call that creates no GL object and deletes none. *)
Definition gl_neutral (c : Call) : Prop := creates c = None /\ deletes c = None.

(** The later state has made more calls, none of which creates or deletes
    a GL object. *)
Definition calm (s s' : State) : Prop :=
  exists more, calls s' = calls s ++ more /\ Forall gl_neutral more.

(** The GL objects the pen layer refers to. *)
Definition held (s : State) :=
  (_lineBufferInfo s, _texture s, _exportTexture s, _framebuffer s, _silhouetteBuffer s).

(** The textures and the framebuffers among GL objects. *)
Definition textures_of (l : list GLObject) : list WebGLTexture :=
  omap (fun o => match o with texture_object t => Some t | _ => None end) l.

Definition framebuffers_of (l : list GLObject) : list WebGLFramebuffer :=
  omap (fun o => match o with framebuffer_object f => Some f | _ => None end) l.

Definition texture_id (t : WebGLTexture) : N := match t with Texture i => i end.

(** The objects allocated are the line buffers, the textures [old] of
    earlier sizes, and the two textures and two framebuffers held; the
    textures held were created before the next object will be. *)
Definition ledger (old : list WebGLTexture) (s : State) : Prop :=
  exists b t e f g,
    held s = (Some b, Some t, Some e, Some f, Some g) /\
    live_objects (calls s) [] =
      buffer_object b :: map texture_object old ++
      [texture_object t; texture_object e;
       framebuffer_object (framebuffer f); framebuffer_object (framebuffer g)] /\
    texture_id t < next_object s /\ texture_id e < next_object s.

(** ** The corner codes of the line quads *)

(** The corners of the two triangles of one quad: (1, 0), (0, 0), (1, 1),
    (1, 1), (0, 0), (0, 1). *)
Definition corner_codes : list float := [1; 0; 0; 0; 1; 1; 1; 1; 0; 0; 0; 1]%float.

(** ** The read-back and the pending segments *)

(** A pending segment comes with a dirty silhouette. *)
Definition noted (s : State) : Prop :=
  cursors s <> (0, 0, 0) -> _silhouetteDirty s = true.

(** * Properties *)

(** The operations are unfolded by name only, never by [simpl]. *)
Arguments Math_fround : simpl never.
Arguments Math_round : simpl never.
Arguments Math_floor : simpl never.
Arguments N2number : simpl never.
Arguments f32_set : simpl never.
Arguments f32_view : simpl never.
Arguments new_Float32Array : simpl never.
Arguments _flushLines : simpl never.
Arguments _drawRectangle : simpl never.
Arguments enterDrawRegion : simpl never.
Arguments exitDrawRegion : simpl never.
Arguments _drawToBuffer_body : simpl never.
Arguments _drawToBuffer_default : simpl never.
Arguments _drawToBuffer : simpl never.
Arguments _drawLineOnBuffer : simpl never.
Arguments _setCanvasSize : simpl never.

(** ** Numbers and the constant geometry *)

Example Math_round_ties_up :
  Math_round 2.5 = 3%float /\ Math_round (-2.5) = (-2)%float /\
  Math_round (480 * 1.5) = 720%float /\ Math_round 0.25 = 0%float.
Proof. repeat split; vm_compute; reflexivity. Qed.

Example Math_fround_single :
  Math_fround 1 = 1%float /\ Math_fround 0.5 = 0.5%float /\
  Math_fround 16777217 = 16777216%float /\
  Math_fround 0x1.999999999999ap-4 = 0x1.99999ap-4%float.
Proof. repeat split; vm_compute; reflexivity. Qed.

Lemma fill_a_position_done fuel i a : f32_length a <= i -> fill_a_position fuel i a = a.
Proof.
  intros H. destruct fuel; [reflexivity|]. simpl.
  apply N.ltb_ge in H. now rewrite H.
Qed.

Lemma f32_length_set a i v : f32_length (f32_set a i v) = f32_length a.
Proof. unfold f32_length, f32_set. now rewrite length_insert. Qed.

(** The fuel of [a_position] is enough: once the index has passed the end
    of the array, more rounds change nothing. *)
Lemma fill_a_position_fuel n extra i a :
  f32_length a <= i + 12 * N.of_nat n ->
  fill_a_position (n + extra) i a = fill_a_position n i a.
Proof.
  revert i a. induction n as [|n IH]; intros i a H.
  - simpl. apply fill_a_position_done. lia.
  - change (S n + extra)%nat with (S (n + extra)). cbn [fill_a_position].
    destruct (i <? f32_length a); [|reflexivity].
    apply IH. rewrite !f32_length_set. lia.
Qed.

Lemma a_position_complete extra :
  fill_a_position (2730 + extra) 0 (new_Float32Array 32760) = a_position.
Proof.
  apply fill_a_position_fuel.
  unfold f32_length, new_Float32Array. rewrite length_replicate. lia.
Qed.

(** ** The flush and the line region *)

Lemma f32_length_new n : f32_length (new_Float32Array n) = n.
Proof. unfold f32_length, new_Float32Array. rewrite length_replicate. apply N2Nat.id. Qed.

Lemma flush_cursors s : cursors (_flushLines s) = (0, 0, 0).
Proof. unfold _flushLines. destruct (a_lineColorIndex s <? 1000); reflexivity. Qed.

Lemma flush_cursor_values s :
  a_lineColorIndex (_flushLines s) = 0 /\
  a_lineThicknessAndLengthIndex (_flushLines s) = 0 /\
  a_penPointsIndex (_flushLines s) = 0.
Proof. unfold _flushLines. destruct (a_lineColorIndex s <? 1000); repeat split. Qed.

Lemma flush_arrays s : arrays (_flushLines s) = arrays s.
Proof. unfold _flushLines. destruct (a_lineColorIndex s <? 1000); reflexivity. Qed.

Lemma flush_surfaces s : surfaces (_flushLines s) = surfaces s.
Proof. unfold _flushLines. destruct (a_lineColorIndex s <? 1000); reflexivity. Qed.

Lemma flush_region s : _regionId (_flushLines s) = _regionId s.
Proof. unfold _flushLines. destruct (a_lineColorIndex s <? 1000); reflexivity. Qed.

Lemma flush_canvasDirty s : _canvasDirty (_flushLines s) = _canvasDirty s.
Proof. unfold _flushLines. destruct (a_lineColorIndex s <? 1000); reflexivity. Qed.

Lemma flush_silhouetteDirty s : _silhouetteDirty (_flushLines s) = true.
Proof. unfold _flushLines. destruct (a_lineColorIndex s <? 1000); reflexivity. Qed.

Lemma flush_calls_spec s : calls (_flushLines s) = calls s ++ flush_calls s.
Proof.
  unfold _flushLines, flush_calls.
  destruct (a_lineColorIndex s <? 1000); simpl; now rewrite <- !app_assoc.
Qed.

(** Leaving the line region empties the batch. *)
Lemma exit_line_pending s : a_lineColorIndex (_exitDrawLineOnBuffer s) = 0.
Proof.
  unfold _exitDrawLineOnBuffer.
  destruct (a_lineColorIndex s =? 0) eqn:E; simpl.
  - now apply N.eqb_eq.
  - pose proof (flush_cursors s) as H. now inversion H.
Qed.

(** ** Region changes are quiet *)

(** Runs the field updates of a state term: only the projections, the
    updates and the straight-line helpers are unfolded, lazily, so a state
    bound by [let] is evaluated once. *)
Ltac run_state :=
  lazy beta iota zeta delta
    [ _id _rotationCenter _texture _canvas _exportTexture _framebuffer _silhouetteBuffer
      _canvasDirty _silhouetteDirty _silhouettePixels _silhouetteImageData renderQuality
      _nativeSize _lineBufferInfo _stampShader _lineShader _bounds a_lineColor
      a_lineColorIndex a_lineThicknessAndLength a_lineThicknessAndLengthIndex
      a_penPoints a_penPointsIndex _regionId _listeners calls next_object set_id
      set_rotationCenter set_texture set_canvas set_exportTexture set_framebuffer
      set_silhouetteBuffer set_canvasDirty set_silhouetteDirty set_silhouettePixels
      set_silhouetteImageData set_renderQuality set_nativeSize set_lineBufferInfo
      set_bounds set_a_lineColor set_a_lineColorIndex set_a_lineThicknessAndLength
      set_a_lineThicknessAndLengthIndex set_a_penPoints set_a_penPointsIndex
      set_regionId set_listeners set_calls set_next_object call use_object for_loop
      write_vertex cursors arrays surfaces fst snd ].

(** A step made of field updates and calls only, on a state given by its
    fields. *)
Ltac quiet_by_fields :=
  unfold quiet; split; [reflexivity|]; split; [reflexivity|];
  split; [(left; reflexivity) || (right; reflexivity)|];
  split; [auto|];
  eexists; run_state; rewrite <- ?app_assoc; reflexivity.

Lemma quiet_refl s : quiet s s.
Proof. unfold quiet. repeat split; auto. exists []. now rewrite app_nil_r. Qed.

Lemma quiet_trans s1 s2 s3 : quiet s1 s2 -> quiet s2 s3 -> quiet s1 s3.
Proof.
  intros (F1 & A1 & C1 & D1 & (m1 & M1)) (F2 & A2 & C2 & D2 & (m2 & M2)). unfold quiet.
  rewrite F2, A2. repeat split; auto.
  - destruct C2 as [C2|C2]; [rewrite C2; exact C1 | now right].
  - exists (m1 ++ m2). now rewrite M2, M1, app_assoc.
Qed.

Lemma quiet_call c s : quiet s (call c s).
Proof. destruct s. quiet_by_fields. Qed.

Lemma quiet_set_regionId r s : quiet s (set_regionId r s).
Proof. unfold quiet. repeat split; auto. exists []. destruct s. run_state. now rewrite app_nil_r. Qed.

Lemma quiet_set_silhouetteDirty s : quiet s (set_silhouetteDirty true s).
Proof. unfold quiet. repeat split; auto. exists []. destruct s. run_state. now rewrite app_nil_r. Qed.

Lemma quiet_flush s : quiet s (_flushLines s).
Proof.
  unfold quiet. rewrite flush_calls_spec.
  unfold _flushLines. destruct (a_lineColorIndex s <? 1000); repeat split; eauto.
Qed.

Lemma quiet_enter_line s : quiet s (_enterDrawLineOnBuffer s).
Proof. destruct s. unfold _enterDrawLineOnBuffer. quiet_by_fields. Qed.

Lemma quiet_exit_line s : quiet s (_exitDrawLineOnBuffer s).
Proof.
  unfold _exitDrawLineOnBuffer.
  destruct (negb (a_lineColorIndex s =? 0)).
  - eapply quiet_trans; [apply quiet_flush | apply quiet_call].
  - apply quiet_call.
Qed.

Lemma quiet_enter_toBuffer s : quiet s (_enterDrawToBuffer s).
Proof.
  destruct s. unfold _enterDrawToBuffer, _drawRectangleRegionEnter. quiet_by_fields.
Qed.

Lemma quiet_exit_toBuffer s : quiet s (_exitDrawToBuffer s).
Proof. apply quiet_call. Qed.

Lemma quiet_drawRectangle p t b x y s : quiet s (_drawRectangle p t b x y s).
Proof. destruct s. unfold _drawRectangle. quiet_by_fields. Qed.

Lemma quiet_region_enter r s : quiet s (region_enter r s).
Proof.
  destruct r; simpl;
    [apply quiet_enter_line | apply quiet_enter_toBuffer | apply quiet_call].
Qed.

Lemma quiet_region_exit r s : quiet s (region_exit r s).
Proof.
  destruct r; simpl;
    [apply quiet_exit_line | apply quiet_exit_toBuffer | apply quiet_call].
Qed.

Lemma quiet_enterDrawRegion r s : quiet s (enterDrawRegion r s).
Proof.
  unfold enterDrawRegion. case_bool_decide; [apply quiet_refl|].
  eapply quiet_trans; [|apply quiet_set_regionId].
  eapply quiet_trans; [|apply quiet_region_enter].
  destruct (_regionId s); [apply quiet_region_exit | apply quiet_refl].
Qed.

Lemma quiet_exitDrawRegion r s : quiet s (exitDrawRegion r s).
Proof.
  unfold exitDrawRegion. case_bool_decide.
  - eapply quiet_trans; [apply quiet_region_exit | apply quiet_set_regionId].
  - apply quiet_region_exit.
Qed.

(** Projections of a quiet step. *)
Lemma quiet_surfaces s s' : quiet s s' -> surfaces s' = surfaces s.
Proof. intros (F & _). unfold frame in F. congruence. Qed.

Lemma quiet_canvasDirty s s' : quiet s s' -> _canvasDirty s' = _canvasDirty s.
Proof. intros (F & _). unfold frame in F. congruence. Qed.

(** ** The batch is kept or emptied, never torn *)

Lemma batch_kept_same s s' : arrays s' = arrays s -> cursors s' = cursors s -> batch_kept s s'.
Proof. unfold batch_kept. auto. Qed.

Lemma batch_kept_trans s1 s2 s3 : batch_kept s1 s2 -> batch_kept s2 s3 -> batch_kept s1 s3.
Proof.
  intros (A1 & C1) (A2 & C2). unfold batch_kept. rewrite A2. split; [exact A1|].
  destruct C2 as [C2|C2]; [rewrite C2; exact C1 | now right].
Qed.

Lemma quiet_batch_kept s s' : quiet s s' -> batch_kept s s'.
Proof. intros (_ & A & C & _). now split. Qed.

(** A step whose state argument is the large term [r] is proved for a
    variable in its place: conversion never has to look into [r]. *)
Ltac same_batch := apply batch_kept_same; reflexivity.
Ltac after r tac := apply (batch_kept_trans _ r); [|generalize r; intro; tac].

Lemma batch_kept_drawToBuffer_body self t x y s :
  (forall s, batch_kept s (self s)) ->
  batch_kept s (_drawToBuffer_body self t x y s).
Proof.
  intros Hself. unfold _drawToBuffer_body.
  match goal with |- batch_kept _ (set_silhouetteDirty true ?r) => after r same_batch end.
  match goal with
  | |- batch_kept _ (_drawRectangle _ _ _ _ _ ?r) =>
      after r ltac:(apply quiet_batch_kept, quiet_drawRectangle)
  end.
  match goal with
  | |- batch_kept _ (enterDrawRegion _ ?r) =>
      after r ltac:(apply quiet_batch_kept, quiet_enterDrawRegion)
  end.
  match goal with
  | |- batch_kept _ (if _ then _ else ?r) =>
      after r ltac:(destruct (bool_decide _); same_batch)
  end.
  destruct (_ && _); [apply Hself | same_batch].
Qed.

Lemma batch_kept_drawToBuffer_default s : batch_kept s (_drawToBuffer_default s).
Proof. apply batch_kept_drawToBuffer_body. intros s'. same_batch. Qed.

Lemma batch_kept_drawToBuffer t x y s : batch_kept s (_drawToBuffer t x y s).
Proof. apply batch_kept_drawToBuffer_body, batch_kept_drawToBuffer_default. Qed.

Lemma batch_kept_allocate w h s : batch_kept s (_setCanvasSize_allocate w h s).
Proof.
  destruct s as [? ? ? ? ? [f|] [b|] ? ? ? ? ? ? ? ? ? ? ? ? ? ? ? ? ? ? ? ?];
    apply batch_kept_same; vm_compute; reflexivity.
Qed.

Lemma batch_kept_setCanvasSize w h s : batch_kept s (_setCanvasSize w h s).
Proof.
  unfold _setCanvasSize.
  match goal with
  | |- batch_kept _ (_setCanvasSize_finish _ _ ?r) =>
      after r ltac:(unfold _setCanvasSize_finish; destruct (new_Uint8Array _); same_batch)
  end.
  destruct (_exportTexture s).
  - match goal with
    | |- batch_kept _ (_drawToBuffer _ _ _ ?r) => after r ltac:(apply batch_kept_drawToBuffer)
    end.
    apply batch_kept_allocate.
  - apply batch_kept_allocate.
Qed.

(** ** The batch invariant *)

Lemma batch_ok_kept s s' : batch_kept s s' -> batch_ok s -> batch_ok s'.
Proof.
  unfold batch_kept, batch_ok, arrays, cursors.
  intros (A & C) (L1 & L2 & L3 & P & T & K & B).
  injection A as -> -> ->.
  destruct C as [C|C]; injection C as -> -> ->; repeat split; auto; try lia.
  exists 0. lia.
Qed.

Section Write.
Variables p0 p1 p2 p3 t l x y dx dy : float.

Local Abbreviation write6 := (for_loop 6 (write_vertex p0 p1 p2 p3 t l x y dx dy)).

Lemma write_colorIndex s : a_lineColorIndex (write6 s) = a_lineColorIndex s + 24.
Proof. run_state. lia. Qed.

Lemma write_thicknessIndex s :
  a_lineThicknessAndLengthIndex (write6 s) = a_lineThicknessAndLengthIndex s + 12.
Proof. run_state. lia. Qed.

Lemma write_pointsIndex s : a_penPointsIndex (write6 s) = a_penPointsIndex s + 24.
Proof. run_state. lia. Qed.

Lemma write_color_length s :
  f32_length (a_lineColor (write6 s)) = f32_length (a_lineColor s).
Proof. run_state. now rewrite !f32_length_set. Qed.

Lemma write_thickness_length s :
  f32_length (a_lineThicknessAndLength (write6 s)) =
  f32_length (a_lineThicknessAndLength s).
Proof. run_state. now rewrite !f32_length_set. Qed.

Lemma write_points_length s :
  f32_length (a_penPoints (write6 s)) = f32_length (a_penPoints s).
Proof. run_state. now rewrite !f32_length_set. Qed.

Lemma write_batch_ok s :
  batch_ok s -> a_lineColorIndex s + 24 <= 65520 -> batch_ok (write6 s).
Proof.
  intros (L1 & L2 & L3 & P & T & (k & K) & B) Hfit.
  unfold batch_ok.
  rewrite write_color_length, write_thickness_length, write_points_length,
    write_colorIndex, write_thicknessIndex, write_pointsIndex.
  repeat split; auto; try lia.
  exists (k + 1). lia.
Qed.
End Write.

Lemma drawLineOnBuffer_eq a x0 y0 x1 y1 s :
  _drawLineOnBuffer a x0 y0 x1 y1 s =
  for_loop 6
    (write_vertex (c_0 (color4f_or_default a) * c_3 (color4f_or_default a))%float
       (c_1 (color4f_or_default a) * c_3 (color4f_or_default a))%float
       (c_2 (color4f_or_default a) * c_3 (color4f_or_default a))%float
       (c_3 (color4f_or_default a)) (diameter_or_default a)
       (sqrt ((x1 - x0) * (x1 - x0) + (y1 - y0) * (y1 - y0)))%float
       x0 y0 (x1 - x0)%float (y1 - y0)%float)
    (before_write s).
Proof. reflexivity. Qed.

Lemma before_write_kept s : batch_kept s (before_write s).
Proof.
  unfold before_write.
  match goal with
  | |- batch_kept _ (if _ then _ else ?r) =>
      apply (batch_kept_trans _ r); [apply quiet_batch_kept, quiet_enterDrawRegion|];
      generalize r; intro
  end.
  destruct (_ <? _); [apply quiet_batch_kept, quiet_flush | apply batch_kept_same; reflexivity].
Qed.

Lemma before_write_fits s :
  batch_ok s -> a_lineColorIndex (before_write s) + 24 <= 65520.
Proof.
  intros Hs. unfold before_write.
  assert (batch_ok (enterDrawRegion _lineOnBufferDrawRegionId s)) as He
    by (eapply batch_ok_kept; [apply quiet_batch_kept, quiet_enterDrawRegion | exact Hs]).
  revert He. generalize (enterDrawRegion _lineOnBufferDrawRegionId s). intros e He.
  destruct (_ <? _) eqn:E.
  - pose proof (flush_cursors e) as C. unfold cursors in C.
    replace (a_lineColorIndex (_flushLines e)) with 0 by congruence. lia.
  - apply N.ltb_ge in E. destruct He as (L1 & _). lia.
Qed.

Lemma batch_ok_drawLineOnBuffer a x0 y0 x1 y1 s :
  batch_ok s -> batch_ok (_drawLineOnBuffer a x0 y0 x1 y1 s).
Proof.
  intros Hs. rewrite drawLineOnBuffer_eq.
  apply write_batch_ok; [|now apply before_write_fits].
  eapply batch_ok_kept; [apply before_write_kept | exact Hs].
Qed.

(** ** The merge of the raster surface *)

Lemma bool_decide_refl_true {A} `{EqDecision A} (x : A) : bool_decide (x = x) = true.
Proof. now apply bool_decide_eq_true_2. Qed.

Lemma bool_decide_irrefl_false {A} `{EqDecision A} (x : A) : bool_decide (x <> x) = false.
Proof. apply bool_decide_eq_false_2. intros H. now apply H. Qed.

Lemma drawToBuffer_body_merge self s :
  _drawToBuffer_body self None None None s = merge_raster s.
Proof.
  unfold _drawToBuffer_body.
  rewrite bool_decide_irrefl_false. cbv beta iota delta [andb].
  rewrite bool_decide_refl_true. cbv beta iota.
  reflexivity.
Qed.

Lemma drawToBuffer_merge s : _drawToBuffer None None None s = merge_raster s.
Proof. apply drawToBuffer_body_merge. Qed.

Lemma quiet_upload_to_merge s : quiet (upload_canvas s) (merge_raster s).
Proof.
  unfold merge_raster.
  match goal with
  | |- quiet _ (set_silhouetteDirty true ?r) =>
      apply (quiet_trans _ r); [|apply quiet_set_silhouetteDirty]
  end.
  match goal with
  | |- quiet _ (_drawRectangle ?a ?b ?c ?d ?e ?r) =>
      apply (quiet_trans _ r); [apply quiet_enterDrawRegion | apply quiet_drawRectangle]
  end.
Qed.

Lemma merge_canvasDirty s : _canvasDirty (merge_raster s) = false.
Proof. now rewrite (quiet_canvasDirty _ _ (quiet_upload_to_merge s)). Qed.

Lemma merge_silhouetteDirty s : _silhouetteDirty (merge_raster s) = true.
Proof. unfold merge_raster. generalize (_drawRectangle). reflexivity. Qed.

Lemma merge_surfaces s : surfaces (merge_raster s) = surfaces s.
Proof. now rewrite (quiet_surfaces _ _ (quiet_upload_to_merge s)). Qed.

Lemma drawToBuffer_body_silhouetteDirty self t x y s :
  _silhouetteDirty (_drawToBuffer_body self t x y s) = true.
Proof. unfold _drawToBuffer_body. generalize (_drawRectangle). reflexivity. Qed.

(** ** The dirty flags *)

Lemma flags_ok_quiet s s' : quiet s s' -> flags_ok s -> flags_ok s'.
Proof.
  intros Q F H. rewrite (quiet_canvasDirty _ _ Q) in H.
  destruct Q as (_ & _ & _ & D & _). auto.
Qed.

Lemma flags_ok_raised s : _silhouetteDirty s = true -> flags_ok s.
Proof. unfold flags_ok. auto. Qed.

Lemma flags_ok_clean s : _canvasDirty s = false -> flags_ok s.
Proof. unfold flags_ok. congruence. Qed.

Lemma finish_flags w h s :
  _canvasDirty (_setCanvasSize_finish w h s) = _canvasDirty s /\
  _silhouetteDirty (_setCanvasSize_finish w h s) =
    _setCanvasSize_returns w h || _silhouetteDirty s.
Proof.
  unfold _setCanvasSize_finish, _setCanvasSize_returns.
  destruct (new_Uint8Array _); destruct s; split; reflexivity.
Qed.

Lemma allocate_flags w h s :
  _canvasDirty (_setCanvasSize_allocate w h s) = _canvasDirty s /\
  _silhouetteDirty (_setCanvasSize_allocate w h s) = _silhouetteDirty s.
Proof.
  destruct s as [? ? ? ? ? [f|] [b|] ? ? ? ? ? ? ? ? ? ? ? ? ? ? ? ? ? ? ? ?];
    split; vm_compute; reflexivity.
Qed.

(** A size change raises the silhouette flag when it redraws the former
    export texture (line 553) or reaches line 639. *)
Lemma setCanvasSize_silhouetteDirty w h s :
  _silhouetteDirty (_setCanvasSize w h s) =
    _setCanvasSize_returns w h ||
    (bool_decide (is_Some (_exportTexture s)) || _silhouetteDirty s).
Proof.
  unfold _setCanvasSize.
  match goal with
  | |- _silhouetteDirty (_setCanvasSize_finish _ _ ?r) = _ =>
      destruct (finish_flags w h r) as (_ & ->)
  end.
  f_equal. destruct (_exportTexture s) as [t|].
  - unfold _drawToBuffer. now rewrite drawToBuffer_body_silhouetteDirty.
  - apply allocate_flags.
Qed.

Lemma setCanvasSize_redraw_silhouetteDirty w h s :
  is_Some (_exportTexture s) -> _silhouetteDirty (_setCanvasSize w h s) = true.
Proof.
  intros E. rewrite setCanvasSize_silhouetteDirty, (bool_decide_eq_true_2 _ E).
  apply orb_true_r.
Qed.

Lemma flags_ok_setCanvasSize w h s : flags_ok s -> flags_ok (_setCanvasSize w h s).
Proof.
  intros F. unfold flags_ok. rewrite setCanvasSize_silhouetteDirty.
  unfold _setCanvasSize.
  match goal with
  | |- _canvasDirty (_setCanvasSize_finish _ _ ?r) = _ -> _ =>
      destruct (finish_flags w h r) as (-> & _)
  end.
  destruct (_exportTexture s) as [t|].
  - intros _. rewrite (bool_decide_eq_true_2 (is_Some (Some t))) by eauto.
    apply orb_true_r.
  - destruct (allocate_flags w h s) as (-> & _). intros C. rewrite (F C).
    now rewrite !orb_true_r.
Qed.

(** ** The silhouette read-back *)

Lemma synchronized_surfaces s : surfaces (synchronized s) = surfaces s.
Proof.
  unfold synchronized. rewrite (quiet_surfaces _ _ (quiet_enterDrawRegion _ _)).
  destruct (_canvasDirty s); [apply merge_surfaces | reflexivity].
Qed.

Lemma surfaces_has_buffers s s' : surfaces s' = surfaces s -> has_buffers s' = has_buffers s.
Proof.
  unfold surfaces, has_buffers. intros S.
  assert (_silhouetteImageData s' = _silhouetteImageData s) as -> by congruence.
  assert (_silhouettePixels s' = _silhouettePixels s) as -> by congruence.
  reflexivity.
Qed.

Lemma updateSilhouette_dirty s :
  _silhouetteDirty s = true ->
  updateSilhouette s =
    if has_buffers s then read_back (synchronized s) else read_request (synchronized s).
Proof.
  intros H. rewrite <- (surfaces_has_buffers s _ (synchronized_surfaces s)).
  unfold updateSilhouette, synchronized. rewrite H, drawToBuffer_merge.
  generalize (enterDrawRegion _toBufferDrawRegionId
                (if _canvasDirty s then merge_raster s else s)).
  intros r.
  destruct r as [? ? ? ? ? ? ? ? ? [p|] [d|] ? ? ? ? ? ? ? ? ? ? ? ? ? ? ? ?]; reflexivity.
Qed.

Lemma updateSilhouette_clean s : _silhouetteDirty s = false -> updateSilhouette s = s.
Proof. intros H. unfold updateSilhouette. now rewrite H. Qed.

Lemma synchronized_canvasDirty s : _canvasDirty (synchronized s) = false.
Proof.
  unfold synchronized. rewrite (quiet_canvasDirty _ _ (quiet_enterDrawRegion _ _)).
  destruct (_canvasDirty s) eqn:E; [apply merge_canvasDirty | exact E].
Qed.

Lemma batch_kept_merge s : batch_kept s (merge_raster s).
Proof. rewrite <- drawToBuffer_merge. apply batch_kept_drawToBuffer. Qed.

Lemma batch_kept_synchronized s : batch_kept s (synchronized s).
Proof.
  unfold synchronized.
  match goal with
  | |- batch_kept _ (enterDrawRegion _ ?r) =>
      apply (batch_kept_trans _ r); [|apply quiet_batch_kept, quiet_enterDrawRegion]
  end.
  destruct (_canvasDirty s); [apply batch_kept_merge | same_batch].
Qed.

(** ** Every operation keeps the invariants *)

Lemma getTexture_state w h s :
  snd (getTexture w h s) = if _canvasDirty s then merge_raster s else s.
Proof. unfold getTexture. rewrite drawToBuffer_merge. reflexivity. Qed.

Lemma batch_ok_step s o : batch_ok s -> batch_ok (step s o).
Proof.
  intros Hs. destruct o; cbv beta iota delta [step].
  - (* clear *) eapply batch_ok_kept; [|exact Hs]. same_batch.
  - (* drawPoint *)
    unfold drawPoint, drawLine.
    match goal with
    | |- batch_ok (set_silhouetteDirty true ?r) =>
        apply (batch_ok_kept r); [generalize r; intro; same_batch|]
    end.
    now apply batch_ok_drawLineOnBuffer.
  - (* drawLine *)
    unfold drawLine.
    match goal with
    | |- batch_ok (set_silhouetteDirty true ?r) =>
        apply (batch_ok_kept r); [generalize r; intro; same_batch|]
    end.
    now apply batch_ok_drawLineOnBuffer.
  - (* drawStamp *) eapply batch_ok_kept; [|exact Hs]. same_batch.
  - (* getTexture *)
    rewrite getTexture_state. eapply batch_ok_kept; [|exact Hs].
    destruct (_canvasDirty s); [apply batch_kept_merge | same_batch].
  - (* updateSilhouette *)
    destruct (_silhouetteDirty s) eqn:E.
    + rewrite (updateSilhouette_dirty _ E).
      apply (batch_ok_kept (synchronized s));
        [destruct (has_buffers s); generalize (synchronized s); intro; same_batch|].
      eapply batch_ok_kept; [apply batch_kept_synchronized | exact Hs].
    + now rewrite (updateSilhouette_clean _ E).
  - (* setRenderQuality *)
    unfold setRenderQuality. destruct (strict_eq _ _); [exact Hs|].
    eapply batch_ok_kept; [apply batch_kept_setCanvasSize|].
    eapply batch_ok_kept; [|exact Hs]. same_batch.
  - (* onNativeSizeChanged *)
    unfold onNativeSizeChanged.
    eapply batch_ok_kept; [apply batch_kept_setCanvasSize|].
    eapply batch_ok_kept; [|exact Hs]. same_batch.
  - (* enterDrawRegion *)
    eapply batch_ok_kept; [apply quiet_batch_kept, quiet_enterDrawRegion | exact Hs].
  - (* exitDrawRegion *)
    eapply batch_ok_kept; [apply quiet_batch_kept, quiet_exitDrawRegion | exact Hs].
Qed.

Lemma flags_ok_step s o : flags_ok s -> flags_ok (step s o).
Proof.
  intros Hs. destruct o; cbv beta iota delta [step].
  - (* clear *) apply flags_ok_raised. reflexivity.
  - (* drawPoint *)
    apply flags_ok_raised. unfold drawPoint, drawLine.
    generalize (_drawLineOnBuffer). reflexivity.
  - (* drawLine *)
    apply flags_ok_raised. unfold drawLine. generalize (_drawLineOnBuffer). reflexivity.
  - (* drawStamp *) apply flags_ok_raised. reflexivity.
  - (* getTexture *)
    rewrite getTexture_state.
    destruct (_canvasDirty s); [apply flags_ok_raised, merge_silhouetteDirty | exact Hs].
  - (* updateSilhouette *)
    destruct (_silhouetteDirty s) eqn:E.
    + rewrite (updateSilhouette_dirty _ E). apply flags_ok_clean.
      rewrite <- (synchronized_canvasDirty s).
      destruct (has_buffers s); generalize (synchronized s); reflexivity.
    + now rewrite (updateSilhouette_clean _ E).
  - (* setRenderQuality *)
    unfold setRenderQuality. destruct (strict_eq _ _); [exact Hs|].
    apply flags_ok_setCanvasSize. destruct s. exact Hs.
  - (* onNativeSizeChanged *)
    unfold onNativeSizeChanged. apply flags_ok_setCanvasSize. destruct s. exact Hs.
  - (* enterDrawRegion *)
    eapply flags_ok_quiet; [apply quiet_enterDrawRegion | exact Hs].
  - (* exitDrawRegion *)
    eapply flags_ok_quiet; [apply quiet_exitDrawRegion | exact Hs].
Qed.

(** The state the constructor hands to [_setCanvasSize] (lines 80-144). *)
Lemma batch_ok_constructor id nativeSize : batch_ok (constructor id nativeSize).
Proof.
  unfold constructor.
  eapply batch_ok_kept; [apply batch_kept_setCanvasSize|].
  unfold batch_ok, _createLineGeometry. run_state.
  rewrite !f32_length_new. repeat split; try lia. exists 0. lia.
Qed.

Lemma flags_ok_constructor id nativeSize : flags_ok (constructor id nativeSize).
Proof. unfold constructor. apply flags_ok_setCanvasSize, flags_ok_clean. reflexivity. Qed.

(** An invariant of the constructed state and of every operation holds
    after every sequence of operations. *)
Lemma run_invariant (P : State -> Prop) ops s :
  P s -> (forall s o, P s -> P (step s o)) -> P (run ops s).
Proof.
  intros H0 Hstep. revert s H0. unfold run.
  induction ops as [|o ops IH]; intros s H0; simpl; auto.
Qed.

Lemma reachable_batch_ok id nativeSize ops : batch_ok (run ops (constructor id nativeSize)).
Proof. apply run_invariant; [apply batch_ok_constructor | apply batch_ok_step]. Qed.

Lemma reachable_flags_ok id nativeSize ops : flags_ok (run ops (constructor id nativeSize)).
Proof. apply run_invariant; [apply flags_ok_constructor | apply flags_ok_step]. Qed.

(** ** What a segment leaves in the colour array *)

(** Four stores in a row fill four slots in a row. *)
Lemma insert4 {A} (l : list A) (c : nat) v0 v1 v2 v3 :
  (c + 4 <= length l)%nat ->
  <[(c + 3)%nat := v3]> (<[(c + 2)%nat := v2]> (<[(c + 1)%nat := v1]> (<[c := v0]> l))) =
  take c l ++ [v0; v1; v2; v3] ++ drop (c + 4) l.
Proof.
  revert l. induction c as [|c IH]; intros l H.
  - destruct l as [|x0 [|x1 [|x2 [|x3 l]]]]; simpl in H; try lia. reflexivity.
  - destruct l as [|x l]; simpl in H; [lia|].
    simpl. f_equal. apply IH. lia.
Qed.

Lemma for_loop_0 body s : for_loop 0 body s = s.
Proof. reflexivity. Qed.

Lemma for_loop_S n body s : for_loop (S n) body s = for_loop n body (body s).
Proof. reflexivity. Qed.

Section Colour.
Variables p0 p1 p2 p3 t l x y dx dy : float.

Local Abbreviation vertex := (write_vertex p0 p1 p2 p3 t l x y dx dy).
Local Abbreviation quad :=
  [Math_fround p0; Math_fround p1; Math_fround p2; Math_fround p3].

Lemma vertex_colorIndex s : a_lineColorIndex (vertex s) = a_lineColorIndex s + 4.
Proof. run_state. lia. Qed.

Lemma vertex_color s :
  a_lineColor (vertex s) =
  f32_set (f32_set (f32_set (f32_set (a_lineColor s) (a_lineColorIndex s) p0)
                      (a_lineColorIndex s + 1) p1)
             (a_lineColorIndex s + 2) p2)
    (a_lineColorIndex s + 3) p3.
Proof.
  destruct s. run_state. rewrite <- !N.add_assoc. reflexivity.
Qed.

Lemma vertex_color_slots s :
  a_lineColorIndex s + 4 <= f32_length (a_lineColor s) ->
  a_lineColor (vertex s) =
  take (N.to_nat (a_lineColorIndex s)) (a_lineColor s) ++ quad ++
  drop (N.to_nat (a_lineColorIndex s) + 4) (a_lineColor s).
Proof.
  intros H. rewrite vertex_color. unfold f32_set, f32_length in *.
  rewrite !N2Nat.inj_add.
  change (N.to_nat 1) with 1%nat. change (N.to_nat 2) with 2%nat.
  change (N.to_nat 3) with 3%nat.
  apply insert4. lia.
Qed.

Lemma loop_color n s :
  a_lineColorIndex s + 4 * N.of_nat n <= f32_length (a_lineColor s) ->
  a_lineColorIndex (for_loop n vertex s) = a_lineColorIndex s + 4 * N.of_nat n /\
  a_lineColor (for_loop n vertex s) =
  take (N.to_nat (a_lineColorIndex s)) (a_lineColor s) ++ concat (replicate n quad) ++
  drop (N.to_nat (a_lineColorIndex s) + 4 * n) (a_lineColor s).
Proof.
  revert s. induction n as [|n IH]; intros s H.
  - rewrite for_loop_0. split; [lia|].
    simpl concat. rewrite Nat.add_0_r. simpl app. now rewrite take_drop.
  - rewrite for_loop_S.
    assert (a_lineColorIndex s + 4 <= f32_length (a_lineColor s)) as H4 by lia.
    pose proof (vertex_color_slots s H4) as Hc.
    pose proof (vertex_colorIndex s) as Hi.
    assert (f32_length (a_lineColor (vertex s)) = f32_length (a_lineColor s)) as Hl.
    { rewrite vertex_color. now rewrite !f32_length_set. }
    destruct (IH (vertex s)) as (I1 & I2); [rewrite Hi, Hl; lia|].
    split; [rewrite I1, Hi; lia|].
    rewrite I2, Hi, Hc. clear I1 I2 IH Hc Hi Hl.
    set (c := N.to_nat (a_lineColorIndex s)).
    assert (c + 4 <= length (a_lineColor s))%nat as Hlen
      by (unfold f32_length in H4; subst c; lia).
    replace (N.to_nat (a_lineColorIndex s + 4)) with (c + 4)%nat by (subst c; lia).
    generalize dependent (a_lineColor s). intros a _ _ Hlen.
    assert (length (take c a ++ quad) = c + 4)%nat as Hp
      by (rewrite length_app, length_take; simpl; lia).
    rewrite (app_assoc (take c a) quad).
    rewrite take_app_length' by (symmetry; exact Hp).
    replace (c + 4 + 4 * n)%nat with (length (take c a ++ quad) + 4 * n)%nat by lia.
    rewrite drop_app_add, drop_drop.
    change (concat (replicate (S n) quad)) with (quad ++ concat (replicate n quad)).
    rewrite <- !app_assoc. do 3 f_equal. f_equal. lia.
Qed.

Lemma segment_color s :
  a_lineColorIndex s + 24 <= f32_length (a_lineColor s) ->
  f32_slice (a_lineColor (for_loop 6 vertex s)) (a_lineColorIndex s) 24 =
  concat (replicate 6 quad).
Proof.
  intros H. destruct (loop_color 6 s) as (_ & ->); [simpl; lia|].
  unfold f32_slice, f32_length in *.
  assert (length (take (N.to_nat (a_lineColorIndex s)) (a_lineColor s)) =
          N.to_nat (a_lineColorIndex s)) as Hp by (rewrite length_take; lia).
  rewrite drop_app_length' by (symmetry; exact Hp).
  now rewrite take_app_length'.
Qed.
End Colour.

(** ** The region after a draw *)

Lemma enterDrawRegion_region r s : _regionId (enterDrawRegion r s) = Some r.
Proof.
  unfold enterDrawRegion. case_bool_decide as H; [exact H|].
  generalize (region_enter r). reflexivity.
Qed.

(** Entering the to-buffer region from the line region with a segment
    pending flushes the batch first. *)
Lemma enter_toBuffer_from_line s :
  _regionId s = Some _lineOnBufferDrawRegionId ->
  a_lineColorIndex s <> 0 ->
  enterDrawRegion _toBufferDrawRegionId s =
  set_regionId (Some _toBufferDrawRegionId)
    (_enterDrawToBuffer (call (twgl_bindFramebufferInfo None) (_flushLines s))).
Proof.
  intros R P. unfold enterDrawRegion. rewrite R.
  rewrite bool_decide_eq_false_2 by discriminate.
  cbv beta iota zeta delta [region_exit region_enter _exitDrawLineOnBuffer].
  apply N.eqb_neq in P. rewrite P. reflexivity.
Qed.

Section Segment.
Variables p0 p1 p2 p3 t l x y dx dy : float.

Local Abbreviation write6 := (for_loop 6 (write_vertex p0 p1 p2 p3 t l x y dx dy)).

Lemma write_frame s : frame (write6 s) = frame s.
Proof. destruct s. reflexivity. Qed.

Lemma write_region s : _regionId (write6 s) = _regionId s.
Proof. destruct s. reflexivity. Qed.

Lemma write_calls s : calls (write6 s) = calls s.
Proof. destruct s. reflexivity. Qed.

Lemma write_silhouetteDirty s : _silhouetteDirty (write6 s) = _silhouetteDirty s.
Proof. destruct s. reflexivity. Qed.
End Segment.

Lemma quiet_before_write s : quiet s (before_write s).
Proof.
  unfold before_write.
  match goal with
  | |- quiet _ (if _ then _ else ?r) =>
      apply (quiet_trans _ r); [apply quiet_enterDrawRegion|]; generalize r; intro
  end.
  destruct (_ <? _); [apply quiet_flush | apply quiet_refl].
Qed.

Lemma before_write_region s : _regionId (before_write s) = Some _lineOnBufferDrawRegionId.
Proof.
  unfold before_write.
  destruct (_ <? _); [rewrite flush_region|]; apply enterDrawRegion_region.
Qed.

(** [drawLine] in terms of its three steps. *)
Lemma drawLine_eq a x0 y0 x1 y1 s :
  exists x0' y0' p0 p1 p2 p3 t l dx dy,
    drawLine a x0 y0 x1 y1 s =
    set_silhouetteDirty true
      (for_loop 6 (write_vertex p0 p1 p2 p3 t l x0' y0' dx dy) (before_write s)).
Proof.
  unfold drawLine. cbv zeta.
  match goal with
  | |- context [_drawLineOnBuffer ?a ?b ?c ?d ?e s] => rewrite (drawLineOnBuffer_eq a b c d e s)
  end.
  do 10 eexists. reflexivity.
Qed.

Lemma drawLine_frame a x0 y0 x1 y1 s : frame (drawLine a x0 y0 x1 y1 s) = frame s.
Proof.
  destruct (drawLine_eq a x0 y0 x1 y1 s) as (? & ? & ? & ? & ? & ? & ? & ? & ? & ? & ->).
  match goal with
  | |- frame (set_silhouetteDirty true ?r) = _ =>
      transitivity (frame r); [generalize r; intro r0; destruct r0; reflexivity|]
  end.
  rewrite write_frame. destruct (quiet_before_write s) as (F & _). exact F.
Qed.

Lemma drawLine_region a x0 y0 x1 y1 s :
  _regionId (drawLine a x0 y0 x1 y1 s) = Some _lineOnBufferDrawRegionId.
Proof.
  destruct (drawLine_eq a x0 y0 x1 y1 s) as (? & ? & ? & ? & ? & ? & ? & ? & ? & ? & ->).
  match goal with
  | |- _regionId (set_silhouetteDirty true ?r) = _ =>
      transitivity (_regionId r); [generalize r; intro r0; destruct r0; reflexivity|]
  end.
  rewrite write_region. apply before_write_region.
Qed.

Lemma drawLine_colorIndex a x0 y0 x1 y1 s :
  a_lineColorIndex (drawLine a x0 y0 x1 y1 s) = a_lineColorIndex (before_write s) + 24.
Proof.
  destruct (drawLine_eq a x0 y0 x1 y1 s) as (? & ? & ? & ? & ? & ? & ? & ? & ? & ? & ->).
  match goal with
  | |- a_lineColorIndex (set_silhouetteDirty true ?r) = _ =>
      transitivity (a_lineColorIndex r); [generalize r; intro r0; destruct r0; reflexivity|]
  end.
  apply write_colorIndex.
Qed.

Lemma drawLine_calls a x0 y0 x1 y1 s :
  calls (drawLine a x0 y0 x1 y1 s) = calls (before_write s).
Proof.
  destruct (drawLine_eq a x0 y0 x1 y1 s) as (? & ? & ? & ? & ? & ? & ? & ? & ? & ? & ->).
  match goal with
  | |- calls (set_silhouetteDirty true ?r) = _ =>
      transitivity (calls r); [generalize r; intro r0; destruct r0; reflexivity|]
  end.
  apply write_calls.
Qed.

(** ** Calls of the merge and of the read-back *)

Lemma upload_calls_spec s : calls (upload_canvas s) = calls s ++ upload_calls s.
Proof. destruct s. unfold upload_canvas, upload_calls. run_state. now rewrite <- !app_assoc. Qed.

Lemma upload_region s : _regionId (upload_canvas s) = _regionId s.
Proof. destruct s. reflexivity. Qed.

Lemma upload_cursors s : cursors (upload_canvas s) = cursors s.
Proof. destruct s. reflexivity. Qed.

Lemma upload_flush_calls s : flush_calls (upload_canvas s) = flush_calls s.
Proof. destruct s. reflexivity. Qed.

Lemma read_back_calls_spec s : calls (read_back s) = calls s ++ read_back_calls s.
Proof. destruct s. unfold read_back, read_back_calls. run_state. now rewrite <- !app_assoc. Qed.

Lemma read_back_flags s :
  _silhouetteDirty (read_back s) = false /\ _canvasDirty (read_back s) = _canvasDirty s.
Proof. destruct s. split; reflexivity. Qed.

Lemma read_back_surfaces s : surfaces (read_back s) = surfaces s.
Proof. destruct s. reflexivity. Qed.

Lemma read_request_surfaces s : surfaces (read_request s) = surfaces s.
Proof. destruct s. reflexivity. Qed.

Lemma read_request_calls s :
  calls (read_request s) =
    calls s ++ [gl_readPixels 0 0 (canvas_width (_canvas s)) (canvas_height (_canvas s))].
Proof. destruct s. reflexivity. Qed.

Lemma updateSilhouette_surfaces s : surfaces (updateSilhouette s) = surfaces s.
Proof.
  destruct (_silhouetteDirty s) eqn:E.
  - rewrite (updateSilhouette_dirty _ E).
    destruct (has_buffers s);
      [rewrite read_back_surfaces | rewrite read_request_surfaces];
      apply synchronized_surfaces.
  - now rewrite (updateSilhouette_clean _ E).
Qed.

(** The merge started in the line region with a segment pending: the batch
    is flushed right after the upload, and is empty afterwards. *)
Lemma merge_flushes_pending s :
  _regionId s = Some _lineOnBufferDrawRegionId ->
  a_lineColorIndex s <> 0 ->
  cursors (merge_raster s) = (0, 0, 0) /\
  exists rest, calls (merge_raster s) = calls s ++ upload_calls s ++ flush_calls s ++ rest.
Proof.
  intros R P.
  assert (quiet (_flushLines (upload_canvas s)) (merge_raster s)) as Q.
  { unfold merge_raster. rewrite enter_toBuffer_from_line.
    - match goal with
      | |- quiet _ (set_silhouetteDirty true ?r) =>
          apply (quiet_trans _ r); [|apply quiet_set_silhouetteDirty]
      end.
      match goal with
      | |- quiet _ (_drawRectangle _ _ _ _ _ ?r) =>
          apply (quiet_trans _ r); [|apply quiet_drawRectangle]
      end.
      match goal with
      | |- quiet _ (set_regionId _ ?r) =>
          apply (quiet_trans _ r); [|apply quiet_set_regionId]
      end.
      match goal with
      | |- quiet _ (_enterDrawToBuffer ?r) =>
          apply (quiet_trans _ r); [|apply quiet_enter_toBuffer]
      end.
      apply quiet_call.
    - now rewrite upload_region.
    - pose proof (upload_cursors s) as C. unfold cursors in C. congruence. }
  destruct Q as (_ & _ & C & _ & (more & M)).
  rewrite flush_cursors in C. split; [now destruct C|].
  exists more. rewrite M, flush_calls_spec, upload_calls_spec, upload_flush_calls.
  now rewrite <- !app_assoc.
Qed.

(** ** Cursors and colours after [drawLine] *)

Lemma drawLine_unfold a x0 y0 x1 y1 s :
  drawLine a x0 y0 x1 y1 s =
  set_silhouetteDirty true
    (_drawLineOnBuffer a (x0 + pen_offset a) (y0 + pen_offset a)
       (x1 + pen_offset a) (y1 + pen_offset a) s).
Proof. reflexivity. Qed.

Lemma drawLine_cursors a x0 y0 x1 y1 s :
  cursors (drawLine a x0 y0 x1 y1 s) =
  (a_lineColorIndex (before_write s) + 24,
   a_lineThicknessAndLengthIndex (before_write s) + 12,
   a_penPointsIndex (before_write s) + 24).
Proof.
  destruct (drawLine_eq a x0 y0 x1 y1 s) as (? & ? & ? & ? & ? & ? & ? & ? & ? & ? & ->).
  match goal with
  | |- cursors (set_silhouetteDirty true ?r) = _ =>
      transitivity (cursors r); [generalize r; intro r0; destruct r0; reflexivity|]
  end.
  unfold cursors.
  now rewrite write_colorIndex, write_thicknessIndex, write_pointsIndex.
Qed.

Lemma drawLine_color a x0 y0 x1 y1 s :
  batch_ok s ->
  f32_slice (a_lineColor (drawLine a x0 y0 x1 y1 s))
    (a_lineColorIndex (drawLine a x0 y0 x1 y1 s) - 24) 24 =
  concat (replicate 6
    [Math_fround (c_0 (color4f_or_default a) * c_3 (color4f_or_default a));
     Math_fround (c_1 (color4f_or_default a) * c_3 (color4f_or_default a));
     Math_fround (c_2 (color4f_or_default a) * c_3 (color4f_or_default a));
     Math_fround (c_3 (color4f_or_default a))]).
Proof.
  intros Hs. rewrite drawLine_colorIndex.
  replace (a_lineColorIndex (before_write s) + 24 - 24)
    with (a_lineColorIndex (before_write s)) by lia.
  rewrite drawLine_unfold, drawLineOnBuffer_eq.
  match goal with
  | |- f32_slice (a_lineColor (set_silhouetteDirty true ?r)) _ _ = _ =>
      replace (a_lineColor (set_silhouetteDirty true r)) with (a_lineColor r)
        by (generalize r; intro r0; destruct r0; reflexivity)
  end.
  apply segment_color.
  pose proof (before_write_fits s Hs) as Hfit.
  pose proof (batch_ok_kept _ _ (before_write_kept s) Hs) as (L & _).
  rewrite L. exact Hfit.
Qed.

(** ** Adding zero *)


(** ** The backing surfaces *)

Lemma surfaces_backing s s' : surfaces s' = surfaces s -> backing s' = backing s.
Proof. unfold surfaces, backing. congruence. Qed.

Lemma frame_backing s s' : frame s' = frame s -> backing s' = backing s.
Proof. intros H. apply surfaces_backing. unfold frame in H. congruence. Qed.

Lemma backed_at_backing w h s s' : backing s' = backing s -> backed_at w h s -> backed_at w h s'.
Proof.
  unfold backing, backed_at. intros B (C & e & f & b & H).
  injection B as -> -> -> -> _ _. eauto 10.
Qed.

Lemma backed_backing s s' : backing s' = backing s -> backed s -> backed s'.
Proof.
  intros B H. unfold backed.
  replace (_canvas s') with (_canvas s) by (unfold backing in B; congruence).
  now apply (backed_at_backing _ _ s).
Qed.

Lemma backed_at_backed w h s : backed_at w h s -> backed s.
Proof. intros H. unfold backed. destruct H as (C & H). rewrite C. simpl. now split. Qed.

Lemma drawToBuffer_body_surfaces self t x y s :
  (forall s, surfaces (self s) = surfaces s) ->
  surfaces (_drawToBuffer_body self t x y s) = surfaces s.
Proof.
  intros Hself. unfold _drawToBuffer_body.
  match goal with
  | |- surfaces (set_silhouetteDirty true ?r) = _ =>
      transitivity (surfaces r); [generalize r; intro r0; destruct r0; reflexivity|]
  end.
  rewrite (quiet_surfaces _ _ (quiet_drawRectangle _ _ _ _ _ _)).
  rewrite (quiet_surfaces _ _ (quiet_enterDrawRegion _ _)).
  match goal with
  | |- surfaces (if _ then _ else ?r) = _ =>
      transitivity (surfaces r);
        [generalize r; intro r0; destruct (bool_decide _); destruct r0; reflexivity|]
  end.
  destruct (_ && _); [apply Hself | reflexivity].
Qed.

Lemma drawToBuffer_surfaces t x y s : surfaces (_drawToBuffer t x y s) = surfaces s.
Proof.
  apply drawToBuffer_body_surfaces. intros s'.
  apply drawToBuffer_body_surfaces. reflexivity.
Qed.

Lemma finish_backing w h s : backing (_setCanvasSize_finish w h s) = backing s.
Proof. unfold _setCanvasSize_finish. destruct (new_Uint8Array _); destruct s; reflexivity. Qed.

Lemma allocate_backed w h s :
  backed_at w h (_setCanvasSize_allocate w h s) /\
  _nativeSize (_setCanvasSize_allocate w h s) = _nativeSize s /\
  renderQuality (_setCanvasSize_allocate w h s) = renderQuality s.
Proof.
  destruct s as [? ? ? ? ? [f|] [b|] ? ? ? ? ? ? ? ? ? ? ? ? ? ? ? ? ? ? ? ?];
    vm_compute;
    (split; [split; [reflexivity|]; do 3 eexists; repeat split | split; reflexivity]).
Qed.

Lemma setCanvasSize_backing w h s :
  backing (_setCanvasSize w h s) = backing (_setCanvasSize_allocate w h s).
Proof.
  unfold _setCanvasSize. rewrite finish_backing.
  destruct (_exportTexture s); [|reflexivity].
  apply surfaces_backing, drawToBuffer_surfaces.
Qed.

Lemma setCanvasSize_backed w h s :
  backed_at w h (_setCanvasSize w h s) /\
  _nativeSize (_setCanvasSize w h s) = _nativeSize s /\
  renderQuality (_setCanvasSize w h s) = renderQuality s.
Proof.
  pose proof (setCanvasSize_backing w h s) as B.
  destruct (allocate_backed w h s) as (A & N & Q).
  split; [now apply (backed_at_backing _ _ _ _ B)|].
  unfold backing in B. split; congruence.
Qed.

Lemma backed_step s o : backed s -> backed (step s o).
Proof.
  intros Hs. destruct o; cbv beta iota delta [step].
  - (* clear *) apply (backed_backing s); [destruct s; reflexivity | exact Hs].
  - (* drawPoint *) apply (backed_backing s); [|exact Hs].
    unfold drawPoint. apply frame_backing, drawLine_frame.
  - (* drawLine *) apply (backed_backing s); [|exact Hs].
    apply frame_backing, drawLine_frame.
  - (* drawStamp *) apply (backed_backing s); [destruct s; reflexivity | exact Hs].
  - (* getTexture *) apply (backed_backing s); [|exact Hs].
    rewrite getTexture_state. apply surfaces_backing.
    destruct (_canvasDirty s); [apply merge_surfaces | reflexivity].
  - (* updateSilhouette *)
    apply (backed_backing s); [|exact Hs].
    apply surfaces_backing, updateSilhouette_surfaces.
  - (* setRenderQuality *)
    unfold setRenderQuality. destruct (strict_eq _ _); [exact Hs|].
    eapply backed_at_backed. apply setCanvasSize_backed.
  - (* onNativeSizeChanged *)
    unfold onNativeSizeChanged. eapply backed_at_backed. apply setCanvasSize_backed.
  - (* enterDrawRegion *) apply (backed_backing s); [|exact Hs].
    apply surfaces_backing, quiet_surfaces, quiet_enterDrawRegion.
  - (* exitDrawRegion *) apply (backed_backing s); [|exact Hs].
    apply surfaces_backing, quiet_surfaces, quiet_exitDrawRegion.
Qed.

Lemma backed_constructor id nativeSize : backed (constructor id nativeSize).
Proof. unfold constructor. eapply backed_at_backed. apply setCanvasSize_backed. Qed.

Lemma reachable_backed id nativeSize ops : backed (run ops (constructor id nativeSize)).
Proof. apply run_invariant; [apply backed_constructor | apply backed_step]. Qed.

(** ** The trace only grows *)

Lemma grows_refl s : grows s s.
Proof. exists []. now rewrite app_nil_r. Qed.

Lemma grows_trans s1 s2 s3 : grows s1 s2 -> grows s2 s3 -> grows s1 s3.
Proof. intros (m1 & M1) (m2 & M2). exists (m1 ++ m2). now rewrite M2, M1, app_assoc. Qed.

Lemma grows_same s s' : calls s' = calls s -> grows s s'.
Proof. intros H. exists []. now rewrite app_nil_r. Qed.

Lemma quiet_grows s s' : quiet s s' -> grows s s'.
Proof. now intros (_ & _ & _ & _ & H). Qed.

Lemma grows_clear s : grows s (clear s).
Proof. destruct s. unfold grows, clear. eexists. run_state. rewrite <- !app_assoc. reflexivity. Qed.

Lemma grows_drawStamp e x y s : grows s (drawStamp e x y s).
Proof. destruct s. unfold grows, drawStamp. eexists. run_state. reflexivity. Qed.

Lemma grows_drawLine a x0 y0 x1 y1 s : grows s (drawLine a x0 y0 x1 y1 s).
Proof.
  apply (grows_trans _ (before_write s)).
  - apply quiet_grows, quiet_before_write.
  - apply grows_same, drawLine_calls.
Qed.

Lemma grows_merge s : grows s (merge_raster s).
Proof.
  apply (grows_trans _ (upload_canvas s)).
  - exists (upload_calls s). apply upload_calls_spec.
  - apply quiet_grows, quiet_upload_to_merge.
Qed.

Lemma grows_synchronized s : grows s (synchronized s).
Proof.
  unfold synchronized.
  match goal with
  | |- grows _ (enterDrawRegion _ ?r) =>
      apply (grows_trans _ r); [|apply quiet_grows, quiet_enterDrawRegion]
  end.
  destruct (_canvasDirty s); [apply grows_merge | apply grows_refl].
Qed.

Lemma grows_updateSilhouette s : grows s (updateSilhouette s).
Proof.
  destruct (_silhouetteDirty s) eqn:E.
  - rewrite (updateSilhouette_dirty _ E).
    apply (grows_trans _ (synchronized s)); [apply grows_synchronized|].
    destruct (has_buffers s).
    + exists (read_back_calls (synchronized s)). apply read_back_calls_spec.
    + eexists. apply read_request_calls.
  - rewrite (updateSilhouette_clean _ E). apply grows_refl.
Qed.

Lemma grows_allocate w h s : grows s (_setCanvasSize_allocate w h s).
Proof.
  destruct s as [? ? ? ? ? [f|] [b|] ? ? ? ? ? ? ? ? ? ? ? ? ? ? ? ? ? ? ? ?];
    unfold grows; eexists; lazy beta iota zeta delta -[app];
    rewrite <- !app_assoc; reflexivity.
Qed.

Lemma grows_finish w h s : grows s (_setCanvasSize_finish w h s).
Proof.
  unfold _setCanvasSize_finish. destruct (new_Uint8Array _); [|apply grows_refl].
  destruct s. unfold grows, _setCanvasSize_buffers. eexists. run_state. reflexivity.
Qed.

Lemma grows_drawToBuffer_body self t x y s :
  (forall s, grows s (self s)) -> grows s (_drawToBuffer_body self t x y s).
Proof.
  intros Hself. unfold _drawToBuffer_body.
  match goal with
  | |- grows _ (set_silhouetteDirty true ?r) =>
      apply (grows_trans _ r); [|apply quiet_grows, quiet_set_silhouetteDirty]
  end.
  match goal with
  | |- grows _ (_drawRectangle ?a ?b ?c ?d ?e ?r) =>
      apply (grows_trans _ r); [|apply quiet_grows, quiet_drawRectangle]
  end.
  match goal with
  | |- grows _ (enterDrawRegion ?a ?r) =>
      apply (grows_trans _ r); [|apply quiet_grows, quiet_enterDrawRegion]
  end.
  match goal with
  | |- grows _ (if _ then _ else ?r) =>
      apply (grows_trans _ r);
        [|generalize r; intro r0; destruct (bool_decide _); [|apply grows_refl];
          destruct r0; unfold grows; eexists; run_state; rewrite <- !app_assoc; reflexivity]
  end.
  destruct (_ && _); [apply Hself | apply grows_refl].
Qed.

Lemma grows_drawToBuffer t x y s : grows s (_drawToBuffer t x y s).
Proof.
  apply grows_drawToBuffer_body. intros s'.
  apply grows_drawToBuffer_body. intros s''. apply grows_refl.
Qed.

Lemma grows_setCanvasSize w h s : grows s (_setCanvasSize w h s).
Proof.
  unfold _setCanvasSize.
  match goal with
  | |- grows _ (_setCanvasSize_finish _ _ ?r) =>
      apply (grows_trans _ r); [|apply grows_finish]
  end.
  apply (grows_trans _ (_setCanvasSize_allocate w h s)); [apply grows_allocate|].
  destruct (_exportTexture s); [apply grows_drawToBuffer | apply grows_refl].
Qed.

Lemma grows_step s o : grows s (step s o).
Proof.
  destruct o; cbv beta iota delta [step].
  - apply grows_clear.
  - unfold drawPoint. apply grows_drawLine.
  - apply grows_drawLine.
  - apply grows_drawStamp.
  - rewrite getTexture_state. destruct (_canvasDirty s); [apply grows_merge | apply grows_refl].
  - apply grows_updateSilhouette.
  - unfold setRenderQuality. destruct (strict_eq _ _); [apply grows_refl|].
    match goal with
    | |- grows _ (_setCanvasSize _ _ ?r) =>
        apply (grows_trans _ r); [apply grows_same; destruct s; reflexivity|]
    end.
    apply grows_setCanvasSize.
  - unfold onNativeSizeChanged.
    match goal with
    | |- grows _ (_setCanvasSize _ _ ?r) =>
        apply (grows_trans _ r); [apply grows_same; destruct s; reflexivity|]
    end.
    apply grows_setCanvasSize.
  - apply quiet_grows, quiet_enterDrawRegion.
  - apply quiet_grows, quiet_exitDrawRegion.
Qed.

(** ** What the pen layer holds *)

Lemma live_objects_app cs cs' live :
  live_objects (cs ++ cs') live = live_objects cs' (live_objects cs live).
Proof. revert live. induction cs as [|c cs IH]; intros live; simpl; [reflexivity | apply IH]. Qed.

Lemma deletes_no_buffer c b : deletes c <> Some (buffer_object b).
Proof. destruct c as [| |[t|]| | | | | | | | | | | | | | | | | | | | | | | | |]; discriminate. Qed.

(** No call deletes the buffers of a [BufferInfo]. *)
Lemma live_buffer_kept b cs live :
  In (buffer_object b) live -> In (buffer_object b) (live_objects cs live).
Proof.
  revert live. induction cs as [|c cs IH]; intros live H; simpl; [exact H|].
  apply IH.
  assert (In (buffer_object b)
            match creates c with Some o => live ++ [o] | None => live end) as H'.
  { destruct (creates c); [apply in_or_app; now left | exact H]. }
  destruct (deletes c) as [o|] eqn:D; [|exact H'].
  apply list_elem_of_In, list_elem_of_filter. split; [|now apply list_elem_of_In].
  intros <-. now apply (deletes_no_buffer c b).
Qed.

Lemma live_buffer_grows b s s' :
  grows s s' ->
  In (buffer_object b) (live_objects (calls s) []) ->
  In (buffer_object b) (live_objects (calls s') []).
Proof. intros (more & ->) H. rewrite live_objects_app. now apply live_buffer_kept. Qed.

Lemma surfaces_identity s s' : surfaces s' = surfaces s -> identity s' = identity s.
Proof. unfold surfaces, identity. congruence. Qed.

Lemma surfaces_texture s s' : surfaces s' = surfaces s -> _texture s' = _texture s.
Proof. unfold surfaces. congruence. Qed.

Lemma owned_kept id s s' :
  identity s' = identity s -> (is_Some (_texture s) -> is_Some (_texture s')) -> grows s s' ->
  owned id s -> owned id s'.
Proof.
  unfold identity, owned. intros I T G (H1 & H2 & (t & H3) & (b & H4 & H5)).
  injection I as -> -> ->. repeat split; auto.
  - destruct T as [t' T]; [now exists t | now exists t'].
  - exists b. split; [exact H4 | now apply (live_buffer_grows b s)].
Qed.

Lemma owned_surfaces id s s' :
  surfaces s' = surfaces s -> grows s s' -> owned id s -> owned id s'.
Proof.
  intros S G. apply owned_kept; [now apply surfaces_identity | | exact G].
  now rewrite (surfaces_texture _ _ S).
Qed.

Lemma allocate_identity w h s :
  identity (_setCanvasSize_allocate w h s) = identity s /\
  is_Some (_texture (_setCanvasSize_allocate w h s)).
Proof.
  destruct s as [? ? ? ? ? [f|] [b|] ? ? ? ? ? ? ? ? ? ? ? ? ? ? ? ? ? ? ? ?];
    (split; [reflexivity | vm_compute; eauto]).
Qed.

Lemma finish_identity w h s :
  identity (_setCanvasSize_finish w h s) = identity s /\
  _texture (_setCanvasSize_finish w h s) = _texture s.
Proof.
  unfold _setCanvasSize_finish. destruct (new_Uint8Array _); destruct s; split; reflexivity.
Qed.

Lemma setCanvasSize_identity w h s :
  identity (_setCanvasSize w h s) = identity s /\ is_Some (_texture (_setCanvasSize w h s)).
Proof.
  unfold _setCanvasSize.
  match goal with
  | |- identity (_setCanvasSize_finish _ _ ?r) = _ /\ _ =>
      destruct (finish_identity w h r) as (-> & ->);
      assert (surfaces r = surfaces (_setCanvasSize_allocate w h s)) as S
        by (destruct (_exportTexture s); [apply drawToBuffer_surfaces | reflexivity])
  end.
  rewrite (surfaces_identity _ _ S), (surfaces_texture _ _ S).
  apply allocate_identity.
Qed.

Lemma owned_setCanvasSize id w h s : owned id s -> owned id (_setCanvasSize w h s).
Proof.
  destruct (setCanvasSize_identity w h s) as (I & T).
  apply owned_kept; [exact I | auto | apply grows_setCanvasSize].
Qed.

Lemma owned_step id s o : owned id s -> owned id (step s o).
Proof.
  destruct o; cbv beta iota delta [step].
  - (* clear *) apply owned_surfaces; [destruct s; reflexivity | apply grows_clear].
  - (* drawPoint *)
    unfold drawPoint. apply owned_surfaces; [|apply grows_drawLine].
    pose proof (drawLine_frame penAttributes x y x y s) as F.
    unfold frame in F. congruence.
  - (* drawLine *)
    apply owned_surfaces; [|apply grows_drawLine].
    pose proof (drawLine_frame penAttributes x0 y0 x1 y1 s) as F.
    unfold frame in F. congruence.
  - (* drawStamp *) apply owned_surfaces; [destruct s; reflexivity | apply grows_drawStamp].
  - (* getTexture *)
    rewrite getTexture_state.
    destruct (_canvasDirty s); [|auto].
    apply owned_surfaces; [apply merge_surfaces | apply grows_merge].
  - (* updateSilhouette *)
    apply owned_surfaces; [apply updateSilhouette_surfaces | apply grows_updateSilhouette].
  - (* setRenderQuality *)
    unfold setRenderQuality. destruct (strict_eq _ _); [auto|].
    intros H. apply owned_setCanvasSize.
    revert H.
    apply owned_kept; [destruct s; reflexivity | destruct s; auto |].
    apply grows_same. destruct s. reflexivity.
  - (* onNativeSizeChanged *)
    unfold onNativeSizeChanged. intros H. apply owned_setCanvasSize.
    revert H.
    apply owned_kept; [destruct s; reflexivity | destruct s; auto |].
    apply grows_same. destruct s. reflexivity.
  - (* enterDrawRegion *)
    apply owned_surfaces; [apply quiet_surfaces | apply quiet_grows]; apply quiet_enterDrawRegion.
  - (* exitDrawRegion *)
    apply owned_surfaces; [apply quiet_surfaces | apply quiet_grows]; apply quiet_exitDrawRegion.
Qed.

Lemma owned_constructor id nativeSize : owned id (constructor id nativeSize).
Proof.
  unfold constructor.
  match goal with
  | |- owned id (_setCanvasSize ?w ?h ?r) =>
      destruct (setCanvasSize_identity w h r) as (I & (t & T));
      pose proof (grows_setCanvasSize w h r) as G;
      assert (identity r = (id, [onNativeSizeChanged_listener id], Some (Buffers 0))) as R
        by (vm_compute; reflexivity);
      assert (In (buffer_object (Buffers 0)) (live_objects (calls r) [])) as L
        by (vm_compute; auto);
      generalize dependent (_setCanvasSize w h r); intros s' I T G
  end.
  rewrite R in I. unfold identity in I. injection I as I1 I2 I3.
  unfold owned. repeat split; eauto.
  exists (Buffers 0). split; [exact I3|].
  eapply live_buffer_grows; [exact G | exact L].
Qed.

Lemma reachable_owned id nativeSize ops : owned id (run ops (constructor id nativeSize)).
Proof. apply run_invariant; [apply owned_constructor | apply owned_step]. Qed.

(** ** The read-back buffers *)

Lemma finish_has_buffers w h s :
  has_buffers (_setCanvasSize_finish w h s) = _setCanvasSize_returns w h || has_buffers s.
Proof.
  unfold _setCanvasSize_finish, _setCanvasSize_returns.
  destruct (new_Uint8Array _); destruct s; reflexivity.
Qed.

Lemma finish_returns w h s :
  _setCanvasSize_returns w h = true -> has_buffers (_setCanvasSize_finish w h s) = true.
Proof. intros R. now rewrite finish_has_buffers, R. Qed.

Lemma allocate_has_buffers w h s :
  has_buffers (_setCanvasSize_allocate w h s) = has_buffers s.
Proof.
  destruct s as [? ? ? ? ? [f|] [b|] ? ? ? ? ? ? ? ? ? ? ? ? ? ? ? ? ? ? ? ?]; reflexivity.
Qed.

(** A size change that throws keeps the buffers of the former size. *)
Lemma setCanvasSize_has_buffers w h s :
  has_buffers (_setCanvasSize w h s) = _setCanvasSize_returns w h || has_buffers s.
Proof.
  unfold _setCanvasSize. rewrite finish_has_buffers. f_equal.
  rewrite <- (allocate_has_buffers w h s).
  destruct (_exportTexture s); [|reflexivity].
  apply surfaces_has_buffers, drawToBuffer_surfaces.
Qed.

Lemma has_buffers_step s o : has_buffers s = true -> has_buffers (step s o) = true.
Proof.
  intros H. rewrite <- H.
  destruct o; cbv beta iota delta [step].
  - (* clear *) apply surfaces_has_buffers. destruct s. reflexivity.
  - (* drawPoint *)
    unfold drawPoint. apply surfaces_has_buffers.
    pose proof (drawLine_frame penAttributes x y x y s) as F. unfold frame in F. congruence.
  - (* drawLine *)
    apply surfaces_has_buffers.
    pose proof (drawLine_frame penAttributes x0 y0 x1 y1 s) as F. unfold frame in F.
    congruence.
  - (* drawStamp *) apply surfaces_has_buffers. destruct s. reflexivity.
  - (* getTexture *)
    rewrite getTexture_state. destruct (_canvasDirty s); [|reflexivity].
    apply surfaces_has_buffers, merge_surfaces.
  - (* updateSilhouette *) apply surfaces_has_buffers, updateSilhouette_surfaces.
  - (* setRenderQuality *)
    unfold setRenderQuality. destruct (strict_eq _ _); [reflexivity|].
    rewrite setCanvasSize_has_buffers, H.
    replace (has_buffers (set_renderQuality quality s)) with (has_buffers s)
      by (destruct s; reflexivity).
    rewrite H. apply orb_true_r.
  - (* onNativeSizeChanged *)
    unfold onNativeSizeChanged. rewrite setCanvasSize_has_buffers, H.
    replace (has_buffers (set_nativeSize newSize s)) with (has_buffers s)
      by (destruct s; reflexivity).
    rewrite H. apply orb_true_r.
  - (* enterDrawRegion *)
    apply surfaces_has_buffers, quiet_surfaces, quiet_enterDrawRegion.
  - (* exitDrawRegion *)
    apply surfaces_has_buffers, quiet_surfaces, quiet_exitDrawRegion.
Qed.

(** A pen layer whose constructor returned has both read-back buffers ever
    after. *)
Lemma reachable_has_buffers id nativeSize ops :
  constructor_returns nativeSize = true ->
  has_buffers (run ops (constructor id nativeSize)) = true.
Proof.
  intros R. apply (run_invariant (fun s => has_buffers s = true)).
  - unfold constructor. rewrite setCanvasSize_has_buffers.
    unfold constructor_returns in R. now rewrite R.
  - apply has_buffers_step.
Qed.

(** ** The claims *)

(** C10.  In every state reachable from the constructor by the public
    operations and region changes, the three write cursors are in lockstep:
    the colour cursor equals the points cursor, both are twice the
    thickness-and-length cursor, and for some number [n] of whole segments
    they are [24 n], [24 n] and [12 n]. *)
Theorem cursors_in_lockstep id nativeSize ops :
  let s := run ops (constructor id nativeSize) in
  a_lineColorIndex s = a_penPointsIndex s /\
  a_lineColorIndex s = 2 * a_lineThicknessAndLengthIndex s /\
  exists n, a_lineColorIndex s = 24 * n /\ a_penPointsIndex s = 24 * n /\
            a_lineThicknessAndLengthIndex s = 12 * n.
Proof.
  intros s. destruct (reachable_batch_ok id nativeSize ops) as (_ & _ & _ & P & T & (k & K) & _).
  fold s in P, T, K. repeat split; [congruence | exact T |].
  exists k. lia.
Qed.

(** C2.  In every reachable state each write cursor is within the capacity
    of its array.  A [drawLine] first enters the line region; if the
    segment's 24 colour floats would not fit, it makes the calls of one flush
    and then writes the six vertex records at the start of the empty batch
    (cursors 24, 12, 24); otherwise it makes no call and advances the cursors
    by 24, 12 and 24.  Either way the records were written within one batch
    and the cursors are within capacity again. *)
Theorem cursors_within_capacity id nativeSize ops a x0 y0 x1 y1 :
  let s := run ops (constructor id nativeSize) in
  let e := enterDrawRegion _lineOnBufferDrawRegionId s in
  let s' := drawLine a x0 y0 x1 y1 s in
  (a_lineColorIndex s <= f32_length (a_lineColor s) /\
   a_lineThicknessAndLengthIndex s <= f32_length (a_lineThicknessAndLength s) /\
   a_penPointsIndex s <= f32_length (a_penPoints s)) /\
  (if f32_length (a_lineColor e) <? a_lineColorIndex e + 24
   then calls s' = calls e ++ flush_calls e /\ cursors s' = (24, 12, 24)
   else calls s' = calls e /\
        cursors s' = (a_lineColorIndex e + 24, a_lineThicknessAndLengthIndex e + 12,
                      a_penPointsIndex e + 24)) /\
  (a_lineColorIndex s' <= f32_length (a_lineColor s') /\
   a_lineThicknessAndLengthIndex s' <= f32_length (a_lineThicknessAndLength s') /\
   a_penPointsIndex s' <= f32_length (a_penPoints s')).
Proof.
  intros s e s'.
  assert (forall r, batch_ok r ->
            a_lineColorIndex r <= f32_length (a_lineColor r) /\
            a_lineThicknessAndLengthIndex r <= f32_length (a_lineThicknessAndLength r) /\
            a_penPointsIndex r <= f32_length (a_penPoints r)) as Hcap.
  { intros r (L1 & L2 & L3 & P & T & _ & B). rewrite L1, L2, L3. lia. }
  pose proof (reachable_batch_ok id nativeSize ops) as Hs. fold s in Hs.
  split; [now apply Hcap|]. split.
  - subst s'. rewrite drawLine_calls, drawLine_cursors. unfold before_write. fold e.
    destruct (_ <? _).
    + rewrite flush_calls_spec. split; [reflexivity|].
      destruct (flush_cursor_values e) as (-> & -> & ->). reflexivity.
    + split; reflexivity.
  - apply Hcap. subst s'.
    apply (batch_ok_step s (op_drawLine a x0 y0 x1 y1)). exact Hs.
Qed.

(** C3.  In every state reachable from the constructor by the public
    operations and region changes, a dirty raster surface implies a dirty
    silhouette. *)
Theorem rasterDirty_implies_silhouetteDirty id nativeSize ops :
  let s := run ops (constructor id nativeSize) in
  _canvasDirty s = true -> _silhouetteDirty s = true.
Proof. intros s. apply reachable_flags_ok. Qed.

(** After a stamp on the reference stage the raster surface is dirty, and so
    is the silhouette. *)
Lemma rasterDirty_implies_silhouetteDirty_witness :
  _canvasDirty (run [op_drawStamp 0 10 20] stage) = true /\
  _silhouetteDirty (run [op_drawStamp 0 10 20] stage) = true.
Proof.
  split; [vm_compute; reflexivity|].
  apply (rasterDirty_implies_silhouetteDirty 1 (480, 360)%float [op_drawStamp 0 10 20]).
  vm_compute. reflexivity.
Defined.

(** C6.  [drawPoint] leaves exactly the state [drawLine] leaves for the
    segment from the point to itself. *)
Theorem drawPoint_is_zero_length_line a x y s :
  drawPoint a x y s = drawLine a x y x y s.
Proof. reflexivity. Qed.

(** C5, as the code has it.  For every colour [(r, g, b, a)], the 24 colour
    floats [drawLine] stores for a segment are six copies of
    [(r * a, g * a, b * a, a)], each component rounded to single precision:
    the batch array is a [Float32Array]. *)
Theorem stored_color_is_premultiplied id nativeSize ops d r g b a x0 y0 x1 y1 :
  let s := run ops (constructor id nativeSize) in
  let s' := drawLine {| diameter := d; color4f := Some (color r g b a) |} x0 y0 x1 y1 s in
  f32_slice (a_lineColor s') (a_lineColorIndex s' - 24) 24 =
  concat (replicate 6 [Math_fround (r * a); Math_fround (g * a); Math_fround (b * a);
                       Math_fround a]).
Proof.
  intros s s'. subst s'.
  rewrite drawLine_color by apply reachable_batch_ok. reflexivity.
Qed.

(** C5 as stated fails on red at opacity 0.1: the alpha stored for the first
    vertex is the single-precision neighbour of 0.1, not 0.1. *)
Lemma stored_alpha_is_rounded :
  f32_get (a_lineColor (drawLine faint_pen 0 0 100 0 stage)) 3 =
    Some 0x1.99999ap-4%float /\
  f32_get (a_lineColor (drawLine faint_pen 0 0 100 0 stage)) 3 <>
    Some 0x1.999999999999ap-4%float.
Proof.
  assert (f32_get (a_lineColor (drawLine faint_pen 0 0 100 0 stage)) 3 =
          Some 0x1.99999ap-4%float) as H by (vm_compute; reflexivity).
  split; [exact H|]. rewrite H. intros E.
  apply (f_equal (fun o => match o with
                           | Some v => PrimFloat.eqb v 0x1.999999999999ap-4
                           | None => true
                           end)) in E.
  vm_compute in E. discriminate E.
Qed.

(** C1, as the code has it.  [getTexture] right after a [drawLine] returns
    the export texture.  The segment is pending then.  If the raster surface
    is dirty, the merge flushes the batch right after uploading the canvas,
    and the batch is empty when [getTexture] returns; if it is not dirty,
    [getTexture] changes nothing and the segment stays pending. *)
Theorem getTexture_after_drawLine a x0 y0 x1 y1 w h s :
  let s1 := drawLine a x0 y0 x1 y1 s in
  let s2 := snd (getTexture w h s1) in
  fst (getTexture w h s1) = _exportTexture s1 /\
  24 <= a_lineColorIndex s1 /\
  if _canvasDirty s1
  then cursors s2 = (0, 0, 0) /\
       exists rest, calls s2 = calls s1 ++ upload_calls s1 ++ flush_calls s1 ++ rest
  else s2 = s1.
Proof.
  intros s1 s2.
  assert (24 <= a_lineColorIndex s1) as Hp by (subst s1; rewrite drawLine_colorIndex; lia).
  assert (_regionId s1 = Some _lineOnBufferDrawRegionId) as Hr
    by (subst s1; apply drawLine_region).
  assert (s2 = if _canvasDirty s1 then merge_raster s1 else s1) as H2
    by (subst s2; apply getTexture_state).
  assert (fst (getTexture w h s1) = _exportTexture s2) as Ht.
  { subst s2. generalize s1. intros r. reflexivity. }
  clearbody s1 s2. subst s2. split; [|split; [exact Hp|]].
  - rewrite Ht. destruct (_canvasDirty s1); [|reflexivity].
    pose proof (merge_surfaces s1) as M. unfold surfaces in M. congruence.
  - destruct (_canvasDirty s1); [|reflexivity].
    apply merge_flushes_pending; [exact Hr | lia].
Qed.

(** C1 as stated fails on the reference stage: the raster surface is clean,
    and after [drawLine] and [getTexture] the 24 colour floats of the segment
    are still pending and no call has been made since the line was drawn. *)
Lemma getTexture_leaves_line_pending :
  _canvasDirty (drawLine red_pen 0 0 100 0 stage) = false /\
  a_lineColorIndex (snd (getTexture 480 360 (drawLine red_pen 0 0 100 0 stage))) = 24 /\
  calls (snd (getTexture 480 360 (drawLine red_pen 0 0 100 0 stage))) =
  calls (drawLine red_pen 0 0 100 0 stage).
Proof. split; [|split]; vm_compute; reflexivity. Qed.

Lemma nativeSize_set_renderQuality q s : _nativeSize (set_renderQuality q s) = _nativeSize s.
Proof. destruct s. reflexivity. Qed.

Lemma renderQuality_set_renderQuality q s : renderQuality (set_renderQuality q s) = q.
Proof. destruct s. reflexivity. Qed.

(** C7.  [setRenderQuality q] with [q] strictly equal to the current quality
    returns the state unchanged.  Otherwise the canvas, the export texture's
    framebuffer and the second framebuffer get the size
    [Math.round (nativeWidth * q)] x [Math.round (nativeHeight * q)], the
    quality becomes [q], and the reported size is still the native size. *)
Theorem setRenderQuality_resizes_backing q s :
  if strict_eq (renderQuality s) q
  then setRenderQuality q s = s
  else backed_at (Math_round (fst (_nativeSize s) * q)) (Math_round (snd (_nativeSize s) * q))
         (setRenderQuality q s) /\
       renderQuality (setRenderQuality q s) = q /\
       size (setRenderQuality q s) = _nativeSize s /\
       size (setRenderQuality q s) = size s.
Proof.
  unfold setRenderQuality, size. destruct (strict_eq _ _); [reflexivity|]. cbv zeta.
  rewrite nativeSize_set_renderQuality.
  match goal with
  | |- context [_setCanvasSize ?w ?h ?r] =>
      destruct (setCanvasSize_backed w h r) as (B & N & Q)
  end.
  rewrite N, Q, nativeSize_set_renderQuality, renderQuality_set_renderQuality. auto.
Qed.

Lemma dispose_listeners s :
  _listeners (dispose s) =
  remove_listener (onNativeSizeChanged_listener (_id s)) (_listeners s).
Proof. destruct s. reflexivity. Qed.

Lemma dispose_calls s :
  calls (dispose s) =
  calls s ++ [renderer_removeListener_NativeSizeChanged (onNativeSizeChanged_listener (_id s));
              gl_deleteTexture (_texture s); gl_deleteTexture (_exportTexture s)].
Proof. destruct s. unfold dispose, Skin_dispose. run_state. now rewrite <- !app_assoc. Qed.

(** C9, as the code has it.  On every state reachable from the constructor,
    [dispose] makes three calls: it removes the pen layer's listener of the
    stage's size changes, after which no listener is left, and deletes the
    canvas texture and the export texture, after which neither is among the
    live GL objects.  The buffers of the line geometry are still live. *)
Theorem dispose_unregisters_and_deletes_textures id nativeSize ops :
  let s := run ops (constructor id nativeSize) in
  exists t e b,
    _texture s = Some t /\ _exportTexture s = Some e /\ _lineBufferInfo s = Some b /\
    calls (dispose s) =
      calls s ++ [renderer_removeListener_NativeSizeChanged (onNativeSizeChanged_listener id);
                  gl_deleteTexture (Some t); gl_deleteTexture (Some e)] /\
    _listeners (dispose s) = [] /\
    ~ In (texture_object t) (live_objects (calls (dispose s)) []) /\
    ~ In (texture_object e) (live_objects (calls (dispose s)) []) /\
    In (buffer_object b) (live_objects (calls (dispose s)) []).
Proof.
  intros s.
  destruct (reachable_owned id nativeSize ops) as (I & L & (t & T) & (b & B & Hb)).
  destruct (reachable_backed id nativeSize ops) as (_ & e & _ & _ & E & _).
  fold s in I, L, T, B, Hb, E.
  exists t, e, b.
  rewrite dispose_listeners, dispose_calls, live_objects_app, I, L, T, E.
  split; [reflexivity|]. split; [reflexivity|]. split; [exact B|]. split; [reflexivity|].
  split; [unfold remove_listener; now rewrite bool_decide_refl_true|].
  generalize dependent (live_objects (calls s) []). intros live Hb.
  cbv beta iota delta [live_objects creates deletes].
  split; [|split].
  - intros H. apply list_elem_of_In, list_elem_of_filter in H as (_ & H).
    apply list_elem_of_filter in H as (H & _). now apply H.
  - intros H. apply list_elem_of_In, list_elem_of_filter in H as (H & _). now apply H.
  - apply list_elem_of_In, list_elem_of_filter. split; [discriminate|].
    apply list_elem_of_filter. split; [discriminate | now apply list_elem_of_In].
Qed.

(** C9 fails: after the constructor and [dispose], the buffers of the line
    geometry and both framebuffers are still allocated; only the two textures
    were deleted. *)
Lemma dispose_leaves_objects_allocated :
  live_objects (calls stage) [] =
    [buffer_object (Buffers 0); texture_object (Texture 1); texture_object (Texture 2);
     framebuffer_object (Framebuffer 3); framebuffer_object (Framebuffer 4)] /\
  live_objects (calls (dispose stage)) [] =
    [buffer_object (Buffers 0); framebuffer_object (Framebuffer 3);
     framebuffer_object (Framebuffer 4)].
Proof. split; vm_compute; reflexivity. Qed.

(** ** The worked example of the specification *)

(** On a 480 x 360 stage, the line from (0, 0) to (100, 0) with diameter 1
    and opaque red puts six vertices in the batch: colour (1, 0, 0, 1),
    thickness 1 and length 100, start point shifted by half a pixel and
    delta (100, 0), with [y] negated. *)
Example red_line_in_batch :
  cursors (drawLine red_pen 0 0 100 0 stage) = (24, 12, 24) /\
  f32_slice (a_lineColor (drawLine red_pen 0 0 100 0 stage)) 0 24 =
    concat (replicate 6 [1; 0; 0; 1]%float) /\
  f32_slice (a_lineThicknessAndLength (drawLine red_pen 0 0 100 0 stage)) 0 12 =
    concat (replicate 6 [1; 100]%float) /\
  f32_slice (a_penPoints (drawLine red_pen 0 0 100 0 stage)) 0 24 =
    concat (replicate 6 [0.5; -0.5; 100; -0]%float) /\
  calls (drawLine red_pen 0 0 100 0 stage) =
    calls stage ++
    [twgl_bindFramebufferInfo (_framebuffer stage);
     gl_viewport 0 0 480 360;
     gl_useProgram (_lineShader stage);
     twgl_setUniforms (_lineShader stage)
       (line_uniforms (_texture stage) (m4_ortho 0 480 0 360 (-1) 1) (480, 360)%float)].
Proof. split; [|split; [|split; [|split]]]; vm_compute; reflexivity. Qed.

(** With a stamp pending as well, [getTexture] uploads the canvas, flushes
    the six vertices with one triangle-list draw and leaves the batch
    empty. *)
Example stamped_line_is_flushed :
  let s := drawStamp 7 10 20 (drawLine red_pen 0 0 100 0 stage) in
  cursors (snd (getTexture 480 360 s)) = (0, 0, 0) /\
  In (twgl_drawBufferInfo (_lineBufferInfo stage) (Some 6%float))
    (calls (snd (getTexture 480 360 s))) /\
  _canvasDirty (snd (getTexture 480 360 s)) = false.
Proof.
  cbv zeta. split; [vm_compute; reflexivity|]. split; [|vm_compute; reflexivity].
  vm_compute. do 21 right. left. reflexivity.
Qed.

(** * Further properties of the operations *)

(** ** Requests that find nothing to do *)

Lemma getTexture_clean w h s : _canvasDirty s = false -> getTexture w h s = (_exportTexture s, s).
Proof. intros H. unfold getTexture. now rewrite H. Qed.

Lemma getTexture_result w h s :
  getTexture w h s = (_exportTexture (snd (getTexture w h s)), snd (getTexture w h s)).
Proof. unfold getTexture. generalize (_drawToBuffer None None None s). intros r. reflexivity. Qed.

Lemma getTexture_canvasDirty w h s : _canvasDirty (snd (getTexture w h s)) = false.
Proof.
  rewrite getTexture_state.
  destruct (_canvasDirty s) eqn:E; [apply merge_canvasDirty | exact E].
Qed.

Lemma getTexture_exportTexture w h s :
  _exportTexture (snd (getTexture w h s)) = _exportTexture s.
Proof.
  rewrite getTexture_state.
  destruct (_canvasDirty s); [|reflexivity].
  pose proof (merge_surfaces s) as S. unfold surfaces in S. congruence.
Qed.

(** X1.  [getTexture] returns the export texture the pen layer already
    holds, whatever size is asked for, and leaves the raster surface clean:
    a second request, for any size, returns the same texture and the same
    state as the first. *)
Theorem getTexture_twice w h w' h' s :
  fst (getTexture w h s) = _exportTexture s /\
  _canvasDirty (snd (getTexture w h s)) = false /\
  getTexture w' h' (snd (getTexture w h s)) = getTexture w h s.
Proof.
  split; [|split].
  - rewrite getTexture_result. apply getTexture_exportTexture.
  - apply getTexture_canvasDirty.
  - rewrite (getTexture_clean w' h' _ (getTexture_canvasDirty w h s)).
    symmetry. apply getTexture_result.
Qed.

Lemma updateSilhouette_silhouetteDirty s :
  _silhouetteDirty (updateSilhouette s) = _silhouetteDirty s && negb (has_buffers s).
Proof.
  destruct (_silhouetteDirty s) eqn:E.
  - rewrite (updateSilhouette_dirty _ E). destruct (has_buffers s); cbn [andb negb].
    + apply read_back_flags.
    + transitivity (_silhouetteDirty (synchronized s));
        [generalize (synchronized s); intros r; destruct r; reflexivity|].
      unfold synchronized.
      apply (proj1 (proj2 (proj2 (proj2 (quiet_enterDrawRegion _ _))))).
      destruct (_canvasDirty s); [apply merge_silhouetteDirty | exact E].
  - now rewrite (updateSilhouette_clean _ E).
Qed.

Lemma updateSilhouette_canvasDirty s :
  flags_ok s -> _canvasDirty (updateSilhouette s) = false.
Proof.
  intros F. destruct (_silhouetteDirty s) eqn:E.
  - rewrite (updateSilhouette_dirty _ E). rewrite <- (synchronized_canvasDirty s).
    destruct (has_buffers s); generalize (synchronized s); reflexivity.
  - rewrite (updateSilhouette_clean _ E).
    destruct (_canvasDirty s) eqn:C; [|reflexivity].
    rewrite (F C) in E. discriminate.
Qed.

(** On a pen layer whose constructor threw (a negative pixel count), the
    read-back buffers are missing: [updateSilhouette] throws at line 694 and
    the silhouette stays dirty. *)
Example updateSilhouette_without_buffers :
  let s := run [op_drawLine red_pen 0 0 10 10] (constructor 1 (-1, 1)%float) in
  constructor_returns (-1, 1)%float = false /\ has_buffers s = false /\
  _silhouetteDirty (updateSilhouette s) = true.
Proof. vm_compute. repeat split. Qed.

(** X2.  On a pen layer whose constructor returned, after
    [updateSilhouette] on a reachable state the pen layer is synchronized:
    both dirty flags are false, so a second [updateSilhouette] and a
    following [getTexture] return the state as it is, without a call, and
    the texture is the export texture held before. *)
Theorem updateSilhouette_synchronizes id nativeSize ops w h :
  constructor_returns nativeSize = true ->
  let s := run ops (constructor id nativeSize) in
  let s' := updateSilhouette s in
  _silhouetteDirty s' = false /\ _canvasDirty s' = false /\
  updateSilhouette s' = s' /\
  getTexture w h s' = (_exportTexture s, s').
Proof.
  intros R s s'.
  pose proof (updateSilhouette_silhouetteDirty s) as D.
  rewrite (reachable_has_buffers id nativeSize ops R : has_buffers s = true),
    andb_false_r in D.
  pose proof (updateSilhouette_canvasDirty s (reachable_flags_ok id nativeSize ops)) as C.
  pose proof (updateSilhouette_surfaces s) as S.
  fold s' in D, C, S. clearbody s'.
  split; [exact D|]. split; [exact C|]. split.
  - now apply updateSilhouette_clean.
  - rewrite (getTexture_clean w h s' C). f_equal. unfold surfaces in S. congruence.
Qed.

(** The reference stage after one line: its constructor returned. *)
Lemma updateSilhouette_synchronizes_witness :
  constructor_returns (480, 360)%float = true /\
  let s := run [op_drawLine red_pen 0 0 10 10] (constructor 1 (480, 360)%float) in
  let s' := updateSilhouette s in
  _silhouetteDirty s' = false /\ _canvasDirty s' = false /\
  updateSilhouette s' = s' /\
  getTexture 480 360 s' = (_exportTexture s, s').
Proof.
  split; [reflexivity|].
  apply (updateSilhouette_synchronizes 1 (480, 360)%float
           [op_drawLine red_pen 0 0 10 10] 480%float 360%float).
  reflexivity.
Defined.

(** ** Segments are pending only inside the line region *)

Lemma tidy_place s s' : place s' = place s -> tidy s -> tidy s'.
Proof.
  unfold place. intros P (B & S).
  assert (_regionId s' = _regionId s) as R by congruence.
  assert (cursors s' = cursors s) as C by congruence.
  assert (arrays s' = arrays s) as A by congruence.
  split.
  - apply (batch_ok_kept s); [now apply batch_kept_same | exact B].
  - unfold settled. rewrite R, C. exact S.
Qed.

Lemma tidy_empty s : batch_ok s -> cursors s = (0, 0, 0) -> tidy s.
Proof. intros B C. split; [exact B | intros _; exact C]. Qed.

Lemma quiet_empty s s' : quiet s s' -> cursors s = (0, 0, 0) -> cursors s' = (0, 0, 0).
Proof. intros (_ & _ & [C|C] & _) Z; congruence. Qed.

Lemma quiet_batch_ok s s' : quiet s s' -> batch_ok s -> batch_ok s'.
Proof. intros Q. apply batch_ok_kept, quiet_batch_kept, Q. Qed.

Lemma exit_line_cursors s : batch_ok s -> cursors (_exitDrawLineOnBuffer s) = (0, 0, 0).
Proof.
  intros (_ & _ & _ & P & T & _). unfold _exitDrawLineOnBuffer.
  destruct (a_lineColorIndex s =? 0) eqn:E; cbv beta iota delta [negb].
  - apply N.eqb_eq in E.
    transitivity (cursors s); [destruct s; reflexivity|].
    unfold cursors. f_equal; [f_equal|]; lia.
  - transitivity (cursors (_flushLines s)); [|apply flush_cursors].
    generalize (_flushLines s). intros r. destruct r. reflexivity.
Qed.

Lemma region_enter_cursors r s :
  r <> _lineOnBufferDrawRegionId -> cursors (region_enter r s) = cursors s.
Proof. intros H. destruct r; [congruence | |]; destruct s; reflexivity. Qed.

Lemma region_exit_cursors r s :
  r <> _lineOnBufferDrawRegionId -> cursors (region_exit r s) = cursors s.
Proof. intros H. destruct r; [congruence | |]; destruct s; reflexivity. Qed.

Lemma region_exit_region r s : _regionId (region_exit r s) = _regionId s.
Proof.
  destruct r; cbv beta iota delta [region_exit]; [|destruct s; reflexivity..].
  unfold _exitDrawLineOnBuffer.
  destruct (negb _); [rewrite <- (flush_region s); generalize (_flushLines s); intros r|];
    destruct s; try destruct r; reflexivity.
Qed.

(** Entering a region other than the line region leaves the batch empty:
    the exit from the line region has flushed it. *)
Lemma enter_other_cursors r s :
  tidy s -> r <> _lineOnBufferDrawRegionId -> cursors (enterDrawRegion r s) = (0, 0, 0).
Proof.
  intros (B & S) H. unfold enterDrawRegion. case_bool_decide as R.
  - apply S. rewrite R. congruence.
  - match goal with
    | |- cursors (set_regionId _ ?x) = _ =>
        transitivity (cursors x); [generalize x; intros x0; destruct x0; reflexivity|]
    end.
    rewrite (region_enter_cursors r _ H).
    destruct (_regionId s) as [[| |n]|] eqn:C.
    + now apply exit_line_cursors.
    + rewrite region_exit_cursors by discriminate. apply S. congruence.
    + rewrite region_exit_cursors by discriminate. apply S. congruence.
    + apply S. congruence.
Qed.

Lemma tidy_enter_other r s :
  tidy s -> r <> _lineOnBufferDrawRegionId -> tidy (enterDrawRegion r s).
Proof.
  intros T H. apply tidy_empty; [|now apply enter_other_cursors].
  apply (quiet_batch_ok s); [apply quiet_enterDrawRegion | apply T].
Qed.

(** Entering the line region, which resets the cursors, finds them at zero
    already. *)
Lemma enter_line_place s :
  settled s ->
  cursors (enterDrawRegion _lineOnBufferDrawRegionId s) = cursors s /\
  arrays (enterDrawRegion _lineOnBufferDrawRegionId s) = arrays s.
Proof.
  intros S.
  destruct (quiet_enterDrawRegion _lineOnBufferDrawRegionId s) as (_ & A & C & _).
  split; [|exact A].
  destruct C as [C|C]; [exact C|].
  destruct (decide (_regionId s = Some _lineOnBufferDrawRegionId)) as [R|R].
  - unfold enterDrawRegion. now rewrite (bool_decide_eq_true_2 _ R).
  - now rewrite (S R).
Qed.

Lemma tidy_upload s : tidy s -> tidy (upload_canvas s).
Proof. apply tidy_place. destruct s. reflexivity. Qed.

Lemma merge_cursors s : tidy s -> cursors (merge_raster s) = (0, 0, 0).
Proof.
  intros T.
  pose proof (enter_other_cursors _toBufferDrawRegionId _ (tidy_upload s T)) as Z.
  unfold merge_raster.
  match goal with
  | |- cursors (set_silhouetteDirty true ?x) = _ =>
      transitivity (cursors x); [generalize x; intros x0; destruct x0; reflexivity|]
  end.
  eapply quiet_empty; [apply quiet_drawRectangle|].
  apply Z. discriminate.
Qed.

Lemma tidy_merge s : tidy s -> tidy (merge_raster s).
Proof.
  intros T. apply tidy_empty; [|now apply merge_cursors].
  apply (batch_ok_kept s); [apply batch_kept_merge | apply T].
Qed.

Lemma tidy_drawToBuffer_body self t x y s :
  (forall s, tidy s -> tidy (self s)) -> tidy s -> tidy (_drawToBuffer_body self t x y s).
Proof.
  intros Hself T. unfold _drawToBuffer_body.
  match goal with
  | |- tidy (set_silhouetteDirty true ?x) =>
      apply (tidy_place x); [generalize x; intros x0; destruct x0; reflexivity|]
  end.
  match goal with
  | |- tidy (_drawRectangle ?p ?t ?b ?x ?y ?r) =>
      assert (tidy r) as Tr; [|apply tidy_empty;
        [apply (quiet_batch_ok r); [apply quiet_drawRectangle | apply Tr]
        |apply (quiet_empty r); [apply quiet_drawRectangle|]]]
  end.
  - apply tidy_enter_other; [|discriminate].
    match goal with
    | |- tidy (if _ then _ else ?r) =>
        assert (tidy r) as Tr; [|revert Tr; generalize r; intros r0 Tr]
    end.
    + destruct (_ && _); [now apply Hself | exact T].
    + destruct (bool_decide _); [|exact Tr].
      revert Tr. apply tidy_place. destruct r0. reflexivity.
  - apply Tr. rewrite enterDrawRegion_region. discriminate.
Qed.

Lemma tidy_drawToBuffer t x y s : tidy s -> tidy (_drawToBuffer t x y s).
Proof.
  apply tidy_drawToBuffer_body. intros s'.
  apply tidy_drawToBuffer_body. auto.
Qed.

Lemma allocate_place w h s : place (_setCanvasSize_allocate w h s) = place s.
Proof.
  destruct s as [? ? ? ? ? [f|] [b|] ? ? ? ? ? ? ? ? ? ? ? ? ? ? ? ? ? ? ? ?];
    vm_compute; reflexivity.
Qed.

Lemma tidy_setCanvasSize w h s : tidy s -> tidy (_setCanvasSize w h s).
Proof.
  intros T. unfold _setCanvasSize.
  match goal with
  | |- tidy (_setCanvasSize_finish _ _ ?x) =>
      apply (tidy_place x);
        [generalize x; intros x0; unfold _setCanvasSize_finish;
         destruct (new_Uint8Array _); destruct x0; reflexivity|]
  end.
  pose proof (tidy_place _ _ (allocate_place w h s) T) as Ta.
  destruct (_exportTexture s); [now apply tidy_drawToBuffer | exact Ta].
Qed.

Lemma tidy_drawLine a x0 y0 x1 y1 s : tidy s -> tidy (drawLine a x0 y0 x1 y1 s).
Proof.
  intros (B & _). split.
  - unfold drawLine.
    match goal with
    | |- batch_ok (set_silhouetteDirty true ?r) =>
        apply (batch_ok_kept r); [generalize r; intro; same_batch|]
    end.
    now apply batch_ok_drawLineOnBuffer.
  - intros N. exfalso. apply N, drawLine_region.
Qed.

Lemma tidy_exitDrawRegion r s : tidy s -> tidy (exitDrawRegion r s).
Proof.
  intros T. pose proof T as (B & S).
  assert (batch_ok (region_exit r s)) as Be
    by (apply (quiet_batch_ok s); [apply quiet_region_exit | exact B]).
  pose proof (region_exit_region r s) as Re.
  assert (tidy (region_exit r s)) as Te.
  { destruct (decide (r = _lineOnBufferDrawRegionId)) as [->|H].
    - apply tidy_empty; [exact Be | now apply exit_line_cursors].
    - split; [exact Be|]. unfold settled. rewrite Re, (region_exit_cursors r s H). exact S. }
  assert (_regionId (region_exit r s) = Some r -> cursors (region_exit r s) = (0, 0, 0)) as Z.
  { intros R. destruct (decide (r = _lineOnBufferDrawRegionId)) as [->|H].
    - now apply exit_line_cursors.
    - apply Te. rewrite R. congruence. }
  unfold exitDrawRegion. clear Re. revert Be Te Z.
  generalize (region_exit r s). intros e Be Te Z.
  case_bool_decide as R; [|exact Te].
  apply tidy_empty.
  - apply (batch_ok_kept e); [same_batch | exact Be].
  - transitivity (cursors e); [destruct e; reflexivity | exact (Z R)].
Qed.

Lemma tidy_step s o : tidy s -> tidy (step s o).
Proof.
  intros T. destruct o; cbv beta iota delta [step].
  - (* clear *) revert T. apply tidy_place. destruct s. reflexivity.
  - (* drawPoint *) unfold drawPoint. now apply tidy_drawLine.
  - (* drawLine *) now apply tidy_drawLine.
  - (* drawStamp *) revert T. apply tidy_place. destruct s. reflexivity.
  - (* getTexture *)
    rewrite getTexture_state. destruct (_canvasDirty s); [now apply tidy_merge | exact T].
  - (* updateSilhouette *)
    destruct (_silhouetteDirty s) eqn:E.
    + rewrite (updateSilhouette_dirty _ E).
      apply (tidy_place (synchronized s));
        [destruct (has_buffers s); generalize (synchronized s); intros r; destruct r;
         reflexivity|].
      unfold synchronized. apply tidy_enter_other; [|discriminate].
      destruct (_canvasDirty s); [now apply tidy_merge | exact T].
    + now rewrite (updateSilhouette_clean _ E).
  - (* setRenderQuality *)
    unfold setRenderQuality. destruct (strict_eq _ _); [exact T|].
    apply tidy_setCanvasSize. revert T. apply tidy_place. destruct s. reflexivity.
  - (* onNativeSizeChanged *)
    unfold onNativeSizeChanged.
    apply tidy_setCanvasSize. revert T. apply tidy_place. destruct s. reflexivity.
  - (* enterDrawRegion *) apply tidy_enter_other; [exact T | discriminate].
  - (* exitDrawRegion *) now apply tidy_exitDrawRegion.
Qed.

Lemma tidy_constructor id nativeSize : tidy (constructor id nativeSize).
Proof.
  unfold constructor. apply tidy_setCanvasSize.
  apply tidy_empty; [|vm_compute; reflexivity].
  unfold batch_ok, _createLineGeometry. run_state.
  rewrite !f32_length_new. repeat split; try lia. exists 0. lia.
Qed.

Lemma reachable_tidy id nativeSize ops : tidy (run ops (constructor id nativeSize)).
Proof. apply run_invariant; [apply tidy_constructor | apply tidy_step]. Qed.

(** X3.  In every reachable state a segment is pending only while the line
    region is entered: either the region is the line region or all three
    cursors are zero.  So entering the line region, which sets the cursors
    to zero (lines 302-304), never discards a segment: it leaves cursors and
    arrays as they were. *)
Theorem pending_only_in_line_region id nativeSize ops :
  let s := run ops (constructor id nativeSize) in
  (_regionId s = Some _lineOnBufferDrawRegionId \/ cursors s = (0, 0, 0)) /\
  cursors (enterDrawRegion _lineOnBufferDrawRegionId s) = cursors s /\
  arrays (enterDrawRegion _lineOnBufferDrawRegionId s) = arrays s.
Proof.
  intros s. destruct (reachable_tidy id nativeSize ops) as (_ & S). fold s in S.
  split; [|now apply enter_line_place].
  destruct (decide (_regionId s = Some _lineOnBufferDrawRegionId)) as [R|R]; auto.
Qed.

(** ** What a segment leaves in the three arrays *)

Lemma insert2 {A} (l : list A) (c : nat) v0 v1 :
  (c + 2 <= length l)%nat ->
  <[(c + 1)%nat := v1]> (<[c := v0]> l) = take c l ++ [v0; v1] ++ drop (c + 2) l.
Proof.
  revert l. induction c as [|c IH]; intros l H.
  - destruct l as [|x0 [|x1 l]]; simpl in H; try lia. reflexivity.
  - destruct l as [|x l]; simpl in H; [lia|].
    simpl. f_equal. apply IH. lia.
Qed.

(** A loop whose body stores the [k] values [vs] at the cursor and advances
    the cursor by [k] stores [n] copies of [vs] in [n] rounds. *)
Lemma loop_slots (arr : State -> list float) (idx : State -> N) (vs : list float)
    (body : State -> State) :
  (forall s, idx (body s) = idx s + N.of_nat (length vs)) ->
  (forall s, idx s + N.of_nat (length vs) <= f32_length (arr s) ->
             arr (body s) = f32_splice (arr s) (idx s) vs) ->
  forall n s,
    idx s + N.of_nat (length vs * n) <= f32_length (arr s) ->
    idx (for_loop n body s) = idx s + N.of_nat (length vs * n) /\
    arr (for_loop n body s) = f32_splice (arr s) (idx s) (concat (replicate n vs)).
Proof.
  intros Hi Ha. induction n as [|n IH]; intros s H.
  - rewrite for_loop_0. split; [lia|].
    unfold f32_splice. simpl concat. simpl length. rewrite Nat.add_0_r. simpl app.
    now rewrite take_drop.
  - rewrite for_loop_S.
    assert (idx s + N.of_nat (length vs) <= f32_length (arr s)) as H1 by lia.
    pose proof (Ha s H1) as Hc. pose proof (Hi s) as Hn.
    assert (f32_length (arr (body s)) = f32_length (arr s)) as Hl.
    { rewrite Hc. unfold f32_length, f32_splice in *.
      rewrite !length_app, length_take, length_drop. lia. }
    destruct (IH (body s)) as (I1 & I2); [rewrite Hn, Hl; lia|].
    split; [rewrite I1, Hn; lia|].
    rewrite I2, Hn, Hc. clear I1 I2 IH Hc Hn Hl Hi Ha.
    unfold f32_splice, f32_length in *.
    set (c := N.to_nat (idx s)) in *.
    set (k := length vs) in *.
    assert (c + k <= length (arr s))%nat as Hlen by lia.
    replace (N.to_nat (idx s + N.of_nat k)) with (c + k)%nat by lia.
    assert (length (concat (replicate n vs)) = k * n)%nat as Hcn.
    { clear. induction n as [|n IH]; simpl; [lia|]. rewrite length_app, IH. lia. }
    assert (length (concat (replicate (S n) vs)) = k * S n)%nat as Hcs.
    { simpl. rewrite length_app, Hcn. lia. }
    rewrite Hcn, Hcs.
    generalize dependent (arr s). intros a _ _ Hlen.
    assert (length (take c a ++ vs) = c + k)%nat as Hp
      by (rewrite length_app, length_take; lia).
    rewrite (app_assoc (take c a) vs).
    rewrite take_app_length' by (symmetry; exact Hp).
    replace (c + k + k * n)%nat with (length (take c a ++ vs) + k * n)%nat by lia.
    rewrite drop_app_add, drop_drop.
    change (concat (replicate (S n) vs)) with (vs ++ concat (replicate n vs)).
    rewrite <- !app_assoc. do 3 f_equal. f_equal. lia.
Qed.

Section Records.
Variables p0 p1 p2 p3 t l x y dx dy : float.

Local Abbreviation vertex := (write_vertex p0 p1 p2 p3 t l x y dx dy).
Local Abbreviation colour_record :=
  [Math_fround p0; Math_fround p1; Math_fround p2; Math_fround p3].
Local Abbreviation points_record :=
  [Math_fround x; Math_fround (- y); Math_fround dx; Math_fround (- dy)].
Local Abbreviation thickness_record := [Math_fround t; Math_fround l].

Lemma vertex_pointsIndex s : a_penPointsIndex (vertex s) = a_penPointsIndex s + 4.
Proof. run_state. lia. Qed.

Lemma vertex_thicknessIndex s :
  a_lineThicknessAndLengthIndex (vertex s) = a_lineThicknessAndLengthIndex s + 2.
Proof. run_state. lia. Qed.

Lemma vertex_colour_splice s :
  a_lineColorIndex s + 4 <= f32_length (a_lineColor s) ->
  a_lineColor (vertex s) = f32_splice (a_lineColor s) (a_lineColorIndex s) colour_record.
Proof. apply vertex_color_slots. Qed.

Lemma vertex_points_splice s :
  a_penPointsIndex s + 4 <= f32_length (a_penPoints s) ->
  a_penPoints (vertex s) = f32_splice (a_penPoints s) (a_penPointsIndex s) points_record.
Proof.
  intros H.
  assert (a_penPoints (vertex s) =
          f32_set (f32_set (f32_set (f32_set (a_penPoints s) (a_penPointsIndex s) x)
                              (a_penPointsIndex s + 1) (- y))
                     (a_penPointsIndex s + 2) dx)
            (a_penPointsIndex s + 3) (- dy)) as ->
    by (destruct s; run_state; rewrite <- !N.add_assoc; reflexivity).
  unfold f32_set, f32_length, f32_splice in *.
  rewrite !N2Nat.inj_add.
  change (N.to_nat 1) with 1%nat. change (N.to_nat 2) with 2%nat.
  change (N.to_nat 3) with 3%nat.
  apply insert4. lia.
Qed.

Lemma vertex_thickness_splice s :
  a_lineThicknessAndLengthIndex s + 2 <= f32_length (a_lineThicknessAndLength s) ->
  a_lineThicknessAndLength (vertex s) =
  f32_splice (a_lineThicknessAndLength s) (a_lineThicknessAndLengthIndex s) thickness_record.
Proof.
  intros H.
  assert (a_lineThicknessAndLength (vertex s) =
          f32_set (f32_set (a_lineThicknessAndLength s) (a_lineThicknessAndLengthIndex s) t)
            (a_lineThicknessAndLengthIndex s + 1) l) as ->
    by (destruct s; run_state; reflexivity).
  unfold f32_set, f32_length, f32_splice in *.
  rewrite !N2Nat.inj_add.
  change (N.to_nat 1) with 1%nat.
  apply insert2. lia.
Qed.

(** The six rounds of the loop of lines 371-394 on a batch with room for
    one more segment. *)
Lemma write_segment s :
  batch_ok s -> a_lineColorIndex s + 24 <= 65520 ->
  a_lineColor (for_loop 6 vertex s) =
    f32_splice (a_lineColor s) (a_lineColorIndex s) (concat (replicate 6 colour_record)) /\
  a_penPoints (for_loop 6 vertex s) =
    f32_splice (a_penPoints s) (a_penPointsIndex s) (concat (replicate 6 points_record)) /\
  a_lineThicknessAndLength (for_loop 6 vertex s) =
    f32_splice (a_lineThicknessAndLength s) (a_lineThicknessAndLengthIndex s)
      (concat (replicate 6 thickness_record)).
Proof.
  intros (L1 & L2 & L3 & P & T & _) Hfit.
  split; [|split].
  - apply (loop_slots a_lineColor a_lineColorIndex colour_record vertex
             (vertex_colorIndex p0 p1 p2 p3 t l x y dx dy) vertex_colour_splice 6 s).
    rewrite L1. simpl. lia.
  - apply (loop_slots a_penPoints a_penPointsIndex points_record vertex
             vertex_pointsIndex vertex_points_splice 6 s).
    rewrite L3. simpl. lia.
  - apply (loop_slots a_lineThicknessAndLength a_lineThicknessAndLengthIndex
             thickness_record vertex vertex_thicknessIndex vertex_thickness_splice 6 s).
    rewrite L2. simpl. lia.
Qed.
End Records.

Lemma before_write_place s :
  tidy s ->
  arrays (before_write s) = arrays s /\
  cursors (before_write s) =
    if f32_length (a_lineColor s) <? a_lineColorIndex s + 24 then (0, 0, 0) else cursors s.
Proof.
  intros (B & S). destruct (enter_line_place s S) as (C & A).
  unfold before_write. revert C A.
  generalize (enterDrawRegion _lineOnBufferDrawRegionId s). intros e C A.
  assert (a_lineColor e = a_lineColor s) as -> by (unfold arrays in A; congruence).
  assert (a_lineColorIndex e = a_lineColorIndex s) as -> by (unfold cursors in C; congruence).
  destruct (_ <? _).
  - rewrite flush_arrays, flush_cursors. auto.
  - auto.
Qed.

Lemma silhouetteDirty_batch b r :
  a_lineColor (set_silhouetteDirty b r) = a_lineColor r /\
  a_penPoints (set_silhouetteDirty b r) = a_penPoints r /\
  a_lineThicknessAndLength (set_silhouetteDirty b r) = a_lineThicknessAndLength r.
Proof. destruct r. repeat split. Qed.

(** One segment written on a batch that is in order. *)
Lemma drawLine_batch a x0 y0 x1 y1 s :
  tidy s ->
  let s' := drawLine a x0 y0 x1 y1 s in
  let o := pen_offset a in
  let dx := (x1 + o - (x0 + o))%float in
  let dy := (y1 + o - (y0 + o))%float in
  let pen := color4f_or_default a in
  let c := write_cursor s in
  a_lineColor s' =
    f32_splice (a_lineColor s) c
      (concat (replicate 6
         [Math_fround (c_0 pen * c_3 pen); Math_fround (c_1 pen * c_3 pen);
          Math_fround (c_2 pen * c_3 pen); Math_fround (c_3 pen)])) /\
  a_penPoints s' =
    f32_splice (a_penPoints s) c
      (concat (replicate 6
         [Math_fround (x0 + o); Math_fround (- (y0 + o));
          Math_fround dx; Math_fround (- dy)])) /\
  a_lineThicknessAndLength s' =
    f32_splice (a_lineThicknessAndLength s) (c / 2)
      (concat (replicate 6
         [Math_fround (diameter_or_default a);
          Math_fround (sqrt (dx * dx + dy * dy))])) /\
  cursors s' = (c + 24, c / 2 + 12, c + 24).
Proof.
  intros T s' o dx dy pen c. subst s'.
  destruct (before_write_place s T) as (A & C).
  pose proof T as (B & _).
  assert (batch_ok (before_write s)) as Bw
    by (apply (batch_ok_kept s); [apply before_write_kept | exact B]).
  pose proof (before_write_fits s B) as Fit.
  assert (a_lineColorIndex (before_write s) = c /\
          a_penPointsIndex (before_write s) = c /\
          a_lineThicknessAndLengthIndex (before_write s) = c / 2) as (I1 & I2 & I3).
  { subst c. unfold write_cursor. destruct B as (_ & _ & _ & P & Th & _).
    unfold cursors in C. destruct (_ <? _); injection C as -> -> ->.
    - repeat split.
    - repeat split; [lia|]. rewrite Th. symmetry.
      rewrite N.mul_comm. apply N.div_mul. lia. }
  unfold arrays in A. injection A as A1 A2 A3.
  rewrite drawLine_cursors, I1, I2, I3.
  rewrite drawLine_unfold, drawLineOnBuffer_eq.
  match goal with
  | |- context [for_loop 6 (write_vertex ?q0 ?q1 ?q2 ?q3 ?t ?l ?x ?y ?ex ?ey) (before_write s)] =>
      destruct (write_segment q0 q1 q2 q3 t l x y ex ey (before_write s) Bw Fit)
        as (W1 & W2 & W3);
      destruct (silhouetteDirty_batch true
                  (for_loop 6 (write_vertex q0 q1 q2 q3 t l x y ex ey) (before_write s)))
        as (-> & -> & ->)
  end.
  rewrite W1, W2, W3, A1, A2, A3, I1, I2, I3.
  repeat split.
Qed.

(** X4.  On every reachable state [drawLine] writes one segment and nothing
    else into the batch: six copies of the premultiplied colour, six copies
    of the start point and the delta with both [y] negated, and six copies
    of the thickness and the length, every value rounded to single
    precision, from the write cursor on.  The write cursor is where the
    batch stood, or zero when the batch was full and has been flushed; every
    other slot of the three arrays is as it was, so earlier pending segments
    are kept. *)
Theorem drawLine_writes_one_segment id nativeSize ops a x0 y0 x1 y1 :
  let s := run ops (constructor id nativeSize) in
  let s' := drawLine a x0 y0 x1 y1 s in
  let o := pen_offset a in
  let dx := (x1 + o - (x0 + o))%float in
  let dy := (y1 + o - (y0 + o))%float in
  let pen := color4f_or_default a in
  let c := write_cursor s in
  a_lineColor s' =
    f32_splice (a_lineColor s) c
      (concat (replicate 6
         [Math_fround (c_0 pen * c_3 pen); Math_fround (c_1 pen * c_3 pen);
          Math_fround (c_2 pen * c_3 pen); Math_fround (c_3 pen)])) /\
  a_penPoints s' =
    f32_splice (a_penPoints s) c
      (concat (replicate 6
         [Math_fround (x0 + o); Math_fround (- (y0 + o));
          Math_fround dx; Math_fround (- dy)])) /\
  a_lineThicknessAndLength s' =
    f32_splice (a_lineThicknessAndLength s) (c / 2)
      (concat (replicate 6
         [Math_fround (diameter_or_default a);
          Math_fround (sqrt (dx * dx + dy * dy))])) /\
  cursors s' = (c + 24, c / 2 + 12, c + 24).
Proof. intros s. apply drawLine_batch, reachable_tidy. Qed.

(** ** A point is a segment of length zero *)

Lemma finite_cases z :
  is_finite z = true ->
  (exists s, Prim2SF z = S754_zero s) \/ exists s m e, Prim2SF z = S754_finite s m e.
Proof.
  unfold is_finite, is_nan, is_infinity.
  rewrite !FloatAxioms.eqb_spec, abs_spec.
  destruct (Prim2SF z) as [s|s| |s m e]; intros H.
  - left. now exists s.
  - destruct s; vm_compute in H; discriminate.
  - vm_compute in H. discriminate.
  - right. now exists s, m, e.
Qed.

(** A finite number minus itself is zero. *)
Lemma sub_self z : is_finite z = true -> (z - z)%float = 0%float.
Proof.
  intros H. apply Prim2SF_inj. rewrite sub_spec.
  destruct (finite_cases z H) as [(s & ->)|(s & m & e & ->)].
  - destruct s; reflexivity.
  - unfold SF64sub, SFsub. cbv zeta. rewrite Z.sub_diag. reflexivity.
Qed.

Lemma drawPoint_batch a x y s :
  tidy s ->
  is_finite (x + pen_offset a) = true ->
  is_finite (y + pen_offset a) = true ->
  a_penPoints (drawPoint a x y s) =
    f32_splice (a_penPoints s) (write_cursor s)
      (concat (replicate 6
         [Math_fround (x + pen_offset a); Math_fround (- (y + pen_offset a)); 0; -0]%float)) /\
  a_lineThicknessAndLength (drawPoint a x y s) =
    f32_splice (a_lineThicknessAndLength s) (write_cursor s / 2)
      (concat (replicate 6 [Math_fround (diameter_or_default a); 0%float])).
Proof.
  intros T Fx Fy. unfold drawPoint.
  destruct (drawLine_batch a x y x y s T) as (_ & P & L & _).
  rewrite P, L, (sub_self _ Fx), (sub_self _ Fy).
  split; reflexivity.
Qed.

(** X5.  On every reachable state, [drawPoint] at coordinates that are
    finite after the pixel offset stores a segment whose delta is zero (the
    [y] delta as minus zero) and whose length is zero. *)
Theorem drawPoint_has_no_length id nativeSize ops a x y :
  let s := run ops (constructor id nativeSize) in
  let o := pen_offset a in
  is_finite (x + o) = true ->
  is_finite (y + o) = true ->
  a_penPoints (drawPoint a x y s) =
    f32_splice (a_penPoints s) (write_cursor s)
      (concat (replicate 6 [Math_fround (x + o); Math_fround (- (y + o)); 0; -0]%float)) /\
  a_lineThicknessAndLength (drawPoint a x y s) =
    f32_splice (a_lineThicknessAndLength s) (write_cursor s / 2)
      (concat (replicate 6 [Math_fround (diameter_or_default a); 0%float])).
Proof. intros s o. apply drawPoint_batch, reachable_tidy. Qed.

(** The point (10, 20) drawn with the red pen on the reference stage: the
    offset is one half, and both coordinates stay finite. *)
Lemma drawPoint_has_no_length_witness :
  is_finite (10 + pen_offset red_pen) = true /\
  is_finite (20 + pen_offset red_pen) = true /\
  a_penPoints (drawPoint red_pen 10 20 stage) =
    f32_splice (a_penPoints stage) (write_cursor stage)
      (concat (replicate 6
         [Math_fround (10 + pen_offset red_pen); Math_fround (- (20 + pen_offset red_pen));
          0; -0]%float)) /\
  a_lineThicknessAndLength (drawPoint red_pen 10 20 stage) =
    f32_splice (a_lineThicknessAndLength stage) (write_cursor stage / 2)
      (concat (replicate 6 [Math_fround (diameter_or_default red_pen); 0%float])).
Proof.
  split; [vm_compute; reflexivity|]. split; [vm_compute; reflexivity|].
  apply (drawPoint_has_no_length 1 (480, 360)%float [] red_pen 10 20);
    vm_compute; reflexivity.
Defined.

(** ** What a flush uploads and draws *)

(** [12 n / 2] is [6 n] as numbers, for every batch size. *)
Lemma half_of_thickness_cursor n : n <= 2730 -> (N2number (12 * n) / 2)%float = N2number (6 * n).
Proof.
  intros H.
  assert (forallb (fun k => Leibniz.eqb (N2number (12 * N.of_nat k) / 2)
                              (N2number (6 * N.of_nat k)))
            (seq 0 2731) = true) as F by (vm_compute; reflexivity).
  rewrite forallb_forall in F.
  specialize (F (N.to_nat n)). rewrite N2Nat.id in F.
  apply Leibniz.eqb_spec, F, in_seq. lia.
Qed.

Lemma f32_length_view a n : n <= f32_length a -> f32_length (f32_view a n) = n.
Proof. unfold f32_length, f32_view. intros H. rewrite length_take. lia. Qed.

Lemma flush_of_segments s n :
  batch_ok s -> a_lineThicknessAndLengthIndex s = 12 * n ->
  n <= 2730 /\ cursors s = (24 * n, 12 * n, 24 * n) /\
  exists colour points thickness,
    calls (_flushLines s) =
      calls s ++
      [twgl_setAttribInfoBufferFromArray attr_a_lineColor colour;
       twgl_setAttribInfoBufferFromArray attr_a_penPoints points;
       twgl_setAttribInfoBufferFromArray attr_a_lineThicknessAndLength thickness;
       twgl_setBuffersAndAttributes (_lineShader s) (_lineBufferInfo s);
       twgl_drawBufferInfo (_lineBufferInfo s) (Some (N2number (6 * n)))] /\
    (f32_length colour, f32_length points, f32_length thickness) =
      (if n <=? 41 then (24 * n, 24 * n, 12 * n) else (65520, 65520, 32760)).
Proof.
  intros (L1 & L2 & L3 & P & T & _ & B) K.
  assert (n <= 2730) as Hn by lia.
  split; [exact Hn|]. split; [unfold cursors; f_equal; [f_equal|]; lia|].
  rewrite flush_calls_spec. unfold flush_calls.
  rewrite K, (half_of_thickness_cursor n Hn), P, T, K.
  replace (2 * (12 * n)) with (24 * n) by lia.
  destruct (24 * n <? 1000) eqn:E.
  - apply N.ltb_lt in E. do 3 eexists. split; [reflexivity|].
    rewrite !f32_length_view by lia.
    replace (n <=? 41) with true by (symmetry; apply N.leb_le; lia). reflexivity.
  - apply N.ltb_ge in E. do 3 eexists. split; [reflexivity|].
    rewrite L1, L2, L3.
    replace (n <=? 41) with false by (symmetry; apply N.leb_gt; lia). reflexivity.
Qed.

(** X6.  In every reachable state the batch holds some number [n] of whole
    segments, at most 2730.  A flush then uploads the three arrays, binds
    the line buffers and draws [6 n] vertices.  With at most 41 segments
    (fewer than 1000 colour floats) it uploads only the filled part of each
    array; with more it uploads the whole arrays, slots past the cursors
    included. *)
Theorem flush_draws_six_vertices_per_segment id nativeSize ops :
  let s := run ops (constructor id nativeSize) in
  exists n,
    n <= 2730 /\ cursors s = (24 * n, 12 * n, 24 * n) /\
    exists colour points thickness,
      calls (_flushLines s) =
        calls s ++
        [twgl_setAttribInfoBufferFromArray attr_a_lineColor colour;
         twgl_setAttribInfoBufferFromArray attr_a_penPoints points;
         twgl_setAttribInfoBufferFromArray attr_a_lineThicknessAndLength thickness;
         twgl_setBuffersAndAttributes (_lineShader s) (_lineBufferInfo s);
         twgl_drawBufferInfo (_lineBufferInfo s) (Some (N2number (6 * n)))] /\
      (f32_length colour, f32_length points, f32_length thickness) =
        (if n <=? 41 then (24 * n, 24 * n, 12 * n) else (65520, 65520, 32760)).
Proof.
  intros s. pose proof (reachable_batch_ok id nativeSize ops) as B. fold s in B.
  clearbody s. pose proof B as (_ & _ & _ & _ & _ & (n & K) & _).
  exists n. now apply flush_of_segments.
Qed.

(** ** [clear] and the pending segments *)

Lemma exit_line_flushes s :
  a_lineColorIndex s <> 0 ->
  calls (_exitDrawLineOnBuffer s) =
  calls s ++ flush_calls s ++ [twgl_bindFramebufferInfo None].
Proof.
  intros H. unfold _exitDrawLineOnBuffer. apply N.eqb_neq in H. rewrite H.
  cbv beta iota delta [negb].
  transitivity (calls (_flushLines s) ++ [twgl_bindFramebufferInfo None]).
  - generalize (_flushLines s). intros r. destruct r. reflexivity.
  - now rewrite flush_calls_spec, <- app_assoc.
Qed.

Lemma clear_pending s :
  place (clear s) = place s /\
  flush_calls (clear s) = flush_calls s /\
  _canvasDirty (clear s) = _canvasDirty s /\
  _silhouetteDirty (clear s) = true /\
  calls (clear s) =
    calls s ++
    [twgl_bindFramebufferInfo (_framebuffer s); gl_clearColor 0 0 0 0;
     gl_clear_COLOR_BUFFER_BIT;
     ctx_clearRect 0 0 (canvas_width (_canvas s)) (canvas_height (_canvas s))].
Proof.
  destruct s. repeat split. unfold clear. run_state. now rewrite <- !app_assoc.
Qed.

(** X7.  [clear] clears the framebuffer and the canvas but not the batch:
    it leaves the region, the cursors and the arrays as they are.  So a
    segment that [drawLine] left pending is still pending after [clear], and
    leaving the line region then draws it, after the clear. *)
Theorem clear_keeps_pending_segments a x0 y0 x1 y1 s :
  let s1 := drawLine a x0 y0 x1 y1 s in
  let s2 := clear s1 in
  _regionId s2 = Some _lineOnBufferDrawRegionId /\
  cursors s2 = cursors s1 /\ arrays s2 = arrays s1 /\
  24 <= a_lineColorIndex s2 /\
  calls s2 =
    calls s1 ++
    [twgl_bindFramebufferInfo (_framebuffer s1); gl_clearColor 0 0 0 0;
     gl_clear_COLOR_BUFFER_BIT;
     ctx_clearRect 0 0 (canvas_width (_canvas s1)) (canvas_height (_canvas s1))] /\
  calls (_exitDrawLineOnBuffer s2) =
    calls s2 ++ flush_calls s1 ++ [twgl_bindFramebufferInfo None].
Proof.
  intros s1 s2.
  pose proof (drawLine_region a x0 y0 x1 y1 s) as R.
  pose proof (drawLine_colorIndex a x0 y0 x1 y1 s) as I.
  fold s1 in R, I. subst s2. clearbody s1.
  destruct (clear_pending s1) as (P & F & _ & _ & C).
  unfold place in P.
  assert (_regionId (clear s1) = _regionId s1) as R' by congruence.
  assert (cursors (clear s1) = cursors s1) as C' by congruence.
  assert (arrays (clear s1) = arrays s1) as A' by congruence.
  assert (a_lineColorIndex (clear s1) = a_lineColorIndex s1) as I'
    by (unfold cursors in C'; congruence).
  split; [congruence|]. split; [exact C'|]. split; [exact A'|].
  split; [lia|]. split; [exact C|].
  rewrite exit_line_flushes by lia. now rewrite F.
Qed.

(** ** Size changes *)





(** What line 636 makes of some lengths: the pixel count of the reference
    stage, [NaN], a negative count, and counts past the largest index. *)
Example new_Uint8Array_lengths :
  new_Uint8Array (Math_floor (480 * 360 * 4)) = Some 691200%float /\
  new_Uint8Array (Math_floor (nan * 360 * 4)) = Some 0%float /\
  new_Uint8Array (Math_floor (0.5 * 0.25 * 4)) = Some 0%float /\
  new_Uint8Array (Math_floor (-1 * 1 * 4)) = None /\
  new_Uint8Array (Math_floor (infinity * 1 * 4)) = None /\
  new_Uint8Array (Math_floor (0x1p26 * 0x1p26 * 4)) = None /\
  new_Uint8Array 0x1.fffffffffffffp52 = Some 0x1.fffffffffffffp52%float.
Proof. vm_compute. repeat split. Qed.


(** X9.  A change of the native size gives the canvas and both framebuffers
    the new native size itself: the render quality is kept but not applied
    to the backing size.  The size reported is the new native size, and the
    silhouette is dirty whenever the pen layer held an export texture, which
    the size change redraws, or the size change returns. *)
Theorem onNativeSizeChanged_ignores_quality newSize s :
  let s' := onNativeSizeChanged newSize s in
  backed_at (fst newSize) (snd newSize) s' /\
  size s' = newSize /\
  renderQuality s' = renderQuality s /\
  (is_Some (_exportTexture s) \/ _setCanvasSize_returns (fst newSize) (snd newSize) = true ->
   _silhouetteDirty s' = true).
Proof.
  intros s'. subst s'. unfold onNativeSizeChanged, size.
  destruct (setCanvasSize_backed (fst newSize) (snd newSize) (set_nativeSize newSize s))
    as (B & N & Q).
  rewrite setCanvasSize_silhouetteDirty.
  split; [exact B|]. split; [rewrite N; destruct s; reflexivity|].
  split; [rewrite Q; destruct s; reflexivity|].
  replace (_exportTexture (set_nativeSize newSize s)) with (_exportTexture s)
    by (destruct s; reflexivity).
  intros [E| ->]; [|reflexivity].
  rewrite (bool_decide_eq_true_2 _ E). now rewrite !orb_true_r.
Qed.

(** ** The GL objects that are allocated *)

Ltac calm_by_fields :=
  unfold calm; eexists; split;
  [run_state; rewrite <- ?app_assoc; reflexivity | repeat constructor].

Lemma calm_refl s : calm s s.
Proof. exists []. split; [now rewrite app_nil_r | constructor]. Qed.

Lemma calm_trans s1 s2 s3 : calm s1 s2 -> calm s2 s3 -> calm s1 s3.
Proof.
  intros (m1 & M1 & F1) (m2 & M2 & F2). exists (m1 ++ m2).
  split; [now rewrite M2, M1, app_assoc | now apply Forall_app].
Qed.

Lemma calm_same s s' : calls s' = calls s -> calm s s'.
Proof. intros H. exists []. split; [now rewrite app_nil_r | constructor]. Qed.

Lemma calm_call c s : gl_neutral c -> calm s (call c s).
Proof. intros H. exists [c]. split; [destruct s; reflexivity | now constructor]. Qed.

Lemma calm_flush s : calm s (_flushLines s).
Proof.
  exists (flush_calls s). split; [apply flush_calls_spec|].
  unfold flush_calls. destruct (_ <? _); repeat constructor.
Qed.

Lemma calm_enter_line s : calm s (_enterDrawLineOnBuffer s).
Proof. destruct s. unfold _enterDrawLineOnBuffer. calm_by_fields. Qed.

Lemma calm_exit_line s : calm s (_exitDrawLineOnBuffer s).
Proof.
  unfold _exitDrawLineOnBuffer.
  destruct (negb (a_lineColorIndex s =? 0)).
  - eapply calm_trans; [apply calm_flush | apply calm_call; now split].
  - apply calm_call. now split.
Qed.

Lemma calm_enter_toBuffer s : calm s (_enterDrawToBuffer s).
Proof. destruct s. unfold _enterDrawToBuffer, _drawRectangleRegionEnter. calm_by_fields. Qed.

Lemma calm_drawRectangle p t b x y s : calm s (_drawRectangle p t b x y s).
Proof. destruct s. unfold _drawRectangle. calm_by_fields. Qed.

Lemma calm_region_enter r s : calm s (region_enter r s).
Proof.
  destruct r; simpl;
    [apply calm_enter_line | apply calm_enter_toBuffer | apply calm_call; now split].
Qed.

Lemma calm_region_exit r s : calm s (region_exit r s).
Proof.
  destruct r; simpl; [apply calm_exit_line | apply calm_call; now split..].
Qed.

Lemma calm_enterDrawRegion r s : calm s (enterDrawRegion r s).
Proof.
  unfold enterDrawRegion. case_bool_decide; [apply calm_refl|].
  match goal with
  | |- calm _ (set_regionId ?v ?x) =>
      apply (calm_trans _ x);
        [|apply calm_same; generalize x; intros x0; destruct x0; reflexivity]
  end.
  match goal with
  | |- calm _ (region_enter r ?x) => apply (calm_trans _ x); [|apply calm_region_enter]
  end.
  destruct (_regionId s); [apply calm_region_exit | apply calm_refl].
Qed.

Lemma calm_exitDrawRegion r s : calm s (exitDrawRegion r s).
Proof.
  unfold exitDrawRegion.
  apply (calm_trans _ (region_exit r s)); [apply calm_region_exit|].
  generalize (region_exit r s). intros e.
  destruct (bool_decide _); [apply calm_same; destruct e; reflexivity | apply calm_refl].
Qed.

Lemma calm_clear s : calm s (clear s).
Proof. destruct s. unfold clear. calm_by_fields. Qed.

Lemma calm_drawStamp e x y s : calm s (drawStamp e x y s).
Proof. destruct s. unfold drawStamp. calm_by_fields. Qed.

Lemma calm_drawLine a x0 y0 x1 y1 s : calm s (drawLine a x0 y0 x1 y1 s).
Proof.
  apply (calm_trans _ (before_write s)); [|apply calm_same, drawLine_calls].
  unfold before_write.
  match goal with
  | |- calm _ (if _ then _ else ?r) =>
      apply (calm_trans _ r); [apply calm_enterDrawRegion|]; generalize r; intro
  end.
  destruct (_ <? _); [apply calm_flush | apply calm_refl].
Qed.

Lemma calm_merge s : calm s (merge_raster s).
Proof.
  apply (calm_trans _ (upload_canvas s)).
  - exists (upload_calls s). split; [apply upload_calls_spec | repeat constructor].
  - unfold merge_raster.
    match goal with
    | |- calm _ (set_silhouetteDirty true ?r) =>
        apply (calm_trans _ r);
          [|apply calm_same; generalize r; intros r0; destruct r0; reflexivity]
    end.
    match goal with
    | |- calm _ (_drawRectangle ?a ?b ?c ?d ?e ?r) =>
        apply (calm_trans _ r); [apply calm_enterDrawRegion | apply calm_drawRectangle]
    end.
Qed.

Lemma calm_updateSilhouette s : calm s (updateSilhouette s).
Proof.
  destruct (_silhouetteDirty s) eqn:E.
  - rewrite (updateSilhouette_dirty _ E).
    apply (calm_trans _ (synchronized s)).
    + unfold synchronized.
      match goal with
      | |- calm _ (enterDrawRegion _ ?r) =>
          apply (calm_trans _ r); [|apply calm_enterDrawRegion]
      end.
      destruct (_canvasDirty s); [apply calm_merge | apply calm_refl].
    + destruct (has_buffers s).
      * exists (read_back_calls (synchronized s)).
        split; [apply read_back_calls_spec | repeat constructor].
      * eexists. split; [apply read_request_calls | repeat constructor].
  - rewrite (updateSilhouette_clean _ E). apply calm_refl.
Qed.

Lemma calm_finish w h s : calm s (_setCanvasSize_finish w h s).
Proof.
  unfold _setCanvasSize_finish. destruct (new_Uint8Array _); [|apply calm_refl].
  destruct s. unfold _setCanvasSize_buffers. calm_by_fields.
Qed.

Lemma calm_drawToBuffer_body self t x y s :
  (forall s, calm s (self s)) -> calm s (_drawToBuffer_body self t x y s).
Proof.
  intros Hself. unfold _drawToBuffer_body.
  match goal with
  | |- calm _ (set_silhouetteDirty true ?r) =>
      apply (calm_trans _ r);
        [|apply calm_same; generalize r; intros r0; destruct r0; reflexivity]
  end.
  match goal with
  | |- calm _ (_drawRectangle ?a ?b ?c ?d ?e ?r) =>
      apply (calm_trans _ r); [|apply calm_drawRectangle]
  end.
  match goal with
  | |- calm _ (enterDrawRegion ?a ?r) =>
      apply (calm_trans _ r); [|apply calm_enterDrawRegion]
  end.
  match goal with
  | |- calm _ (if _ then _ else ?r) =>
      apply (calm_trans _ r);
        [|generalize r; intro r0; destruct (bool_decide _); [|apply calm_refl];
          destruct r0; calm_by_fields]
  end.
  destruct (_ && _); [apply Hself | apply calm_refl].
Qed.

Lemma calm_drawToBuffer t x y s : calm s (_drawToBuffer t x y s).
Proof.
  apply calm_drawToBuffer_body. intros s'.
  apply calm_drawToBuffer_body. intros s''. apply calm_refl.
Qed.

Lemma live_neutral more live : Forall gl_neutral more -> live_objects more live = live.
Proof.
  induction 1 as [|c more (C & D) _ IH]; simpl; [reflexivity|]. now rewrite C, D.
Qed.

Lemma calm_live s s' :
  calm s s' -> live_objects (calls s') [] = live_objects (calls s) [].
Proof. intros (more & -> & F). rewrite live_objects_app. now apply live_neutral. Qed.

Lemma surfaces_held s s' : surfaces s' = surfaces s -> held s' = held s.
Proof. unfold surfaces, held. congruence. Qed.

Lemma ledger_kept old s s' :
  held s' = held s -> next_object s' = next_object s -> calm s s' ->
  ledger old s -> ledger old s'.
Proof.
  intros H N C (b & t & e & f & g & Hh & L & F). exists b, t, e, f, g.
  rewrite H, N, (calm_live _ _ C). auto.
Qed.

Lemma quiet_next_object s s' : quiet s s' -> next_object s' = next_object s.
Proof. intros (F & _). unfold frame in F. congruence. Qed.

Lemma merge_next_object s : next_object (merge_raster s) = next_object s.
Proof.
  rewrite (quiet_next_object _ _ (quiet_upload_to_merge s)). destruct s. reflexivity.
Qed.

Lemma updateSilhouette_next_object s : next_object (updateSilhouette s) = next_object s.
Proof.
  destruct (_silhouetteDirty s) eqn:E.
  - rewrite (updateSilhouette_dirty _ E).
    transitivity (next_object (synchronized s));
      [destruct (has_buffers s); generalize (synchronized s); intros r; destruct r;
       reflexivity|].
    unfold synchronized. rewrite (quiet_next_object _ _ (quiet_enterDrawRegion _ _)).
    destruct (_canvasDirty s); [apply merge_next_object | reflexivity].
  - now rewrite (updateSilhouette_clean _ E).
Qed.

Lemma drawToBuffer_body_next_object self t x y s :
  (forall s, next_object (self s) = next_object s) ->
  next_object (_drawToBuffer_body self t x y s) = next_object s.
Proof.
  intros Hself. unfold _drawToBuffer_body.
  match goal with
  | |- next_object (set_silhouetteDirty true ?r) = _ =>
      transitivity (next_object r); [generalize r; intro r0; destruct r0; reflexivity|]
  end.
  rewrite (quiet_next_object _ _ (quiet_drawRectangle _ _ _ _ _ _)).
  rewrite (quiet_next_object _ _ (quiet_enterDrawRegion _ _)).
  match goal with
  | |- next_object (if _ then _ else ?r) = _ =>
      transitivity (next_object r);
        [generalize r; intro r0; destruct (bool_decide _); destruct r0; reflexivity|]
  end.
  destruct (_ && _); [apply Hself | reflexivity].
Qed.

Lemma drawToBuffer_next_object t x y s : next_object (_drawToBuffer t x y s) = next_object s.
Proof.
  apply drawToBuffer_body_next_object. intros s'.
  apply drawToBuffer_body_next_object. reflexivity.
Qed.

(** The calls of lines 584-629 on a pen layer that holds two framebuffers,
    and what it holds afterwards. *)
Lemma allocate_trace w h s f g :
  _framebuffer s = Some f -> _silhouetteBuffer s = Some g ->
  let n := next_object s in
  let f' := {| framebuffer := Framebuffer (N.succ (N.succ n));
               fb_attachment := Some (Texture (N.succ n));
               fb_width := w; fb_height := h |} in
  let g' := {| framebuffer := Framebuffer (N.succ (N.succ (N.succ n)));
               fb_attachment := None; fb_width := w; fb_height := h |} in
  calls (_setCanvasSize_allocate w h s) =
    calls s ++
    [twgl_createTexture (Texture n) src_canvas;
     twgl_createTexture (Texture (N.succ n)) (src_size w h);
     gl_deleteFramebuffer (framebuffer f); gl_deleteFramebuffer (framebuffer g);
     twgl_createFramebufferInfo f'; twgl_createFramebufferInfo g';
     gl_clearColor 0 0 0 0; gl_clear_COLOR_BUFFER_BIT] /\
  held (_setCanvasSize_allocate w h s) =
    (_lineBufferInfo s, Some (Texture n), Some (Texture (N.succ n)), Some f', Some g') /\
  next_object (_setCanvasSize_allocate w h s) = N.succ (N.succ (N.succ (N.succ n))).
Proof.
  destruct s. cbv [_framebuffer _silhouetteBuffer]. intros -> ->.
  split; [|split].
  - lazy beta iota zeta delta -[app N.succ]. rewrite <- !app_assoc. reflexivity.
  - lazy beta iota zeta delta -[app N.succ]. reflexivity.
  - lazy beta iota zeta delta -[app N.succ]. reflexivity.
Qed.

Lemma filter_keep {A} (P : A -> Prop) `{forall x, Decision (P x)} (l : list A) :
  Forall P l -> filter P l = l.
Proof.
  induction 1 as [|x l Hx _ IH]; [reflexivity|].
  now rewrite filter_cons_True, IH.
Qed.

Lemma textures_not_framebuffer x ts :
  Forall (fun o => o <> framebuffer_object x) (map texture_object ts).
Proof. apply Forall_map, Forall_forall. intros t _. discriminate. Qed.

(** Deleting the two framebuffers removes them, and only them, from a list
    whose other entries are no framebuffers. *)
Lemma delete_framebuffers x y pre post :
  Forall (fun o => o <> framebuffer_object x) pre ->
  Forall (fun o => o <> framebuffer_object y) pre ->
  Forall (fun o => o <> framebuffer_object x) post ->
  Forall (fun o => o <> framebuffer_object y) post ->
  filter (fun o => o <> framebuffer_object y)
    (filter (fun o => o <> framebuffer_object x)
       (pre ++ [framebuffer_object x; framebuffer_object y] ++ post)) =
  pre ++ post.
Proof.
  intros Px Py Qx Qy.
  rewrite !filter_app, (filter_keep _ pre Px), (filter_keep _ post Qx).
  rewrite (filter_keep _ pre Py), (filter_keep _ post Qy).
  f_equal.
  rewrite filter_cons_False by (intros H; now apply H).
  destruct (decide (framebuffer_object y = framebuffer_object x)) as [E|E].
  - rewrite filter_cons_False by (intros H; now apply H). reflexivity.
  - rewrite filter_cons_True by exact E.
    rewrite filter_cons_False by (intros H; now apply H). reflexivity.
Qed.

Lemma live_after_allocate b old t e x y t' e' src src' f' g' :
  live_objects
    [twgl_createTexture t' src; twgl_createTexture e' src';
     gl_deleteFramebuffer x; gl_deleteFramebuffer y;
     twgl_createFramebufferInfo f'; twgl_createFramebufferInfo g';
     gl_clearColor 0 0 0 0; gl_clear_COLOR_BUFFER_BIT]
    (buffer_object b :: map texture_object old ++
     [texture_object t; texture_object e; framebuffer_object x; framebuffer_object y]) =
  buffer_object b :: map texture_object (old ++ [t; e]) ++
  [texture_object t'; texture_object e';
   framebuffer_object (framebuffer f'); framebuffer_object (framebuffer g')].
Proof.
  cbv beta iota zeta delta [live_objects creates deletes].
  match goal with
  | |- context [filter _ (filter _ ?l)] =>
      replace l with
        ((buffer_object b :: map texture_object old ++ [texture_object t; texture_object e]) ++
         [framebuffer_object x; framebuffer_object y] ++
         [texture_object t'; texture_object e'])
        by (simpl; rewrite <- !app_assoc; reflexivity)
  end.
  rewrite delete_framebuffers.
  - rewrite map_app. simpl. rewrite <- !app_assoc. reflexivity.
  - constructor; [discriminate|]. apply Forall_app. split;
      [apply textures_not_framebuffer | repeat constructor; discriminate].
  - constructor; [discriminate|]. apply Forall_app. split;
      [apply textures_not_framebuffer | repeat constructor; discriminate].
  - repeat constructor; discriminate.
  - repeat constructor; discriminate.
Qed.

Lemma finish_held w h s :
  held (_setCanvasSize_finish w h s) = held s /\
  next_object (_setCanvasSize_finish w h s) = next_object s.
Proof.
  unfold _setCanvasSize_finish. destruct (new_Uint8Array _); destruct s; split; reflexivity.
Qed.

(** A size change keeps the textures held before it allocated, beside the
    two new ones, and replaces the two framebuffers. *)
Lemma ledger_setCanvasSize w h old s :
  ledger old s ->
  exists t e,
    _texture s = Some t /\ _exportTexture s = Some e /\
    texture_id t < next_object s /\ texture_id e < next_object s /\
    ledger (old ++ [t; e]) (_setCanvasSize w h s) /\
    _texture (_setCanvasSize w h s) = Some (Texture (next_object s)) /\
    _exportTexture (_setCanvasSize w h s) = Some (Texture (N.succ (next_object s))).
Proof.
  intros (b & t & e & f & g & Hh & L & Ft & Fe). unfold held in Hh.
  assert (_lineBufferInfo s = Some b) as Hb by congruence.
  assert (_texture s = Some t) as Ht by congruence.
  assert (_exportTexture s = Some e) as He by congruence.
  assert (_framebuffer s = Some f) as Hf by congruence.
  assert (_silhouetteBuffer s = Some g) as Hg by congruence.
  exists t, e. split; [exact Ht|]. split; [exact He|].
  split; [exact Ft|]. split; [exact Fe|].
  destruct (allocate_trace w h s f g Hf Hg) as (C & H & N). cbv zeta in C, H, N.
  assert (calm (_setCanvasSize_allocate w h s) (_setCanvasSize w h s) /\
          held (_setCanvasSize w h s) = held (_setCanvasSize_allocate w h s) /\
          next_object (_setCanvasSize w h s) =
            next_object (_setCanvasSize_allocate w h s)) as (Cm & Hm & Nm).
  { unfold _setCanvasSize. rewrite He.
    match goal with
    | |- calm _ (_setCanvasSize_finish _ _ ?r) /\ _ =>
        pose proof (calm_drawToBuffer (Some e) None None (_setCanvasSize_allocate w h s)) as C1;
        pose proof (surfaces_held _ _
                      (drawToBuffer_surfaces (Some e) None None
                         (_setCanvasSize_allocate w h s))) as H1;
        pose proof (drawToBuffer_next_object (Some e) None None
                      (_setCanvasSize_allocate w h s)) as N1;
        revert C1 H1 N1; generalize r; intros r0 C1 H1 N1
    end.
    split; [|split].
    - eapply calm_trans; [exact C1 | apply calm_finish].
    - rewrite <- H1. apply finish_held.
    - rewrite <- N1. apply finish_held. }
  assert (live_objects (calls (_setCanvasSize w h s)) [] =
          buffer_object b :: map texture_object (old ++ [t; e]) ++
          [texture_object (Texture (next_object s));
           texture_object (Texture (N.succ (next_object s)));
           framebuffer_object (Framebuffer (N.succ (N.succ (next_object s))));
           framebuffer_object (Framebuffer (N.succ (N.succ (N.succ (next_object s)))))])
    as Lv.
  { rewrite (calm_live _ _ Cm), C, live_objects_app, L. apply live_after_allocate. }
  rewrite <- Hm, Hb in H. rewrite <- Nm in N.
  split; [|unfold held in H; split; congruence].
  do 5 eexists. split; [exact H|]. split; [exact Lv|].
  rewrite N. cbv [texture_id]. lia.
Qed.

Lemma ledger_step s o : (exists old, ledger old s) -> exists old, ledger old (step s o).
Proof.
  intros (old & L). destruct o; cbv beta iota delta [step].
  - (* clear *)
    exists old. revert L. apply ledger_kept; [destruct s; reflexivity.. | apply calm_clear].
  - (* drawPoint *)
    exists old. revert L. unfold drawPoint.
    pose proof (drawLine_frame penAttributes x y x y s) as F. unfold frame in F.
    apply ledger_kept; [apply surfaces_held; congruence | congruence | apply calm_drawLine].
  - (* drawLine *)
    exists old. revert L.
    pose proof (drawLine_frame penAttributes x0 y0 x1 y1 s) as F. unfold frame in F.
    apply ledger_kept; [apply surfaces_held; congruence | congruence | apply calm_drawLine].
  - (* drawStamp *)
    exists old. revert L.
    apply ledger_kept; [destruct s; reflexivity.. | apply calm_drawStamp].
  - (* getTexture *)
    exists old. rewrite getTexture_state. destruct (_canvasDirty s); [|exact L].
    revert L. apply ledger_kept;
      [apply surfaces_held, merge_surfaces | apply merge_next_object | apply calm_merge].
  - (* updateSilhouette *)
    exists old. revert L. apply ledger_kept;
      [apply surfaces_held, updateSilhouette_surfaces | apply updateSilhouette_next_object
      |apply calm_updateSilhouette].
  - (* setRenderQuality *)
    unfold setRenderQuality. destruct (strict_eq _ _); [now exists old|].
    assert (ledger old (set_renderQuality quality s)) as L'
      by (revert L; apply ledger_kept;
          [destruct s; reflexivity.. | apply calm_same; destruct s; reflexivity]).
    match goal with
    | |- exists o, ledger o (_setCanvasSize ?w ?h _) =>
        destruct (ledger_setCanvasSize w h old _ L') as (t & e & _ & _ & _ & _ & L'' & _)
    end.
    now exists (old ++ [t; e]).
  - (* onNativeSizeChanged *)
    unfold onNativeSizeChanged.
    assert (ledger old (set_nativeSize newSize s)) as L'
      by (revert L; apply ledger_kept;
          [destruct s; reflexivity.. | apply calm_same; destruct s; reflexivity]).
    destruct (ledger_setCanvasSize (fst newSize) (snd newSize) old _ L')
      as (t & e & _ & _ & _ & _ & L'' & _).
    now exists (old ++ [t; e]).
  - (* enterDrawRegion *)
    exists old. revert L. apply ledger_kept;
      [apply surfaces_held, quiet_surfaces | apply quiet_next_object | apply calm_enterDrawRegion];
      apply quiet_enterDrawRegion.
  - (* exitDrawRegion *)
    exists old. revert L. apply ledger_kept;
      [apply surfaces_held, quiet_surfaces | apply quiet_next_object | apply calm_exitDrawRegion];
      apply quiet_exitDrawRegion.
Qed.

Lemma ledger_constructor id nativeSize : ledger [] (constructor id nativeSize).
Proof.
  destruct nativeSize as [w h]. unfold constructor, _setCanvasSize.
  match goal with
  | |- ledger [] (_setCanvasSize_finish _ _ ?r) =>
      apply (ledger_kept [] r); [apply finish_held | apply finish_held | apply calm_finish|]
  end.
  exists (Buffers 0), (Texture 1), (Texture 2),
    {| framebuffer := Framebuffer 3; fb_attachment := Some (Texture 2);
       fb_width := w; fb_height := h |},
    {| framebuffer := Framebuffer 4; fb_attachment := None;
       fb_width := w; fb_height := h |}.
  split; [vm_compute; reflexivity|]. split; [vm_compute; reflexivity|].
  split; vm_compute; reflexivity.
Qed.

Lemma reachable_ledger id nativeSize ops :
  exists old, ledger old (run ops (constructor id nativeSize)).
Proof.
  apply (run_invariant (fun s => exists old, ledger old s)); [|apply ledger_step].
  exists []. apply ledger_constructor.
Qed.

Lemma textures_of_textures ts : textures_of (map texture_object ts) = ts.
Proof.
  induction ts as [|t ts IH]; [reflexivity|].
  change (t :: textures_of (map texture_object ts) = t :: ts). now rewrite IH.
Qed.

Lemma framebuffers_of_textures ts : framebuffers_of (map texture_object ts) = [].
Proof. induction ts as [|t ts IH]; [reflexivity|]. exact IH. Qed.

Lemma textures_of_app l1 l2 : textures_of (l1 ++ l2) = textures_of l1 ++ textures_of l2.
Proof. apply omap_app. Qed.

Lemma framebuffers_of_app l1 l2 :
  framebuffers_of (l1 ++ l2) = framebuffers_of l1 ++ framebuffers_of l2.
Proof. apply omap_app. Qed.

Lemma ledger_textures old s :
  ledger old s ->
  exists t e, _texture s = Some t /\ _exportTexture s = Some e /\
    textures_of (live_objects (calls s) []) = old ++ [t; e].
Proof.
  intros (b & t & e & f & g & Hh & L & _). exists t, e. unfold held in Hh.
  split; [congruence|]. split; [congruence|].
  rewrite L.
  change (textures_of ([buffer_object b] ++ map texture_object old ++
            [texture_object t; texture_object e; framebuffer_object (framebuffer f);
             framebuffer_object (framebuffer g)]) = old ++ [t; e]).
  now rewrite !textures_of_app, textures_of_textures.
Qed.

(** X10.  In every reachable state exactly two framebuffers are allocated,
    the two the pen layer holds: every size change deletes the old pair
    before it creates the new one. *)
Theorem two_framebuffers_allocated id nativeSize ops :
  let s := run ops (constructor id nativeSize) in
  exists f g,
    _framebuffer s = Some f /\ _silhouetteBuffer s = Some g /\
    framebuffers_of (live_objects (calls s) []) = [framebuffer f; framebuffer g].
Proof.
  intros s. destruct (reachable_ledger id nativeSize ops) as (old & L). fold s in L.
  destruct L as (b & t & e & f & g & Hh & L & _). exists f, g. unfold held in Hh.
  split; [congruence|]. split; [congruence|].
  rewrite L.
  change (framebuffers_of ([buffer_object b] ++ map texture_object old ++
            [texture_object t; texture_object e; framebuffer_object (framebuffer f);
             framebuffer_object (framebuffer g)]) = [framebuffer f; framebuffer g]).
  now rewrite !framebuffers_of_app, framebuffers_of_textures.
Qed.

(** X11.  A change of the native size on a reachable state creates two
    textures and deletes none: the pen layer then holds two new textures,
    different from the two it held before, and the two it held before are
    still allocated, beside every texture that was allocated before. *)
Theorem size_change_keeps_old_textures id nativeSize ops newSize :
  let s := run ops (constructor id nativeSize) in
  let s' := onNativeSizeChanged newSize s in
  exists t e t' e',
    _texture s = Some t /\ _exportTexture s = Some e /\
    _texture s' = Some t' /\ _exportTexture s' = Some e' /\
    t' <> t /\ t' <> e /\ e' <> t /\ e' <> e /\
    textures_of (live_objects (calls s') []) =
      textures_of (live_objects (calls s) []) ++ [t'; e'] /\
    In t (textures_of (live_objects (calls s) [])) /\
    In e (textures_of (live_objects (calls s) [])).
Proof.
  intros s s'. destruct (reachable_ledger id nativeSize ops) as (old & L). fold s in L.
  subst s'. clearbody s. unfold onNativeSizeChanged.
  destruct (ledger_textures old s L) as (t0 & e0 & Ht0 & He0 & Tx).
  assert (ledger old (set_nativeSize newSize s)) as L'
    by (revert L; apply ledger_kept;
        [destruct s; reflexivity.. | apply calm_same; destruct s; reflexivity]).
  destruct (ledger_setCanvasSize (fst newSize) (snd newSize) old _ L')
    as (t & e & Ht & He & Ft & Fe & L'' & Ht' & He').
  replace (_texture (set_nativeSize newSize s)) with (_texture s) in Ht
    by (destruct s; reflexivity).
  replace (_exportTexture (set_nativeSize newSize s)) with (_exportTexture s) in He
    by (destruct s; reflexivity).
  replace (next_object (set_nativeSize newSize s)) with (next_object s) in *
    by (destruct s; reflexivity).
  assert (t0 = t) as -> by congruence. assert (e0 = e) as -> by congruence.
  destruct (ledger_textures _ _ L'') as (t1 & e1 & Ht1 & He1 & Tx').
  exists t, e, (Texture (next_object s)), (Texture (N.succ (next_object s))).
  split; [exact Ht|]. split; [exact He|]. split; [exact Ht'|]. split; [exact He'|].
  assert (t1 = Texture (next_object s)) as -> by congruence.
  assert (e1 = Texture (N.succ (next_object s))) as -> by congruence.
  destruct t as [i], e as [j]. cbv [texture_id] in Ft, Fe.
  split; [intros [= E]; lia|]. split; [intros [= E]; lia|].
  split; [intros [= E]; lia|]. split; [intros [= E]; lia|].
  split; [rewrite Tx', Tx; reflexivity|].
  rewrite Tx. split; apply in_or_app; right; simpl; auto.
Qed.

(** ** The corner codes of the line quads *)

Lemma f32_set_app pre l k v :
  f32_set (pre ++ l) (N.of_nat (length pre) + k) v = pre ++ f32_set l k v.
Proof.
  unfold f32_set.
  replace (N.to_nat (N.of_nat (length pre) + k)) with (length pre + N.to_nat k)%nat by lia.
  apply insert_app_r.
Qed.

Lemma twelve_stores rest :
  f32_set (f32_set (f32_set (f32_set (f32_set (f32_set (f32_set (f32_set (f32_set
    (f32_set (f32_set (f32_set (replicate 12 0%float ++ rest) 0 1) 1 0) 2 0) 3 0) 4 1)
    5 1) 6 1) 7 1) 8 0) 9 0) 10 0) 11 1 = corner_codes ++ rest.
Proof. vm_compute. reflexivity. Qed.

Lemma fill_a_position_S fuel i a :
  fill_a_position (S fuel) i a =
  if i <? f32_length a then
    fill_a_position fuel (i + 12)
      (f32_set (f32_set (f32_set (f32_set (f32_set (f32_set (f32_set (f32_set (f32_set
         (f32_set (f32_set (f32_set a (i + 0) 1) (i + 1) 0) (i + 2) 0) (i + 3) 0) (i + 4) 1)
         (i + 5) 1) (i + 6) 1) (i + 7) 1) (i + 8) 0) (i + 9) 0) (i + 10) 0) (i + 11) 1)
  else a.
Proof. reflexivity. Qed.

(** One more round than quads: for every number [m] of quads, the loop of
    lines 252-265 turns [12 m] zeros into [m] copies of the corner codes. *)
Lemma fill_a_position_codes m pre :
  fill_a_position (S m) (N.of_nat (length pre)) (pre ++ replicate (12 * m) 0%float) =
  pre ++ concat (replicate m corner_codes).
Proof.
  revert pre. induction m as [|m IH]; intros pre.
  - rewrite fill_a_position_S. unfold f32_length.
    replace (12 * 0)%nat with 0%nat by lia. cbn [replicate concat].
    rewrite app_nil_r, (proj2 (N.ltb_ge _ _)) by lia. reflexivity.
  - rewrite fill_a_position_S.
    replace (N.of_nat (length pre) <? f32_length (pre ++ replicate (12 * S m) 0%float))
      with true
      by (symmetry; apply N.ltb_lt; unfold f32_length;
          rewrite length_app, length_replicate; lia).
    replace (12 * S m)%nat with (12 + 12 * m)%nat by lia.
    rewrite replicate_add, !f32_set_app, twelve_stores.
    replace (N.of_nat (length pre) + 12) with (N.of_nat (length (pre ++ corner_codes)))
      by (rewrite length_app; cbn [length corner_codes]; lia).
    rewrite (app_assoc pre corner_codes), IH.
    cbn [replicate concat]. now rewrite <- app_assoc.
Qed.

Lemma fill_a_position_from_start m fuel a :
  fuel = S m -> a = replicate (12 * m) 0%float ->
  fill_a_position fuel 0 a = concat (replicate m corner_codes).
Proof. intros -> ->. exact (fill_a_position_codes m []). Qed.

(** X12.  The position attribute, filled once by [_createLineGeometry], is
    2730 copies of the corner codes of one quad: six vertices of two
    coordinates for each of the 2730 segments the batch arrays can hold. *)
Theorem a_position_holds_quads :
  a_position = concat (replicate 2730 corner_codes) /\
  f32_length a_position = 32760 /\
  2730 * 24 = f32_length (new_Float32Array 65520).
Proof.
  assert (a_position = concat (replicate 2730 corner_codes)) as E.
  { rewrite <- (a_position_complete 1).
    apply (fill_a_position_from_start 2730); [lia|].
    unfold new_Float32Array. f_equal; lia. }
  split; [exact E|]. split.
  - rewrite E. unfold f32_length.
    assert (forall n, length (concat (replicate n corner_codes)) = (12 * n)%nat) as L.
    { induction n as [|n IH]; [reflexivity|].
      cbn [replicate concat]. rewrite length_app, IH. cbn [length corner_codes]. lia. }
    rewrite L. lia.
  - rewrite f32_length_new. reflexivity.
Qed.

(** ** Missing and falsy pen attributes *)

Lemma drawLine_attributes a a' x0 y0 x1 y1 s :
  diameter_or_default a = diameter_or_default a' ->
  color4f_or_default a = color4f_or_default a' ->
  drawLine a x0 y0 x1 y1 s = drawLine a' x0 y0 x1 y1 s.
Proof.
  intros D C. rewrite (drawLine_unfold a), (drawLine_unfold a').
  match goal with
  | |- set_silhouetteDirty true (_drawLineOnBuffer a ?p ?q ?r ?t s) =
       set_silhouetteDirty true (_drawLineOnBuffer a' ?p' ?q' ?r' ?t' s) =>
      rewrite (drawLineOnBuffer_eq a p q r t s), (drawLineOnBuffer_eq a' p' q' r' t' s)
  end.
  unfold pen_offset. now rewrite D, C.
Qed.

(** X13.  A diameter that is falsy (zero, minus zero or [NaN]) counts as
    missing: [drawLine] then draws what it draws with no attribute given,
    which is what it draws with diameter 1 and the colour (0, 0, 1, 1), the
    half-pixel offset included. *)
Theorem drawLine_falsy_diameter d x0 y0 x1 y1 s :
  truthy d = false ->
  drawLine {| diameter := Some d; color4f := None |} x0 y0 x1 y1 s =
    drawLine {| diameter := None; color4f := None |} x0 y0 x1 y1 s /\
  drawLine {| diameter := None; color4f := None |} x0 y0 x1 y1 s =
    drawLine {| diameter := Some 1%float; color4f := Some (color 0 0 1 1) |} x0 y0 x1 y1 s /\
  pen_offset {| diameter := Some d; color4f := None |} = 0.5%float.
Proof.
  intros H. split; [|split].
  - apply drawLine_attributes; [|reflexivity].
    unfold diameter_or_default. cbn [diameter]. now rewrite H.
  - apply drawLine_attributes; reflexivity.
  - unfold pen_offset, diameter_or_default. cbn [diameter]. now rewrite H.
Qed.

(** A pen of diameter zero on the reference stage. *)
Lemma drawLine_falsy_diameter_witness :
  truthy 0 = false /\
  drawLine {| diameter := Some 0%float; color4f := None |} 0 0 100 0 stage =
    drawLine {| diameter := None; color4f := None |} 0 0 100 0 stage /\
  drawLine {| diameter := None; color4f := None |} 0 0 100 0 stage =
    drawLine {| diameter := Some 1%float; color4f := Some (color 0 0 1 1) |} 0 0 100 0 stage /\
  pen_offset {| diameter := Some 0%float; color4f := None |} = 0.5%float.
Proof.
  split; [reflexivity|].
  apply (drawLine_falsy_diameter 0 0 0 100 0 stage). reflexivity.
Defined.

(** ** Setting the render quality twice *)

Lemma setCanvasSize_quality w h s :
  renderQuality (_setCanvasSize w h s) = renderQuality s.
Proof. apply setCanvasSize_backed. Qed.

(** X15.  [setRenderQuality] with a quality that is not [NaN] is
    idempotent: the second call finds the quality set and returns.  So the
    surfaces are reallocated at most once for a given quality. *)
Theorem setRenderQuality_twice q s :
  is_nan q = false ->
  setRenderQuality q (setRenderQuality q s) = setRenderQuality q s.
Proof.
  intros H.
  assert (strict_eq q q = true) as R
    by (unfold strict_eq; unfold is_nan in H; now destruct (q =? q)%float).
  destruct (strict_eq (renderQuality s) q) eqn:E.
  - unfold setRenderQuality. now rewrite !E.
  - assert (renderQuality (setRenderQuality q s) = q) as Q.
    { unfold setRenderQuality. rewrite E. rewrite setCanvasSize_quality.
      destruct s. reflexivity. }
    generalize dependent (setRenderQuality q s). intros s' Q.
    unfold setRenderQuality. now rewrite Q, R.
Qed.

(** Quality 2 on the reference stage. *)
Lemma setRenderQuality_twice_witness :
  is_nan 2 = false /\
  setRenderQuality 2 (setRenderQuality 2 stage) = setRenderQuality 2 stage.
Proof.
  split; [reflexivity|].
  apply (setRenderQuality_twice 2 stage). reflexivity.
Defined.

(** ** A stamp and the next texture request *)

Lemma drawRectangle_calls p t b x y s :
  exists u,
    calls (_drawRectangle p t b (Some x) (Some y) s) =
    calls s ++ [twgl_setTextureParameters t; twgl_setUniforms p u;
                twgl_drawBufferInfo (Some renderer_bufferInfo) None].
Proof.
  destruct s. unfold _drawRectangle. eexists. run_state.
  rewrite <- !app_assoc. reflexivity.
Qed.

Lemma merge_calls s :
  exists rest u,
    calls (merge_raster s) =
    calls s ++ upload_calls s ++ rest ++
    [twgl_setTextureParameters (_texture s); twgl_setUniforms (_stampShader s) u;
     twgl_drawBufferInfo (Some renderer_bufferInfo) None].
Proof.
  unfold merge_raster.
  destruct (quiet_enterDrawRegion _toBufferDrawRegionId (upload_canvas s))
    as (_ & _ & _ & _ & (rest & R)).
  match goal with
  | |- context [_drawRectangle ?p ?t ?b (Some ?x) (Some ?y) ?r] =>
      destruct (drawRectangle_calls p t b x y r) as (u & U);
      exists rest, u;
      transitivity (calls (_drawRectangle p t b (Some x) (Some y) r));
        [generalize (_drawRectangle p t b (Some x) (Some y) r); intros r0;
         destruct r0; reflexivity|]
  end.
  rewrite U, R, upload_calls_spec. now rewrite <- !app_assoc.
Qed.

(** X16.  [drawStamp] draws the image on the canvas at the rotation centre
    plus [x] and minus [y], and makes no GL call.  The next [getTexture]
    uploads the canvas into its texture, clears the canvas, and ends with one
    rectangle draw of that texture; after it the canvas is clean and the
    silhouette dirty. *)
Theorem stamp_is_merged_by_getTexture stampElement x y w h s :
  let s1 := drawStamp stampElement x y s in
  let s2 := snd (getTexture w h s1) in
  calls s1 =
    calls s ++ [ctx_drawImage stampElement (fst (_rotationCenter s) + x)
                  (snd (_rotationCenter s) - y)] /\
  (exists rest u,
     calls s2 =
       calls s1 ++
       [gl_bindTexture (_texture s); gl_texImage2D_canvas;
        ctx_clearRect 0 0 (canvas_width (_canvas s)) (canvas_height (_canvas s))] ++
       rest ++
       [twgl_setTextureParameters (_texture s); twgl_setUniforms (_stampShader s) u;
        twgl_drawBufferInfo (Some renderer_bufferInfo) None]) /\
  _canvasDirty s1 = true /\ _canvasDirty s2 = false /\ _silhouetteDirty s2 = true.
Proof.
  intros s1 s2.
  assert (calls s1 = calls s ++ [ctx_drawImage stampElement (fst (_rotationCenter s) + x)
                                   (snd (_rotationCenter s) - y)] /\
          _canvasDirty s1 = true /\ upload_calls s1 = upload_calls s /\
          _texture s1 = _texture s /\ _stampShader s1 = _stampShader s)
    as (C1 & D1 & U1 & T1 & S1) by (subst s1; destruct s; repeat split).
  assert (s2 = merge_raster s1) as -> by (subst s2; now rewrite getTexture_state, D1).
  clearbody s1.
  split; [exact C1|]. split.
  - destruct (merge_calls s1) as (rest & u & M). exists rest, u.
    rewrite M, T1, S1. unfold upload_calls in U1. now rewrite <- U1.
  - split; [exact D1|]. split; [apply merge_canvasDirty | apply merge_silhouetteDirty].
Qed.

(** ** The read-back and the pending segments *)

Lemma noted_raised s : _silhouetteDirty s = true -> noted s.
Proof. intros H _. exact H. Qed.

Lemma noted_empty s : cursors s = (0, 0, 0) -> noted s.
Proof. intros H N. contradiction. Qed.

Lemma noted_quiet s s' : quiet s s' -> noted s -> noted s'.
Proof.
  intros (_ & _ & C & D & _) H N. apply D, H.
  destruct C as [C|C]; congruence.
Qed.

Lemma updateSilhouette_region s :
  _silhouetteDirty s = true ->
  _regionId (updateSilhouette s) = Some _toBufferDrawRegionId.
Proof.
  intros E. rewrite (updateSilhouette_dirty _ E).
  transitivity (_regionId (synchronized s));
    [destruct (has_buffers s); generalize (synchronized s); intros r; destruct r;
     reflexivity|].
  unfold synchronized. apply enterDrawRegion_region.
Qed.

Lemma noted_setCanvasSize w h s : noted s -> noted (_setCanvasSize w h s).
Proof.
  intros H N. rewrite setCanvasSize_silhouetteDirty.
  destruct (batch_kept_setCanvasSize w h s) as (_ & [C|C]); [|contradiction].
  rewrite H by congruence. now rewrite !orb_true_r.
Qed.

Lemma noted_step s o : tidy s -> noted s -> noted (step s o).
Proof.
  intros T H. pose proof (tidy_step s o T) as T'. revert T'.
  destruct o; cbv beta iota delta [step]; intros T'.
  - (* clear *) apply noted_raised. reflexivity.
  - (* drawPoint *)
    apply noted_raised. unfold drawPoint, drawLine.
    generalize (_drawLineOnBuffer). reflexivity.
  - (* drawLine *)
    apply noted_raised. unfold drawLine. generalize (_drawLineOnBuffer). reflexivity.
  - (* drawStamp *) apply noted_raised. reflexivity.
  - (* getTexture *)
    rewrite getTexture_state.
    destruct (_canvasDirty s); [apply noted_raised, merge_silhouetteDirty | exact H].
  - (* updateSilhouette *)
    destruct (_silhouetteDirty s) eqn:E.
    + apply noted_empty. apply T'.
      rewrite (updateSilhouette_region _ E). discriminate.
    + now rewrite (updateSilhouette_clean _ E).
  - (* setRenderQuality *)
    unfold setRenderQuality. destruct (strict_eq _ _); [exact H|].
    apply noted_setCanvasSize. destruct s. exact H.
  - (* onNativeSizeChanged *)
    unfold onNativeSizeChanged. apply noted_setCanvasSize. destruct s. exact H.
  - (* enterDrawRegion *) eapply noted_quiet; [apply quiet_enterDrawRegion | exact H].
  - (* exitDrawRegion *) eapply noted_quiet; [apply quiet_exitDrawRegion | exact H].
Qed.

Lemma reachable_tidy_noted id nativeSize ops :
  tidy (run ops (constructor id nativeSize)) /\ noted (run ops (constructor id nativeSize)).
Proof.
  apply (run_invariant (fun s => tidy s /\ noted s)).
  - split; [apply tidy_constructor|].
    unfold constructor. apply noted_setCanvasSize, noted_empty. reflexivity.
  - intros s o (T & H). split; [now apply tidy_step | now apply noted_step].
Qed.

Lemma cursors_dec s : {cursors s = (0, 0, 0)} + {cursors s <> (0, 0, 0)}.
Proof. apply (decide (cursors s = (0, 0, 0))). Qed.

(** The state the read-back starts from, reached from the line region
    with a segment pending: the flush has been made. *)
Lemma synchronized_flushes_pending s :
  _regionId s = Some _lineOnBufferDrawRegionId ->
  a_lineColorIndex s <> 0 ->
  exists pre post, calls (synchronized s) = calls s ++ pre ++ flush_calls s ++ post.
Proof.
  intros R P. unfold synchronized. destruct (_canvasDirty s).
  - destruct (merge_flushes_pending s R P) as (_ & rest & M).
    destruct (quiet_enterDrawRegion _toBufferDrawRegionId (merge_raster s))
      as (_ & _ & _ & _ & (more & E)).
    exists (upload_calls s), (rest ++ more). rewrite E, M. now rewrite <- !app_assoc.
  - rewrite (enter_toBuffer_from_line s R P).
    match goal with
    | |- exists pre post, calls (set_regionId ?v ?r) = _ =>
        destruct (quiet_set_regionId v r) as (_ & _ & _ & _ & (m1 & M1)); rewrite M1
    end.
    match goal with
    | |- exists pre post, calls (_enterDrawToBuffer ?r) ++ _ = _ =>
        destruct (quiet_enter_toBuffer r) as (_ & _ & _ & _ & (m2 & M2)); rewrite M2
    end.
    match goal with
    | |- exists pre post, (calls (call ?c ?r) ++ _) ++ _ = _ =>
        destruct (quiet_call c r) as (_ & _ & _ & _ & (m3 & M3)); rewrite M3
    end.
    exists [], (m3 ++ m2 ++ m1). rewrite flush_calls_spec. cbn [app].
    now rewrite <- !app_assoc.
Qed.

(** X17.  On a pen layer whose constructor returned, [updateSilhouette] on
    a reachable state never misses a pending segment: afterwards the batch
    is empty, and if segments were pending the calls of their flush come
    before the three calls of the read-back. *)
Theorem updateSilhouette_flushes_pending id nativeSize ops :
  constructor_returns nativeSize = true ->
  let s := run ops (constructor id nativeSize) in
  let s' := updateSilhouette s in
  cursors s' = (0, 0, 0) /\
  (a_lineColorIndex s = 0 \/
   exists pre post,
     calls s' =
       calls s ++ pre ++ flush_calls s ++ post ++
       [gl_readPixels 0 0 (canvas_width (_canvas s)) (canvas_height (_canvas s));
        imageData_set (_silhouettePixels s);
        silhouette_update (_silhouetteImageData s) true]).
Proof.
  intros Rt s s'. destruct (reachable_tidy_noted id nativeSize ops) as (T & H).
  pose proof (reachable_has_buffers id nativeSize ops Rt) as Hb.
  fold s in T, H, Hb. subst s'. clearbody s.
  pose proof (tidy_step s op_updateSilhouette T) as (_ & S').
  cbv beta iota delta [step] in S'.
  destruct (cursors_dec s) as [Z|NZ].
  - split; [|left; unfold cursors in Z; congruence].
    destruct (_silhouetteDirty s) eqn:E.
    + apply S'. rewrite (updateSilhouette_region _ E). discriminate.
    + now rewrite (updateSilhouette_clean _ E).
  - pose proof (H NZ) as E.
    assert (_regionId s = Some _lineOnBufferDrawRegionId) as R.
    { destruct T as (_ & S).
      destruct (decide (_regionId s = Some _lineOnBufferDrawRegionId)) as [R|R]; [exact R|].
      now specialize (S R). }
    assert (a_lineColorIndex s <> 0) as P.
    { intros P. apply NZ. destruct T as ((_ & _ & _ & Pp & Th & _) & _).
      unfold cursors. f_equal; [f_equal|]; lia. }
    split.
    + apply S'. rewrite (updateSilhouette_region _ E). discriminate.
    + right. rewrite (updateSilhouette_dirty _ E), Hb.
      destruct (synchronized_flushes_pending s R P) as (pre & post & M).
      exists pre, post. rewrite read_back_calls_spec, M. unfold read_back_calls.
      pose proof (synchronized_surfaces s) as Sf. unfold surfaces in Sf.
      replace (_canvas (synchronized s)) with (_canvas s) by congruence.
      replace (_silhouettePixels (synchronized s)) with (_silhouettePixels s) by congruence.
      replace (_silhouetteImageData (synchronized s)) with (_silhouetteImageData s)
        by congruence.
      now rewrite <- !app_assoc.
Qed.

(** One line pending on the reference stage, whose constructor returned. *)
Lemma updateSilhouette_flushes_pending_witness :
  constructor_returns (480, 360)%float = true /\
  let s := run [op_drawLine red_pen 0 0 10 10] (constructor 1 (480, 360)%float) in
  let s' := updateSilhouette s in
  cursors s' = (0, 0, 0) /\
  (a_lineColorIndex s = 0 \/
   exists pre post,
     calls s' =
       calls s ++ pre ++ flush_calls s ++ post ++
       [gl_readPixels 0 0 (canvas_width (_canvas s)) (canvas_height (_canvas s));
        imageData_set (_silhouettePixels s);
        silhouette_update (_silhouetteImageData s) true]).
Proof.
  split; [reflexivity|].
  apply (updateSilhouette_flushes_pending 1 (480, 360)%float
           [op_drawLine red_pen 0 0 10 10]).
  reflexivity.
Defined.

(** ** Colour channels on a 2D context *)

(** The 8-bit channel value [k], as the fraction [k / 255], comes back as
    [k]. *)
Lemma channel_round_trip k : k <= 255 -> Math_round (N2number k / 255 * 255) = N2number k.
Proof.
  intros H.
  assert (forallb (fun n => Leibniz.eqb (Math_round (N2number (N.of_nat n) / 255 * 255))
                              (N2number (N.of_nat n)))
            (seq 0 256) = true) as F by (vm_compute; reflexivity).
  rewrite forallb_forall in F.
  specialize (F (N.to_nat k)). rewrite N2Nat.id in F.
  apply Leibniz.eqb_spec, F, in_seq. lia.
Qed.

(** X18.  [_setAttributes] turns a colour whose red, green and blue are the
    8-bit values [r], [g], [b] over 255 into the stroke style
    [rgba(r,g,b,a)] with the same three integers and the alpha as given; it
    sets round line caps, and the line width to the diameter, or to 1 when
    the diameter is missing or falsy. *)
Theorem setAttributes_8bit_colour r g b a d :
  r <= 255 -> g <= 255 -> b <= 255 ->
  _setAttributes
    (Some {| diameter := d;
             color4f := Some (color (N2number r / 255) (N2number g / 255)
                                (N2number b / 255) a) |}) =
  [strokeStyle_rgba (N2number r) (N2number g) (N2number b) a; lineCap_round;
   lineWidth match d with
             | Some w => if truthy w then w else 1%float
             | None => 1%float
             end].
Proof.
  intros Hr Hg Hb. unfold _setAttributes. cbv zeta.
  cbn [default from_option id color4f_or_default diameter_or_default color4f diameter
         c_0 c_1 c_2 c_3].
  now rewrite !channel_round_trip.
Qed.

(** Orange, (255, 128, 0), at half opacity and diameter 4. *)
Lemma setAttributes_8bit_colour_witness :
  255 <= 255 /\ 128 <= 255 /\ 0 <= 255 /\
  _setAttributes
    (Some {| diameter := Some 4%float;
             color4f := Some (color (N2number 255 / 255) (N2number 128 / 255)
                                (N2number 0 / 255) 0.5) |}) =
  [strokeStyle_rgba (N2number 255) (N2number 128) (N2number 0) 0.5; lineCap_round;
   lineWidth (if truthy 4 then 4 else 1)%float].
Proof.
  split; [lia|]. split; [lia|]. split; [lia|].
  apply (setAttributes_8bit_colour 255 128 0 0.5 (Some 4%float)); lia.
Defined.

(** ** The calls of a region change and of a size change *)

Lemma enterDrawRegion_inside r s : _regionId s = Some r -> enterDrawRegion r s = s.
Proof. intros H. unfold enterDrawRegion. now rewrite bool_decide_eq_true_2. Qed.

(** Entering the to-buffer region from elsewhere ends with the calls of its
    enter callback (lines 504-510 and 451-458). *)
Lemma enter_toBuffer_calls s :
  _regionId s <> Some _toBufferDrawRegionId ->
  exists before,
    calls (enterDrawRegion _toBufferDrawRegionId s) =
      calls s ++ before ++
      [twgl_bindFramebufferInfo (_framebuffer s);
       gl_viewport 0 0 (Rectangle_width (_bounds s)) (Rectangle_height (_bounds s));
       gl_useProgram (_stampShader s);
       twgl_setBuffersAndAttributes (_stampShader s) (Some renderer_bufferInfo)].
Proof.
  intros H. unfold enterDrawRegion. rewrite bool_decide_eq_false_2 by exact H.
  assert (quiet s (match _regionId s with
                   | Some current => region_exit current s
                   | None => s
                   end)) as Q
    by (destruct (_regionId s); [apply quiet_region_exit | apply quiet_refl]).
  revert Q.
  generalize (match _regionId s with
              | Some current => region_exit current s
              | None => s
              end).
  intros r (F & _ & _ & _ & (before & G)). exists before.
  unfold frame, surfaces in F.
  replace (_framebuffer s) with (_framebuffer r) by congruence.
  replace (_bounds s) with (_bounds r) by congruence.
  replace (_stampShader s) with (_stampShader r) by congruence.
  rewrite app_assoc, <- G. destruct r.
  cbv beta iota delta [region_enter _enterDrawToBuffer _drawRectangleRegionEnter].
  run_state. rewrite <- !app_assoc. reflexivity.
Qed.

(** The calls of one entry of the to-buffer region: none inside it already;
    from elsewhere they end with the bind of the export framebuffer. *)
Lemma toBuffer_guard s :
  exists guard,
    calls (enterDrawRegion _toBufferDrawRegionId s) = calls s ++ guard /\
    (_regionId s = Some _toBufferDrawRegionId /\ guard = [] \/
     exists before,
       guard =
         before ++
         [twgl_bindFramebufferInfo (_framebuffer s);
          gl_viewport 0 0 (Rectangle_width (_bounds s)) (Rectangle_height (_bounds s));
          gl_useProgram (_stampShader s);
          twgl_setBuffersAndAttributes (_stampShader s) (Some renderer_bufferInfo)]).
Proof.
  destruct (decide (_regionId s = Some _toBufferDrawRegionId)) as [R|R].
  - exists []. rewrite (enterDrawRegion_inside _ _ R), app_nil_r. auto.
  - destruct (enter_toBuffer_calls s R) as (before & E).
    eexists. split; [exact E|]. right. now exists before.
Qed.

Lemma drawRectangle_dirty_calls p t b x y s :
  exists u,
    calls (set_silhouetteDirty true (_drawRectangle p t b (Some x) (Some y) s)) =
    calls s ++ [twgl_setTextureParameters t; twgl_setUniforms p u;
                twgl_drawBufferInfo (Some renderer_bufferInfo) None].
Proof.
  destruct (drawRectangle_calls p t b x y s) as (u & U). exists u. rewrite <- U.
  generalize (_drawRectangle p t b (Some x) (Some y) s). intros r. destruct r. reflexivity.
Qed.

Lemma upload_fields s :
  _regionId (upload_canvas s) = _regionId s /\
  _framebuffer (upload_canvas s) = _framebuffer s /\
  _bounds (upload_canvas s) = _bounds s /\
  _stampShader (upload_canvas s) = _stampShader s.
Proof. destruct s. repeat split. Qed.

(** The merge: the upload, one entry of the to-buffer region, and the
    rectangle draw of the canvas texture. *)
Lemma merge_guard_calls s :
  exists guard u,
    calls (merge_raster s) =
      calls s ++ upload_calls s ++ guard ++
      [twgl_setTextureParameters (_texture s); twgl_setUniforms (_stampShader s) u;
       twgl_drawBufferInfo (Some renderer_bufferInfo) None] /\
    (_regionId s = Some _toBufferDrawRegionId /\ guard = [] \/
     exists before,
       guard =
         before ++
         [twgl_bindFramebufferInfo (_framebuffer s);
          gl_viewport 0 0 (Rectangle_width (_bounds s)) (Rectangle_height (_bounds s));
          gl_useProgram (_stampShader s);
          twgl_setBuffersAndAttributes (_stampShader s) (Some renderer_bufferInfo)]).
Proof.
  unfold merge_raster.
  destruct (toBuffer_guard (upload_canvas s)) as (guard & G & D).
  destruct (upload_fields s) as (R & F & B & P). rewrite R, F, B, P in D.
  match goal with
  | |- context [_drawRectangle ?p ?t ?b (Some ?x) (Some ?y) ?r] =>
      destruct (drawRectangle_dirty_calls p t b x y r) as (u & U)
  end.
  exists guard, u. split; [|exact D].
  rewrite U, G, upload_calls_spec. now rewrite <- !app_assoc.
Qed.

Lemma merge_fields s :
  _regionId (merge_raster s) = Some _toBufferDrawRegionId /\
  _texture (merge_raster s) = _texture s /\
  _stampShader (merge_raster s) = _stampShader s /\
  _bounds (merge_raster s) = _bounds s /\
  _canvas (merge_raster s) = _canvas s.
Proof.
  pose proof (quiet_upload_to_merge s) as (F & _). unfold frame, surfaces in F.
  destruct (upload_fields s) as (_ & _ & B & P).
  assert (_texture (upload_canvas s) = _texture s /\ _canvas (upload_canvas s) = _canvas s)
    as (T & C) by (destruct s; split; reflexivity).
  split; [|repeat split; congruence].
  unfold merge_raster.
  match goal with
  | |- _regionId (set_silhouetteDirty true (_drawRectangle ?p ?t ?b ?x ?y ?r)) = _ =>
      transitivity (_regionId r);
        [generalize r; intros r0; destruct r0; reflexivity | apply enterDrawRegion_region]
  end.
Qed.

(** [_drawToBuffer (texture)] with a texture that is not the canvas texture:
    the merge of a dirty canvas, one entry of the to-buffer region, and the
    rectangle draw of the texture.  From inside the region with a clean
    canvas the rectangle draw is all there is. *)
Lemma redraw_calls e s :
  Some e <> _texture s ->
  exists mid u,
    calls (_drawToBuffer (Some e) None None s) =
      calls s ++ mid ++
      [twgl_setTextureParameters (Some e); twgl_setUniforms (_stampShader s) u;
       twgl_drawBufferInfo (Some renderer_bufferInfo) None] /\
    (_canvasDirty s = false -> _regionId s = Some _toBufferDrawRegionId -> mid = []).
Proof.
  intros N. unfold _drawToBuffer, _drawToBuffer_body.
  rewrite (bool_decide_eq_true_2 _ N). cbv beta iota delta [andb].
  assert (_drawToBuffer_default s = merge_raster s) as -> by apply drawToBuffer_body_merge.
  destruct (_canvasDirty s) eqn:C.
  - destruct (merge_fields s) as (R & T & P & B & Cv).
    destruct (merge_guard_calls s) as (g1 & u1 & M & _).
    rewrite T, (bool_decide_eq_false_2 _ N), P, B.
    rewrite (enterDrawRegion_inside _ _ R).
    match goal with
    | |- context [_drawRectangle ?p ?t ?b (Some ?x) (Some ?y) ?r] =>
        destruct (drawRectangle_dirty_calls p t b x y r) as (u & U)
    end.
    exists (upload_calls s ++ g1 ++
            [twgl_setTextureParameters (_texture s); twgl_setUniforms (_stampShader s) u1;
             twgl_drawBufferInfo (Some renderer_bufferInfo) None]), u.
    split; [|discriminate].
    rewrite U, M. now rewrite <- !app_assoc.
  - rewrite (bool_decide_eq_false_2 _ N).
    destruct (toBuffer_guard s) as (guard & G & D).
    match goal with
    | |- context [_drawRectangle ?p ?t ?b (Some ?x) (Some ?y) ?r] =>
        destruct (drawRectangle_dirty_calls p t b x y r) as (u & U)
    end.
    exists guard, u. split; [rewrite U, G; now rewrite <- !app_assoc|].
    intros _ R. rewrite (enterDrawRegion_inside _ _ R) in G.
    apply (app_inv_head (calls s)). now rewrite app_nil_r.
Qed.

Lemma finish_calls w h s :
  calls (_setCanvasSize_finish w h s) =
    calls s ++ (if _setCanvasSize_returns w h then [ctx_createImageData w h] else []).
Proof.
  unfold _setCanvasSize_finish, _setCanvasSize_returns.
  destruct (new_Uint8Array _); destruct s; [reflexivity | symmetry; apply app_nil_r].
Qed.

Lemma allocate_stampShader w h s :
  _stampShader (_setCanvasSize_allocate w h s) = _stampShader s.
Proof.
  destruct s as [? ? ? ? ? [f|] [b|] ? ? ? ? ? ? ? ? ? ? ? ? ? ? ? ? ? ? ? ?]; reflexivity.
Qed.

Lemma setCanvasSize_calls w h old s :
  ledger old s ->
  exists e f g mid u,
    _exportTexture s = Some e /\ _framebuffer s = Some f /\ _silhouetteBuffer s = Some g /\
    calls (_setCanvasSize w h s) =
      calls s ++
      [twgl_createTexture (Texture (next_object s)) src_canvas;
       twgl_createTexture (Texture (N.succ (next_object s))) (src_size w h);
       gl_deleteFramebuffer (framebuffer f); gl_deleteFramebuffer (framebuffer g);
       twgl_createFramebufferInfo
         {| framebuffer := Framebuffer (N.succ (N.succ (next_object s)));
            fb_attachment := Some (Texture (N.succ (next_object s)));
            fb_width := w; fb_height := h |};
       twgl_createFramebufferInfo
         {| framebuffer := Framebuffer (N.succ (N.succ (N.succ (next_object s))));
            fb_attachment := None; fb_width := w; fb_height := h |};
       gl_clearColor 0 0 0 0; gl_clear_COLOR_BUFFER_BIT] ++
      mid ++
      [twgl_setTextureParameters (Some e); twgl_setUniforms (_stampShader s) u;
       twgl_drawBufferInfo (Some renderer_bufferInfo) None] ++
      (if _setCanvasSize_returns w h then [ctx_createImageData w h] else []) /\
    (_canvasDirty s = false -> _regionId s = Some _toBufferDrawRegionId -> mid = []).
Proof.
  intros (b & t & e & f & g & Hh & _ & _ & Fe). unfold held in Hh.
  assert (_exportTexture s = Some e) as He by congruence.
  assert (_framebuffer s = Some f) as Hf by congruence.
  assert (_silhouetteBuffer s = Some g) as Hg by congruence.
  destruct (allocate_trace w h s f g Hf Hg) as (C & H & _). cbv zeta in C, H.
  assert (Some e <> _texture (_setCanvasSize_allocate w h s)) as N.
  { unfold held in H.
    replace (_texture (_setCanvasSize_allocate w h s)) with (Some (Texture (next_object s)))
      by congruence.
    intros [= ->]. cbv [texture_id] in Fe. lia. }
  destruct (redraw_calls e _ N) as (mid & u & D & Z).
  rewrite allocate_stampShader in D.
  destruct (allocate_flags w h s) as (Fc & _). rewrite Fc in Z.
  pose proof (allocate_place w h s) as P. unfold place in P.
  replace (_regionId (_setCanvasSize_allocate w h s)) with (_regionId s) in Z by congruence.
  exists e, f, g, mid, u.
  split; [exact He|]. split; [exact Hf|]. split; [exact Hg|]. split; [|exact Z].
  unfold _setCanvasSize. rewrite He, finish_calls, D, C.
  now rewrite <- !app_assoc.
Qed.

(** X19.  A change of the native size on a reachable state makes its calls
    in this order: it creates the two new textures, deletes the two
    framebuffers held, creates the two new framebuffers and clears; then
    come the calls of the merge of a dirty canvas and of the entry of the
    to-buffer region, if any; then the rectangle draw of the export texture
    held before, with the stamp shader; last the creation of the image data,
    unless line 636 throws.  From inside the to-buffer region with a clean
    canvas nothing comes between the clear and the rectangle draw: the pen
    layer makes no bind call after the creation of the two framebuffers. *)
Theorem size_change_redraws_export_texture id nativeSize ops newSize :
  let s := run ops (constructor id nativeSize) in
  let w := fst newSize in
  let h := snd newSize in
  exists e f g mid u,
    _exportTexture s = Some e /\ _framebuffer s = Some f /\ _silhouetteBuffer s = Some g /\
    calls (onNativeSizeChanged newSize s) =
      calls s ++
      [twgl_createTexture (Texture (next_object s)) src_canvas;
       twgl_createTexture (Texture (N.succ (next_object s))) (src_size w h);
       gl_deleteFramebuffer (framebuffer f); gl_deleteFramebuffer (framebuffer g);
       twgl_createFramebufferInfo
         {| framebuffer := Framebuffer (N.succ (N.succ (next_object s)));
            fb_attachment := Some (Texture (N.succ (next_object s)));
            fb_width := w; fb_height := h |};
       twgl_createFramebufferInfo
         {| framebuffer := Framebuffer (N.succ (N.succ (N.succ (next_object s))));
            fb_attachment := None; fb_width := w; fb_height := h |};
       gl_clearColor 0 0 0 0; gl_clear_COLOR_BUFFER_BIT] ++
      mid ++
      [twgl_setTextureParameters (Some e); twgl_setUniforms (_stampShader s) u;
       twgl_drawBufferInfo (Some renderer_bufferInfo) None] ++
      (if _setCanvasSize_returns w h then [ctx_createImageData w h] else []) /\
    (_canvasDirty s = false -> _regionId s = Some _toBufferDrawRegionId -> mid = []).
Proof.
  intros s w h. destruct (reachable_ledger id nativeSize ops) as (old & L). fold s in L.
  clearbody s. unfold onNativeSizeChanged.
  assert (ledger old (set_nativeSize newSize s)) as L'
    by (revert L; apply ledger_kept;
        [destruct s; reflexivity.. | apply calm_same; destruct s; reflexivity]).
  destruct (setCanvasSize_calls w h old _ L')
    as (e & f & g & mid & u & He & Hf & Hg & C & Z).
  exists e, f, g, mid, u.
  replace (_exportTexture (set_nativeSize newSize s)) with (_exportTexture s) in He
    by (destruct s; reflexivity).
  replace (_framebuffer (set_nativeSize newSize s)) with (_framebuffer s) in Hf
    by (destruct s; reflexivity).
  replace (_silhouetteBuffer (set_nativeSize newSize s)) with (_silhouetteBuffer s) in Hg
    by (destruct s; reflexivity).
  replace (next_object (set_nativeSize newSize s)) with (next_object s) in C
    by (destruct s; reflexivity).
  replace (calls (set_nativeSize newSize s)) with (calls s) in C
    by (destruct s; reflexivity).
  replace (_stampShader (set_nativeSize newSize s)) with (_stampShader s) in C
    by (destruct s; reflexivity).
  replace (_canvasDirty (set_nativeSize newSize s)) with (_canvasDirty s) in Z
    by (destruct s; reflexivity).
  replace (_regionId (set_nativeSize newSize s)) with (_regionId s) in Z
    by (destruct s; reflexivity).
  auto 10.
Qed.

(** After a line and [updateSilhouette] the reference stage is inside the
    to-buffer region with a clean canvas. *)
Example size_change_inside_toBuffer_region :
  let s := run [op_drawLine red_pen 0 0 10 10; op_updateSilhouette] stage in
  _canvasDirty s = false /\ _regionId s = Some _toBufferDrawRegionId.
Proof. vm_compute. split; reflexivity. Qed.

(** ** The claims on the pixel offset and on the read-back *)



(** C8.  On a pen layer whose constructor returned, in every reachable
    state: with a clean silhouette, [updateSilhouette] returns the state
    unchanged.  With a dirty one and a dirty canvas it first merges: it
    binds the canvas texture, uploads the canvas into it and clears the
    canvas, enters the to-buffer region, and draws the canvas texture as one
    rectangle with the stamp shader.  With a clean canvas it only enters the
    to-buffer region.  Then it makes exactly three more calls: the read-back
    of the rectangle [(0, 0, width, height)] of the canvas, whose size is
    the size of the export framebuffer, the copy of the pixel buffer into
    the image data, and the silhouette update with the premultiplied flag
    set; afterwards both dirty flags are false.  The read-back itself binds
    no framebuffer: the entry of the region binds the export framebuffer,
    unless the region was entered before. *)
Theorem updateSilhouette_reads_back id nativeSize ops :
  constructor_returns nativeSize = true ->
  let s := run ops (constructor id nativeSize) in
  let s' := updateSilhouette s in
  let w := canvas_width (_canvas s) in
  let h := canvas_height (_canvas s) in
  if _silhouetteDirty s then
    (exists guard,
       (if _canvasDirty s then
          exists u,
            calls s' =
              calls s ++
              [gl_bindTexture (_texture s); gl_texImage2D_canvas; ctx_clearRect 0 0 w h] ++
              guard ++
              [twgl_setTextureParameters (_texture s);
               twgl_setUniforms (_stampShader s) u;
               twgl_drawBufferInfo (Some renderer_bufferInfo) None] ++
              [gl_readPixels 0 0 w h; imageData_set (_silhouettePixels s);
               silhouette_update (_silhouetteImageData s) true]
        else
          calls s' =
            calls s ++ guard ++
            [gl_readPixels 0 0 w h; imageData_set (_silhouettePixels s);
             silhouette_update (_silhouetteImageData s) true]) /\
       (_regionId s = Some _toBufferDrawRegionId /\ guard = [] \/
        exists before,
          guard =
            before ++
            [twgl_bindFramebufferInfo (_framebuffer s);
             gl_viewport 0 0 (Rectangle_width (_bounds s)) (Rectangle_height (_bounds s));
             gl_useProgram (_stampShader s);
             twgl_setBuffersAndAttributes (_stampShader s) (Some renderer_bufferInfo)])) /\
    is_Some (_silhouettePixels s) /\ is_Some (_silhouetteImageData s) /\
    backed s /\
    _silhouetteDirty s' = false /\ _canvasDirty s' = false
  else s' = s.
Proof.
  intros Rt s s' w h.
  pose proof (reachable_backed id nativeSize ops) as Hb.
  pose proof (reachable_has_buffers id nativeSize ops Rt) as B.
  fold s in Hb, B. subst s' w h. clearbody s.
  destruct (_silhouetteDirty s) eqn:E; [|now apply updateSilhouette_clean].
  rewrite (updateSilhouette_dirty _ E), B.
  destruct (read_back_flags (synchronized s)) as (F1 & F2).
  rewrite F1, F2, synchronized_canvasDirty, read_back_calls_spec. unfold read_back_calls.
  pose proof (synchronized_surfaces s) as S. unfold surfaces in S.
  replace (_canvas (synchronized s)) with (_canvas s) by congruence.
  replace (_silhouettePixels (synchronized s)) with (_silhouettePixels s) by congruence.
  replace (_silhouetteImageData (synchronized s)) with (_silhouetteImageData s) by congruence.
  clear S F1 F2.
  split;
    [|unfold has_buffers in B;
      destruct (_silhouetteImageData s), (_silhouettePixels s); try discriminate;
      split; [now eexists|]; split; [now eexists|]; split; [exact Hb|]; split; reflexivity].
  unfold synchronized. destruct (_canvasDirty s) eqn:C.
  - destruct (merge_guard_calls s) as (guard & u & M & D).
    destruct (merge_fields s) as (R & _).
    rewrite (enterDrawRegion_inside _ _ R), M. unfold upload_calls.
    exists guard. split; [|exact D]. exists u. now rewrite <- !app_assoc.
  - destruct (toBuffer_guard s) as (guard & G & D).
    exists guard. split; [|exact D]. rewrite G. now rewrite <- !app_assoc.
Qed.

(** A stamp on the reference stage, whose constructor returned: the canvas
    and the silhouette are dirty. *)
Lemma updateSilhouette_reads_back_witness :
  constructor_returns (480, 360)%float = true /\
  let s := run [op_drawStamp 0 10 20] (constructor 1 (480, 360)%float) in
  let s' := updateSilhouette s in
  let w := canvas_width (_canvas s) in
  let h := canvas_height (_canvas s) in
  if _silhouetteDirty s then
    (exists guard,
       (if _canvasDirty s then
          exists u,
            calls s' =
              calls s ++
              [gl_bindTexture (_texture s); gl_texImage2D_canvas; ctx_clearRect 0 0 w h] ++
              guard ++
              [twgl_setTextureParameters (_texture s);
               twgl_setUniforms (_stampShader s) u;
               twgl_drawBufferInfo (Some renderer_bufferInfo) None] ++
              [gl_readPixels 0 0 w h; imageData_set (_silhouettePixels s);
               silhouette_update (_silhouetteImageData s) true]
        else
          calls s' =
            calls s ++ guard ++
            [gl_readPixels 0 0 w h; imageData_set (_silhouettePixels s);
             silhouette_update (_silhouetteImageData s) true]) /\
       (_regionId s = Some _toBufferDrawRegionId /\ guard = [] \/
        exists before,
          guard =
            before ++
            [twgl_bindFramebufferInfo (_framebuffer s);
             gl_viewport 0 0 (Rectangle_width (_bounds s)) (Rectangle_height (_bounds s));
             gl_useProgram (_stampShader s);
             twgl_setBuffersAndAttributes (_stampShader s) (Some renderer_bufferInfo)])) /\
    is_Some (_silhouettePixels s) /\ is_Some (_silhouetteImageData s) /\
    backed s /\
    _silhouetteDirty s' = false /\ _canvasDirty s' = false
  else s' = s.
Proof.
  split; [reflexivity|].
  apply (updateSilhouette_reads_back 1 (480, 360)%float [op_drawStamp 0 10 20]).
  reflexivity.
Defined.
